(** * stardist/bioimageio_utils.py: export of a StarDist model to bioimage.io

    A shallow embedding of [src/stardist/bioimageio_utils.py].

    - Python strings are [string]s of ASCII characters, with the [str]
      methods the module uses written out ([lower], [upper], [replace],
      [split], [strip], [join], the [in] test).
    - [pathlib.Path] values are POSIX pure paths: an absolute flag and the
      list of components.
    - Python exceptions are the constructors of [exn]; a computation is a
      value of [M A]: the trace of calls it made to the outside world (file
      system, the model object, the packaging library), in order, and either
      the value it returns or the exception that ended it.
    - Everything the module does not define itself (installed packages, the
      directory listing, csbdeep, numpy, tensorflow, the model object's
      methods, bioimageio's [build_model]) is read from a record of
      [externals] or from the [model_t] record, and the theorems hold for
      every choice of them. *)

From Stdlib Require Import QArith ZArith String Ascii List Bool Lia DecimalString.
From stdpp Require Import gmap strings list sorting.

Local Open Scope string_scope.
Local Open Scope Z_scope.

(** ** Python [str] methods *)

Module PyStr.

Definition newline : string := String (ascii_of_nat 10) EmptyString.

Definition is_upper (c : ascii) : bool :=
  let n := nat_of_ascii c in (Nat.leb 65 n && Nat.leb n 90)%bool.

Definition is_lower (c : ascii) : bool :=
  let n := nat_of_ascii c in (Nat.leb 97 n && Nat.leb n 122)%bool.

Definition lower_char (c : ascii) : ascii :=
  if is_upper c then ascii_of_nat (nat_of_ascii c + 32) else c.

Definition upper_char (c : ascii) : ascii :=
  if is_lower c then ascii_of_nat (nat_of_ascii c - 32) else c.

(** [s.lower()] and [s.upper()] *)
Fixpoint lower (s : string) : string :=
  match s with
  | EmptyString => EmptyString
  | String c s' => String (lower_char c) (lower s')
  end.

Fixpoint upper (s : string) : string :=
  match s with
  | EmptyString => EmptyString
  | String c s' => String (upper_char c) (upper s')
  end.

Definition len (s : string) : Z := Z.of_nat (String.length s).

(** [s.startswith(p)] *)
Fixpoint startswith (p s : string) : bool :=
  match p, s with
  | EmptyString, _ => true
  | String _ _, EmptyString => false
  | String a p', String b s' => (Ascii.eqb a b && startswith p' s')%bool
  end.

(** [sub in s] *)
Fixpoint contains (sub s : string) : bool :=
  (startswith sub s ||
   match s with
   | EmptyString => false
   | String _ s' => contains sub s'
   end)%bool.

(** [s.replace(old, new)] for a non-empty [old]: scan from the left; where
    [old] starts, emit [new] and skip [old]; [skip] counts the characters
    of a matched [old] still to drop. *)
Fixpoint replace_from (old new s : string) (skip : nat) : string :=
  match s with
  | EmptyString => EmptyString
  | String c s' =>
      match skip with
      | S k => replace_from old new s' k
      | O =>
          if startswith old s
          then new +:+ replace_from old new s' (String.length old - 1)
          else String c (replace_from old new s' 0)
      end
  end.

(** [s.replace("", new)] puts [new] before every character and at the end. *)
Fixpoint intersperse_all (new s : string) : string :=
  match s with
  | EmptyString => new
  | String c s' => new +:+ String c (intersperse_all new s')
  end.

Definition replace (old new s : string) : string :=
  match old with
  | EmptyString => intersperse_all new s
  | _ => replace_from old new s 0
  end.

(** [sep.join(l)] *)
Fixpoint join (sep : string) (l : list string) : string :=
  match l with
  | [] => EmptyString
  | [x] => x
  | x :: l' => x +:+ sep +:+ join sep l'
  end.

(** [s.split(c)] for a one-character separator: the pieces between the
    separators, empty pieces kept. *)
Fixpoint split_char (sep : ascii) (s : string) : list string :=
  match s with
  | EmptyString => [EmptyString]
  | String c s' =>
      if Ascii.eqb c sep then EmptyString :: split_char sep s'
      else match split_char sep s' with
           | [] => [String c EmptyString]
           | w :: ws => String c w :: ws
           end
  end.

Definition is_space (c : ascii) : bool :=
  let n := nat_of_ascii c in
  (Nat.eqb n 32 || (Nat.leb 9 n && Nat.leb n 13) || (Nat.leb 28 n && Nat.leb n 31))%bool.

Fixpoint lstrip (s : string) : string :=
  match s with
  | EmptyString => EmptyString
  | String c s' => if is_space c then lstrip s' else s
  end.

Fixpoint rstrip (s : string) : string :=
  match s with
  | EmptyString => EmptyString
  | String c s' =>
      match rstrip s' with
      | EmptyString => if is_space c then EmptyString else String c EmptyString
      | r => String c r
      end
  end.

(** [s.strip()] *)
Definition strip (s : string) : string := rstrip (lstrip s).

(** [s.rfind(c)] for a one-character [c]: the last index of [c], -1 when
    there is none. *)
Fixpoint rfind_from (c : ascii) (s : string) (i acc : Z) : Z :=
  match s with
  | EmptyString => acc
  | String d s' => rfind_from c s' (i + 1) (if Ascii.eqb d c then i else acc)
  end.

Definition rfind_char (c : ascii) (s : string) : Z := rfind_from c s 0 (-1).

(** [s[i:]] for [0 <= i] *)
Fixpoint drop (n : nat) (s : string) : string :=
  match n, s with
  | O, _ => s
  | S k, EmptyString => EmptyString
  | S k, String _ s' => drop k s'
  end.

(** [str(n)] for a non-negative integer *)
Definition of_nat (n : nat) : string := NilEmpty.string_of_uint (Nat.to_uint n).

(** [fnmatch]-style matching of a name against a pattern with the
    wildcards [*] and [?] (the character classes of [fnmatch] do not occur
    in the patterns of this module). *)
Fixpoint fnmatch (pat : string) : string -> bool :=
  match pat with
  | EmptyString => fun s => match s with EmptyString => true | _ => false end
  | String p pat' =>
      if Ascii.eqb p "*" then
        fix star (s : string) : bool :=
          (fnmatch pat' s ||
           match s with
           | EmptyString => false
           | String _ s' => star s'
           end)%bool
      else if Ascii.eqb p "?" then
        fun s => match s with
                 | EmptyString => false
                 | String _ s' => fnmatch pat' s'
                 end
      else
        fun s => match s with
                 | EmptyString => false
                 | String d s' => (Ascii.eqb p d && fnmatch pat' s')%bool
                 end
  end.

End PyStr.

(** ** [pathlib] paths (POSIX flavour) *)

Module PyPath.

Record path := mkPath { is_abs : bool; parts : list string }.

Definition eqb (p q : path) : bool :=
  (Bool.eqb (is_abs p) (is_abs q) &&
   bool_decide (parts p = parts q))%bool.

(** The components of a string given to [Path(...)] or to [/]: the pieces
    between slashes, without the empty ones and the [.] ones. *)
Definition components (s : string) : list string :=
  List.filter (fun c => negb (String.eqb c EmptyString || String.eqb c "."))
              (PyStr.split_char "/" s).

(** [Path(s)] *)
Definition of_string (s : string) : path :=
  mkPath (PyStr.startswith "/" s) (components s).

(** [p / s]: an absolute [s] replaces [p]. *)
Definition joinpath (p : path) (s : string) : path :=
  if PyStr.startswith "/" s then of_string s
  else mkPath (is_abs p) (parts p ++ components s)%list.

(** [p.name]: the last component, empty when there is none. *)
Definition name (p : path) : string := List.last (parts p) EmptyString.

(** [p.suffix]: the part of the name from its last dot on, when that dot is
    neither the first nor the last character of the name. *)
Definition suffix (p : path) : string :=
  let n := name p in
  let i := PyStr.rfind_char "." n in
  if ((0 <? i) && (i <? PyStr.len n - 1))%bool
  then PyStr.drop (Z.to_nat i) n
  else EmptyString.

(** [p.parent] *)
Definition parent (p : path) : path :=
  mkPath (is_abs p) (List.removelast (parts p)).

(** [str(p)] *)
Definition to_string (p : path) : string :=
  if is_abs p then "/" +:+ PyStr.join "/" (parts p)
  else match parts p with
       | [] => "."
       | _ => PyStr.join "/" (parts p)
       end.

End PyPath.

Abbreviation path := PyPath.path.
Notation "p // s" := (PyPath.joinpath p s) (at level 40, left associativity).

(** ** Python values that end up in the keyword arguments of [build_model] *)

(** A Python [float]; [int] arguments of a comparison are [Finite] too. *)
Inductive pyfloat : Type :=
| Finite (q : Q)
| PosInf
| NegInf
| NaN.

(** [a <= b] and [a < b] on floats: every comparison with [nan] is false. *)
Definition float_le (a b : pyfloat) : bool :=
  match a, b with
  | NaN, _ | _, NaN => false
  | NegInf, _ => true
  | _, PosInf => true
  | Finite x, Finite y => Qle_bool x y
  | _, _ => false
  end.

Definition float_lt (a b : pyfloat) : bool :=
  match a, b with
  | NaN, _ | _, NaN => false
  | Finite x, Finite y => negb (Qle_bool y x)
  | NegInf, NegInf => false
  | PosInf, _ => false
  | NegInf, _ => true
  | _, PosInf => true
  | _, _ => false
  end.

Inductive pyval : Type :=
| VNone
| VStr (s : string)
| VInt (z : Z)
| VFloat (x : pyfloat)
| VPath (p : path)
| VList (l : list pyval)
| VDict (d : gmap string pyval).

(** [d.update(d')]: the entries of [d'] win. *)
Definition dict_update (d d' : gmap string pyval) : gmap string pyval := d' ∪ d.

(** [dict(k1=v1, ...)] *)
Definition dict_of (l : list (string * pyval)) : gmap string pyval :=
  List.fold_left (fun d kv => <[kv.1 := kv.2]> d) l ∅.

(** [[x] * n] for an integer [n]: empty when [n <= 0]. *)
Definition list_times {A} (l : list A) (n : Z) : list A :=
  List.concat (List.repeat l (Z.to_nat n)).

(** ** Exceptions and computations *)

Inductive exn : Type :=
| RuntimeError (msg : string)
| ValueError (msg : string)
| NotImplementedError (msg : string)
| TypeError (msg : string)
| NameError (msg : string)
| AttributeError (msg : string)
| ZeroDivisionError (msg : string)
| UnboundLocalError (msg : string)
| IndexError (msg : string)
| AssertionError
| OtherError (cls msg : string).

Inductive result (A : Type) : Type :=
| Ok (a : A)
| Raise (e : exn).
Arguments Ok {A} a.
Arguments Raise {A} e.

(** A directory entry as [glob] yields it: [f.name] and [f.stat().st_mtime]. *)
Record dirent := mkDirent { d_name : string; d_mtime : Q }.

(** What [model.export_TF] returns, as far as the module reads it. *)
Record csbdeep_model := mkCsbdeep { input_names : list string }.

Section World.

(** numpy arrays are opaque: only library functions look inside. *)
Context {array : Type}.

(** *** Calls to the outside world, as they appear in a trace *)
Inductive event : Type :=
| EvMkdir (p : path)                          (* p.mkdir(exist_ok=True, parents=True) *)
| EvWriteText (p : path) (text : string)      (* with open(p, "w") as f: f.write(text) *)
| EvNpSave (p : path) (a : array)             (* np.save(p, a) *)
| EvLoadWeights (name : string)               (* model.load_weights(name) *)
| EvExportTF (p : path)                       (* model.export_TF(p, single_output=True, upsample_grid=True) *)
| EvExtractAll (zip dest : path)              (* ZipFile(zip, "r").extractall(dest) *)
| EvTFPredict (assets : path) (x : array)     (* load the saved model at assets, run it on x *)
| EvBuildModel (name : string) (output_path : path) (kwargs : gmap string pyval).

(** *** The computation monad: trace of calls, then value or exception *)
Definition M (A : Type) : Type := (list event * result A)%type.

Definition ret {A} (a : A) : M A := ([], Ok a).

Definition raise {A} (e : exn) : M A := ([], Raise e).

Definition bind {A B} (m : M A) (f : A -> M B) : M B :=
  match m with
  | (t, Ok a) => let (t', r) := f a in ((t ++ t')%list, r)
  | (t, Raise e) => (t, Raise e)
  end.

(** A library call that acts on the outside world: recorded, then its
    outcome. *)
Definition call {A} (ev : event) (outcome : result A) : M A := ([ev], outcome).

(** A library call that only computes. *)
Definition pure_call {A} (outcome : result A) : M A := ([], outcome).

(** [cond or _raise(e)] *)
Definition or_raise (cond : bool) (e : exn) : M unit :=
  if cond then ret tt else raise e.

(** [assert cond] *)
Definition assert (cond : bool) : M unit :=
  if cond then ret tt else raise AssertionError.

(** Reading a local variable that some branches leave unassigned. *)
Definition local {A} (name : string) (v : option A) : M A :=
  match v with
  | Some a => ret a
  | None =>
      raise (UnboundLocalError
               ("local variable '" +:+ name +:+ "' referenced before assignment"))
  end.

Fixpoint mapM {A B} (f : A -> M B) (l : list A) : M (list B) :=
  match l with
  | [] => ret []
  | x :: l' =>
      bind (f x) (fun y => bind (mapM f l') (fun ys => ret (y :: ys)))
  end.

(** *** The environment *)
Record externals : Type := mkExternals {
  (* do "from importlib_metadata import metadata" and
     "from bioimageio.core.build_spec import build_model" succeed? *)
  can_import : bool;
  (* does a first "from stardist.models import StarDist2D, StarDist3D"
     succeed? (it loads TensorFlow) *)
  models_import : result unit;
  (* metadata(pkg), then package_data[key] *)
  pkg_metadata : string -> result (string -> result (option string));
  (* map(str, get_distribution(pkg).requires()) *)
  pkg_requires : string -> result (list string);
  (* the entries of a directory, in the order the system lists them *)
  scandir : path -> list dirent;
  (* csbdeep.utils *)
  axes_check_and_normalize : string -> result string;
  move_image_axes : array -> string -> string -> result array;
  normalize : array -> pyfloat -> pyfloat -> result array;
  (* csbdeep.utils.tf.IS_TF_1 and the two ways to run a saved model *)
  is_tf_1 : bool;
  tf1_predict : path -> array -> result array;
  tf2_predict : path -> array -> result array;
  (* iteration over the first axis of an array *)
  np_iter : array -> result (list array);
  (* file system, numpy and zipfile writes *)
  os_mkdir : path -> result unit;
  os_write_text : path -> string -> result unit;
  np_save : path -> array -> result unit;
  zip_extractall : path -> path -> result unit;
  (* bioimageio.core.build_spec.build_model(name=, output_path=, **kwargs) *)
  build_model : string -> path -> gmap string pyval -> result unit
}.

Record thresholds_t := mkThresholds { nms : pyfloat; prob : pyfloat }.

Record config_t := mkConfig {
  axes : string;
  n_dim : Z;
  n_rays : Z;
  grid : list Z
}.

(** The model object, as far as the module reads it. *)
Record model_t : Type := mkModel {
  (* isinstance(model, (StarDist2D, StarDist3D)) *)
  is_stardist : bool;
  logdir : path;
  config : config_t;
  thresholds : thresholds_t;
  _axes_out : string;
  _is_multiclass : bool;
  _axes_div_by : string -> result (list Z);
  load_weights : string -> result unit;
  export_TF : path -> result csbdeep_model;
  predict : array -> result (list array)
}.

End World.

Arguments event : clear implicits.
Arguments M : clear implicits.
Arguments externals : clear implicits.
Arguments model_t : clear implicits.

Declare Scope py_scope.
Delimit Scope py_scope with py.
Notation "'do' x <- m ;; k" := (bind m (fun x => k))
  (at level 10, x name, m at level 99, k at level 200) : py_scope.
Notation "'do' ' pat <- m ;; k" := (bind m (fun x => match x with pat => k end))
  (at level 10, pat pattern, m at level 99, k at level 200) : py_scope.
Notation "'run' m ;; k" := (bind m (fun _ => k))
  (at level 10, m at level 99, k at level 200) : py_scope.
Local Open Scope py_scope.

(** ** The functions of [bioimageio_utils.py] *)

(** What [_import] returns: the pair [(metadata, build_model)]; the two
    functions themselves are [pkg_metadata] and [build_model] of the
    environment. *)
Inductive imports : Type := Imports.

(** Key function of [sorted]: insertion of [x] before the first element whose
    key is not smaller keeps elements of equal key in their original order,
    as Python's stable [sorted] does. *)
Fixpoint insert_by {A} (key : A -> Q) (x : A) (l : list A) : list A :=
  match l with
  | [] => [x]
  | y :: l' =>
      if Qle_bool (key x) (key y) then x :: y :: l'
      else y :: insert_by key x l'
  end.

(** [sorted(l, key=key)] *)
Fixpoint sorted {A} (key : A -> Q) (l : list A) : list A :=
  match l with
  | [] => []
  | x :: l' => insert_by key x (sorted key l')
  end.

Section Functions.

Context {array : Type}.
Variable E : externals array.

Definition import_error_msg : string :=
  "Required libraries are missing for bioimage.io model export." +:+ PyStr.newline +:+
  "Please install StarDist as follows: pip install 'stardist[bioimageio]'" +:+ PyStr.newline +:+
  "(You do not need to uninstall StarDist first.)".

(** [_import(error=True)] *)
Definition _import (error : bool) : M array (option imports) :=
  if can_import E then ret (Some Imports)
  else if error then raise (RuntimeError import_error_msg)
  else ret None.

(** [a, b = v] for the value [v] that [_import] returned *)
Definition unpack (v : option imports) : M array imports :=
  match v with
  | Some i => ret i
  | None => raise (TypeError "cannot unpack non-iterable NoneType object")
  end.

(** [_create_stardist_dependencies(outdir)] *)
Definition _create_stardist_dependencies (outdir : path) : M array string :=
  do requires <- pure_call (pkg_requires E "stardist") ;;
  let reqs := "tensorflow" :: requires in
  let path := outdir // "requirements.txt" in
  run call (EvWriteText path (PyStr.join PyStr.newline reqs))
           (os_write_text E path (PyStr.join PyStr.newline reqs)) ;;
  ret ("pip:" +:+ PyPath.to_string path).

Definition doc_text : string :=
  "# StarDist Model" +:+ PyStr.newline +:+
  "This is a model for object detection with star-convex shapes." +:+ PyStr.newline +:+
  "Please see the [StarDist repository](https://github.com/stardist/stardist) for details.".

(** [_create_stardist_doc(outdir)] *)
Definition _create_stardist_doc (outdir : path) : M array path :=
  let doc_path := outdir // "README.md" in
  run call (EvWriteText doc_path doc_text) (os_write_text E doc_path doc_text) ;;
  ret doc_path.

(** A string-or-None read from the package metadata, as a value. *)
Definition opt_str (o : option string) : pyval :=
  match o with
  | Some s => VStr s
  | None => VNone
  end.

Definition doi_2d : string := "https://doi.org/10.1007/978-3-030-00934-2_30".
Definition doi_3d : string := "https://doi.org/10.1109/WACV45572.2020.9093435".

(** [_get_stardist_metadata(outdir)] *)
Definition _get_stardist_metadata (outdir : path) : M array (gmap string pyval) :=
  do imp <- _import true ;;
  run unpack imp ;;
  do package_data <- pure_call (pkg_metadata E "stardist") ;;
  do description <- pure_call (package_data "Summary") ;;
  do author <- pure_call (package_data "Author") ;;
  do authors <-
    match author with
    | Some a =>
        ret (List.map (fun name => VDict {[ "name" := VStr (PyStr.strip name) ]})
                      (PyStr.split_char "," a))
    | None => raise (AttributeError "'NoneType' object has no attribute 'split'")
    end ;;
  do git_repo <- pure_call (package_data "Home-Page") ;;
  do license <- pure_call (package_data "License") ;;
  do dependencies <- _create_stardist_dependencies outdir ;;
  do documentation <- _create_stardist_doc outdir ;;
  ret (list_to_map
         [ ("description", opt_str description);
           ("authors", VList authors);
           ("git_repo", opt_str git_repo);
           ("license", opt_str license);
           ("dependencies", VStr dependencies);
           ("cite", VDict (list_to_map
              [ ("Cell Detection with Star-Convex Polygons", VStr doi_2d);
                ("Star-convex Polyhedra for 3D Object Detection and Segmentation in Microscopy",
                 VStr doi_3d) ]));
           ("tags", VList [VStr "stardist"; VStr "segmentation";
                           VStr "instance segmentation"; VStr "object detection";
                           VStr "tensorflow"]);
           ("covers", VList [VStr "https://raw.githubusercontent.com/stardist/stardist/master/images/stardist_logo.jpg"]);
           ("documentation", VPath documentation) ]).

Definition weights_ext : list string := ["*.h5"; "*.hdf5"].

(** [dir.glob(pattern)] for a pattern without a slash: the entries of the
    directory whose name matches. *)
Definition glob (dir : path) (pattern : string) : list dirent :=
  List.filter (fun f => PyStr.fnmatch pattern (d_name f)) (scandir E dir).

(** [_get_weights_name(model, prefer="best")] *)
Definition _get_weights_name (model : model_t array) (prefer : string) : M array string :=
  let weights_files := List.concat (List.map (glob (logdir model)) weights_ext) in
  let weights_files := List.rev (sorted d_mtime weights_files) in
  if Nat.eqb (List.length weights_files) 0 then
    raise (ValueError ("Couldn't find any network weights (" +:+
                       PyStr.join ", " weights_ext +:+ ") to load."))
  else
    let weights_preferred :=
      List.filter (fun f => PyStr.contains prefer (d_name f)) weights_files in
    match (if Nat.ltb 0 (List.length weights_preferred)
           then List.hd_error weights_preferred
           else List.hd_error weights_files) with
    | Some weights_chosen => ret (d_name weights_chosen)
    | None => raise (IndexError "list index out of range")
    end.

(** [_predict_tf(model_path, test_input)] *)
Definition _predict_tf (model_path : path) (test_input : array) : M array array :=
  let model_assets := PyPath.parent model_path // "tf_model" in
  run call (EvExtractAll model_path model_assets)
           (zip_extractall E model_path model_assets) ;;
  if is_tf_1 E then
    call (EvTFPredict model_assets test_input) (tf1_predict E model_assets test_input)
  else
    call (EvTFPredict model_assets test_input) (tf2_predict E model_assets test_input).

Definition test_output_name (i : nat) : string :=
  "test_output" +:+ PyStr.of_nat i +:+ ".npy".

(** The loop [for i, out in enumerate(test_outputs)], started at index [i]
    with [out_paths] as collected so far. *)
Fixpoint save_outputs (outdir : path) (output_axes bioimageio_output_axes : string)
         (i : nat) (outs : list array) (out_paths : list path) : M array (list path) :=
  match outs with
  | [] => ret out_paths
  | out :: outs' =>
      let p := outdir // test_output_name i in
      do moved <- pure_call (move_image_axes E out output_axes bioimageio_output_axes) ;;
      run call (EvNpSave p moved) (np_save E p moved) ;;
      save_outputs outdir output_axes bioimageio_output_axes (S i) outs' (out_paths ++ [p])%list
  end.

Definition zlen {A} (l : list A) : Z := Z.of_nat (List.length l).

(** The locals that the second [if mode == ...] of
    [_get_weights_and_model_metadata] assigns: [None] is an unassigned one. *)
Record mode_locals := mkLocals {
  l_input_names : option (list string);
  l_output_names : option (list string);
  l_output_n_channels : option (list Z);
  l_output_scale : option (list pyval)
}.

(** [_get_weights_and_model_metadata(outdir, model, test_input, input_axes,
    mode, prefer_weights, min_percentile, max_percentile)] *)
Definition _get_weights_and_model_metadata
    (outdir : path) (model : model_t array) (test_input : array)
    (input_axes mode prefer_weights : string)
    (min_percentile max_percentile : pyfloat) : M array (gmap string pyval) :=
  (* get the path to the weights *)
  do weights_name <- _get_weights_name model prefer_weights ;;
  do '(weight_uri, model_csbdeep) <-
    (if String.eqb mode "keras_hdf5" then
       raise (NotImplementedError "Export to keras format is not supported yet")
     else if String.eqb mode "tensorflow_saved_model_bundle" then
       let weight_uri := logdir model // "TF_SavedModel.zip" in
       run call (EvLoadWeights weights_name) (load_weights model weights_name) ;;
       do model_csbdeep <- call (EvExportTF weight_uri) (export_TF model weight_uri) ;;
       ret (weight_uri, model_csbdeep)
     else
       raise (ValueError ("Unsupported mode: " +:+ mode))) ;;
  let axes := PyStr.lower (axes (config model)) in
  let net_axes_in := axes in
  do normalized <- pure_call (axes_check_and_normalize E (_axes_out model)) ;;
  let net_axes_out := PyStr.lower normalized in
  let ndim_tensor := n_dim (config model) + 2 in
  (* input shape including batch size *)
  do div_by <- pure_call (_axes_div_by model net_axes_in) ;;
  do locals <-
    (if String.eqb mode "keras_hdf5" then
       let output_names :=
         (["prob"; "dist"] ++ (if _is_multiclass model then ["class_prob"] else []))%list in
       let output_n_channels :=
         ([1; n_rays (config model)] ++ (if _is_multiclass model then [1] else []))%list in
       do inv_grid <-
         mapM (fun g => if g =? 0 then raise (ZeroDivisionError "division by zero")
                        else ret (VFloat (Finite (/ inject_Z g))))
              (grid (config model)) ;;
       let output_scale := ([VInt 1] ++ inv_grid ++ [VInt 0])%list in
       ret (mkLocals None (Some output_names) (Some output_n_channels) (Some output_scale))
     else if String.eqb mode "tensorflow_saved_model_bundle" then
       if _is_multiclass model then
         raise (NotImplementedError
                  "Tensorflow SavedModel not supported for multiclass models yet")
       else
         let input_names := input_names model_csbdeep in
         let output_names := ["output"] in
         let output_n_channels := [1 + n_rays (config model)] in
         let output_scale := (list_times [VInt 1] (ndim_tensor - 1) ++ [VInt 0])%list in
         ret (mkLocals (Some input_names) (Some output_names)
                       (Some output_n_channels) (Some output_scale))
     else ret (mkLocals None None None None)) ;;
  do imp <- _import true ;;
  run unpack imp ;;
  do package_data <- pure_call (pkg_metadata E "stardist") ;;
  do version <- pure_call (package_data "Version") ;;
  let config : gmap string pyval :=
    list_to_map
      [ ("stardist", VDict (list_to_map
          [ ("stardist_version", opt_str version);
            ("thresholds", VDict (list_to_map
               [ ("nms", VFloat (nms (thresholds model)));
                 ("prob", VFloat (prob (thresholds model))) ])) ])) ] in
  do input_names <- local "input_names" (l_input_names locals) ;;
  let n_inputs := zlen input_names in
  run assert (n_inputs =? 1) ;;
  (* the input axes according to the network (csbdeep convention) *)
  let csbdeep_input_axes := "S" +:+ PyStr.lower net_axes_in in
  let bioimageio_input_axes := PyStr.lower (PyStr.replace "S" "B" csbdeep_input_axes) in
  let input_config : gmap string pyval :=
    list_to_map
      [ ("input_name", VList (List.map VStr input_names));
        ("input_step",
         VList (list_times [VList (VInt 0 :: List.map VInt div_by)] n_inputs));
        ("input_min_shape",
         VList (list_times [VList (VInt 1 :: List.map VInt div_by)] n_inputs));
        ("input_axes", VList (list_times [VStr bioimageio_input_axes] n_inputs));
        ("input_data_range",
         VList (list_times [VList [VStr "-inf"; VStr "inf"]] n_inputs));
        ("preprocessing",
         VList (list_times
           [VDict (list_to_map
              [ ("scale_range", VDict (list_to_map
                   [ ("mode", VStr "per_sample");
                     ("axes", VStr (PyStr.replace "c" EmptyString (PyStr.lower net_axes_in)));
                     ("min_percentile", VFloat min_percentile);
                     ("max_percentile", VFloat max_percentile) ])) ])]
           n_inputs)) ] in
  do output_names <- local "output_names" (l_output_names locals) ;;
  let n_outputs := zlen output_names in
  do output_n_channels <- local "output_n_channels" (l_output_n_channels locals) ;;
  run assert (zlen output_n_channels =? n_outputs) ;;
  let output_axes := net_axes_out in
  let csbdeep_output_axes := "S" +:+ output_axes in
  let bioimageio_output_axes := PyStr.lower (PyStr.replace "S" "B" csbdeep_output_axes) in
  do input_name_0 <-
    match input_names with
    | n0 :: _ => ret n0
    | [] => raise (IndexError "list index out of range")
    end ;;
  do output_scale <- local "output_scale" (l_output_scale locals) ;;
  let output_config : gmap string pyval :=
    list_to_map
      [ ("output_name", VList (List.map VStr output_names));
        ("output_data_range",
         VList (list_times [VList [VStr "-inf"; VStr "inf"]] n_outputs));
        ("output_axes", VList (list_times [VStr bioimageio_output_axes] n_outputs));
        ("output_reference", VList (list_times [VStr input_name_0] n_outputs));
        ("output_scale", VList (list_times [VList output_scale] n_outputs));
        ("output_offset",
         VList (List.map
                  (fun n_channel =>
                     VList (list_times [VInt 1] (ndim_tensor - 1) ++ [VInt n_channel])%list)
                  output_n_channels)) ] in
  let in_path := outdir // "test_input.npy" in
  do moved_input <-
    pure_call (move_image_axes E test_input (PyStr.upper input_axes) csbdeep_input_axes) ;;
  run call (EvNpSave in_path moved_input) (np_save E in_path moved_input) ;;
  do test_input <- pure_call (normalize E test_input min_percentile max_percentile) ;;
  do test_outputs <-
    (if String.eqb mode "tensorflow_saved_model_bundle" then
       do x <- pure_call (move_image_axes E test_input (PyStr.upper input_axes)
                                          csbdeep_input_axes) ;;
       do output <- _predict_tf weight_uri x ;;
       pure_call (np_iter E output)
     else
       pure_call (predict model test_input)) ;;
  do out_paths <-
    save_outputs outdir output_axes bioimageio_output_axes 0 test_outputs [] ;;
  let data : gmap string pyval :=
    list_to_map
      [ ("weight_uri", VPath weight_uri);
        ("test_inputs", VList [VPath in_path]);
        ("test_outputs", VList (List.map VPath out_paths));
        ("config", VDict config) ] in
  let data := dict_update data input_config in
  let data := dict_update data output_config in
  ret data.

(** [build_model(name=name, output_path=zip_path, **kwargs)]: a key of
    [kwargs] that repeats an explicit keyword is a [TypeError] of the call
    itself, before the function runs. *)
Definition call_build_model (name : string) (zip_path : path)
           (kwargs : gmap string pyval) : M array unit :=
  match kwargs !! "name", kwargs !! "output_path" with
  | None, None =>
      call (EvBuildModel name zip_path kwargs) (build_model E name zip_path kwargs)
  | Some _, _ =>
      raise (TypeError "build_model() got multiple values for keyword argument 'name'")
  | None, Some _ =>
      raise (TypeError "build_model() got multiple values for keyword argument 'output_path'")
  end.

(** [from stardist.models import StarDist2D, StarDist3D] (line 261). An
    object that is an instance of one of the two classes comes from the
    module, which is loaded then, and the statement only looks the names
    up; for any other object the module may have to be imported now, and
    that can fail (without TensorFlow, say). *)
Definition import_models (model : model_t array) : M array unit :=
  if is_stardist model then ret tt else pure_call (models_import E).

(** [0 <= min_percentile < max_percentile <= 100] *)
Definition percentiles_ok (min_percentile max_percentile : pyfloat) : bool :=
  (float_le (Finite 0) min_percentile &&
   float_lt min_percentile max_percentile &&
   float_le max_percentile (Finite 100))%bool.

(** [export_bioimageio(model, outpath, test_input, input_axes, name, mode,
    prefer_weights, min_percentile, max_percentile, overwrite_spec_kwargs)];
    [outpath] is the value of [Path(outpath)]. *)
Definition export_bioimageio
    (model : model_t array) (outpath : path) (test_input : array)
    (input_axes name mode prefer_weights : string)
    (min_percentile max_percentile : pyfloat)
    (overwrite_spec_kwargs : gmap string pyval) : M array unit :=
  do imp <- _import true ;;
  run unpack imp ;;
  run import_models model ;;
  run or_raise (is_stardist model) (ValueError "not a valid model") ;;
  run or_raise (percentiles_ok min_percentile max_percentile)
               (ValueError "invalid percentile values") ;;
  do '(outdir, zip_path) <-
    (if String.eqb (PyPath.suffix outpath) EmptyString then
       ret (outpath, outpath // (name +:+ ".zip"))
     else if String.eqb (PyPath.suffix outpath) ".zip" then
       ret (PyPath.parent outpath, outpath)
     else
       raise (ValueError ("outpath has to be a folder or zip file, got " +:+
                          PyPath.to_string outpath))) ;;
  run call (EvMkdir outdir) (os_mkdir E outdir) ;;
  do kwargs <- _get_stardist_metadata outdir ;;
  do model_kwargs <-
    _get_weights_and_model_metadata outdir model test_input input_axes mode
                                    prefer_weights min_percentile max_percentile ;;
  let kwargs := dict_update kwargs model_kwargs in
  let kwargs := dict_update kwargs overwrite_spec_kwargs in
  call_build_model name zip_path kwargs.

End Functions.

(** The default values of the keyword parameters of [export_bioimageio] *)
Definition default_name : string := "bioimageio_model".
Definition default_mode : string := "tensorflow_saved_model_bundle".
Definition default_prefer_weights : string := "best".
Definition default_min_percentile : pyfloat := Finite 1.
Definition default_max_percentile : pyfloat := Finite (998 # 10).

(** ** A sample run: a 2D model with three checkpoints, arrays as numbers *)

Module Sample.

Definition logdir0 : path := PyPath.of_string "models/stardist".

Definition package_data0 (key : string) : result (option string) :=
  if String.eqb key "Summary" then Ok (Some "StarDist - Object Detection with Star-convex Shapes")
  else if String.eqb key "Author" then Ok (Some "Uwe Schmidt, Martin Weigert")
  else if String.eqb key "Home-Page" then Ok (Some "https://github.com/stardist/stardist")
  else if String.eqb key "License" then Ok (Some "BSD-3-Clause")
  else if String.eqb key "Version" then Ok (Some "0.8.3")
  else Ok None.

Definition listing0 : list dirent :=
  [ mkDirent "weights_last.h5" 30;
    mkDirent "config.json" 40;
    mkDirent "weights_best.h5" 20;
    mkDirent "weights_now.hdf5" 10 ].

(** Every library call succeeds; normalization adds 1000 to an array,
    prediction doubles it and yields one output per sample. *)
Definition env0 : externals nat :=
  {| can_import := true;
     models_import := Ok tt;
     pkg_metadata := fun _ => Ok package_data0;
     pkg_requires := fun _ => Ok ["csbdeep>=0.6.3"; "numpy"];
     scandir := fun d => if PyPath.eqb d logdir0 then listing0 else [];
     axes_check_and_normalize := fun s => Ok (PyStr.upper s);
     move_image_axes := fun a _ _ => Ok a;
     normalize := fun a _ _ => Ok (a + 1000)%nat;
     is_tf_1 := false;
     tf1_predict := fun _ x => Ok (2 * x)%nat;
     tf2_predict := fun _ x => Ok (2 * x)%nat;
     np_iter := fun y => Ok [y];
     os_mkdir := fun _ => Ok tt;
     os_write_text := fun _ _ => Ok tt;
     np_save := fun _ _ => Ok tt;
     zip_extractall := fun _ _ => Ok tt;
     build_model := fun _ _ _ => Ok tt |}.

(** The same machine without the optional packages installed. *)
Definition env_no_libs : externals nat :=
  {| can_import := false;
     models_import := models_import env0;
     pkg_metadata := pkg_metadata env0;
     pkg_requires := pkg_requires env0;
     scandir := scandir env0;
     axes_check_and_normalize := axes_check_and_normalize env0;
     move_image_axes := move_image_axes env0;
     normalize := normalize env0;
     is_tf_1 := is_tf_1 env0;
     tf1_predict := tf1_predict env0;
     tf2_predict := tf2_predict env0;
     np_iter := np_iter env0;
     os_mkdir := os_mkdir env0;
     os_write_text := os_write_text env0;
     np_save := np_save env0;
     zip_extractall := zip_extractall env0;
     build_model := build_model env0 |}.

Definition model0 : model_t nat :=
  {| is_stardist := true;
     logdir := logdir0;
     config := {| axes := "YXC"; n_dim := 2; n_rays := 32; grid := [1; 1] |};
     thresholds := {| nms := Finite (3 # 10); prob := Finite (1 # 2) |};
     _axes_out := "YXC";
     _is_multiclass := false;
     _axes_div_by := fun _ => Ok [16; 16; 1];
     load_weights := fun _ => Ok tt;
     export_TF := fun _ => Ok (mkCsbdeep ["input"]);
     predict := fun x => Ok [x; x] |}.

(** A model whose directory holds no checkpoint. *)
Definition model_empty : model_t nat :=
  {| is_stardist := true;
     logdir := PyPath.of_string "models/empty";
     config := config model0;
     thresholds := thresholds model0;
     _axes_out := _axes_out model0;
     _is_multiclass := false;
     _axes_div_by := _axes_div_by model0;
     load_weights := load_weights model0;
     export_TF := export_TF model0;
     predict := predict model0 |}.

(** An object that is no StarDist model. *)
Definition not_a_model : model_t nat :=
  {| is_stardist := false;
     logdir := logdir0;
     config := config model0;
     thresholds := thresholds model0;
     _axes_out := _axes_out model0;
     _is_multiclass := false;
     _axes_div_by := _axes_div_by model0;
     load_weights := load_weights model0;
     export_TF := export_TF model0;
     predict := predict model0 |}.

Definition outpath0 : path := PyPath.of_string "export/out".

(** [export_bioimageio(model, outpath, 7, "YX")] with the defaults, the
    percentiles apart *)
Definition export0 (E : externals nat) (model : model_t nat) (outpath : path)
           (min_percentile max_percentile : pyfloat) : M nat unit :=
  export_bioimageio E model outpath 7%nat "YXC" default_name default_mode
                    default_prefer_weights min_percentile max_percentile ∅.

End Sample.


(** ** Vocabulary of the statements *)

(** Order of two list elements by their sort key. *)
Definition key_le {A} (key : A -> Q) (a b : A) : Prop := (key a <= key b)%Q.
Definition key_ge {A} (key : A -> Q) (a b : A) : Prop := (key b <= key a)%Q.

(** A weight file of the model: an entry of its log directory whose name
    matches [*.h5] or [*.hdf5]. *)
Definition is_weight_file {array} (E : externals array) (model : model_t array)
           (f : dirent) : Prop :=
  In f (scandir E (logdir model)) /\
  (PyStr.fnmatch "*.h5" (d_name f) = true \/ PyStr.fnmatch "*.hdf5" (d_name f) = true).

(** The exception of [_get_weights_name], its message formatted. *)
Definition no_weights_error : exn :=
  ValueError "Couldn't find any network weights (*.h5, *.hdf5) to load.".

(** Is the event the call of the packager? *)
Definition is_build_model {array} (ev : event array) : bool :=
  match ev with
  | EvBuildModel _ _ _ => true
  | _ => false
  end.

(** A trace without a call of the packager. *)
Definition no_build {array} (t : list (event array)) : Prop :=
  forall ev, In ev t -> is_build_model ev = false.

(** A computation that never calls the packager. *)
Definition never_builds {array A} (m : M array A) : Prop := no_build (fst m).

(** A computation that ends with an exception. *)
Definition raises {array A} (m : M array A) : Prop := exists e, snd m = Raise e.

(** The file or directory an event writes, if it writes one. *)
Definition written_path {array} (ev : event array) : option path :=
  match ev with
  | EvWriteText p _ => Some p
  | EvNpSave p _ => Some p
  | EvExportTF p => Some p
  | EvExtractAll _ dest => Some dest
  | _ => None
  end.

Definition written_paths {array} (t : list (event array)) : list path :=
  omap written_path t.

(** A computation that calls the packager at most once, as its last call,
    with the given name; [outcome] is what the packager answered. *)
Definition builds_last {array} (E : externals array) (name : string)
           (m : M array unit) : Prop :=
  no_build (fst m) /\ (exists e, snd m = Raise e) \/
  exists t0 zip_path kwargs,
    fst m = (t0 ++ [EvBuildModel name zip_path kwargs])%list /\
    no_build t0 /\
    snd m = build_model E name zip_path kwargs.

(** Forget the value of an outcome. *)
Definition outcome_unit {A} (r : result A) : result unit :=
  match r with
  | Ok _ => Ok tt
  | Raise e => Raise e
  end.

(** What the outside world answered to the call an event records. *)
Definition event_outcome {array} (E : externals array) (model : model_t array)
           (ev : event array) : result unit :=
  match ev with
  | EvMkdir p => os_mkdir E p
  | EvWriteText p text => os_write_text E p text
  | EvNpSave p a => np_save E p a
  | EvLoadWeights name => load_weights model name
  | EvExportTF p => outcome_unit (export_TF model p)
  | EvExtractAll zip dest => zip_extractall E zip dest
  | EvTFPredict assets x =>
      outcome_unit (if is_tf_1 E then tf1_predict E assets x else tf2_predict E assets x)
  | EvBuildModel name output_path kwargs => build_model E name output_path kwargs
  end.

(** No call is made after a call that raised: along the trace every call
    succeeded, except possibly the last one, whose exception is then the
    outcome [r] of the whole computation. *)
Fixpoint stops_at_failure {array} (E : externals array) (model : model_t array)
         (t : list (event array)) (r : result unit) : Prop :=
  match t with
  | [] => True
  | ev :: t' =>
      match event_outcome E model ev with
      | Ok _ => stops_at_failure E model t' r
      | Raise e => t' = [] /\ r = Raise e
      end
  end.

(** The percentile values the function accepts:
    [0 <= min_percentile < max_percentile <= 100], on finite numbers. *)
Definition within_percentile_bounds (min_percentile max_percentile : pyfloat) : Prop :=
  exists a b : Q,
    min_percentile = Finite a /\ max_percentile = Finite b /\
    (0 <= a)%Q /\ (a < b)%Q /\ (b <= 100)%Q.

(** The range as the specification words it: both percentiles in [[0,100)]
    and [min_percentile < max_percentile]. *)
Definition spec_percentile_invariant (min_percentile max_percentile : pyfloat) : bool :=
  (float_le (Finite 0) min_percentile && float_lt min_percentile (Finite 100) &&
   float_le (Finite 0) max_percentile && float_lt max_percentile (Finite 100) &&
   float_lt min_percentile max_percentile)%bool.

(** The sample runs the statements below are tried on. *)
Module Runs.

Import Sample.

(** The export with all defaults. *)
Definition run0 : M nat unit :=
  export0 env0 model0 outpath0 default_min_percentile default_max_percentile.

(** The metadata step of that export alone. *)
Definition meta0 : M nat (gmap string pyval) :=
  _get_weights_and_model_metadata env0 outpath0 model0 7%nat "YXC" default_mode
    default_prefer_weights default_min_percentile default_max_percentile.

(** Did the computation return, and what (with a default for an
    exception)? *)
Definition succeeded {A} (m : M nat A) : bool :=
  match snd m with
  | Ok _ => true
  | Raise _ => false
  end.

Definition value_or {A} (d : A) (m : M nat A) : A :=
  match snd m with
  | Ok a => a
  | Raise _ => d
  end.

Definition meta0_data : gmap string pyval := value_or ∅ meta0.

(** The keyword arguments of the last call of the packager in a trace. *)
Definition last_kwargs (t : list (event nat)) : gmap string pyval :=
  match List.last t (EvMkdir outpath0) with
  | EvBuildModel _ _ kwargs => kwargs
  | _ => ∅
  end.

End Runs.

(** ** Vocabulary of the further statements *)

(** A property of every call in the trace of a computation. *)
Definition all_events {array A} (P : event array -> Prop) (m : M array A) : Prop :=
  List.Forall P (fst m).

(** Does the character occur in the string? *)
Fixpoint has_char (c : ascii) (s : string) : bool :=
  match s with
  | EmptyString => false
  | String d s' => (Ascii.eqb d c || has_char c s')%bool
  end.

(** The string without the occurrences of a character. *)
Fixpoint without_char (c : ascii) (s : string) : string :=
  match s with
  | EmptyString => EmptyString
  | String d s' => if Ascii.eqb d c then without_char c s' else String d (without_char c s')
  end.

(** The calls a run of [export_bioimageio] may make, for the output
    directory [outdir], archive path [zip_path] and archive name [name]:
    which directory is created, which files are written where, which weights
    are loaded (those [_get_weights_name] picks for [prefer]), what is
    unpacked where, how the packager is called (with every entry of
    [overwrite] among its keyword arguments). *)
Definition expected_call {array} (E : externals array) (model : model_t array)
           (outdir zip_path : path) (name prefer : string)
           (overwrite : gmap string pyval) (ev : event array) : Prop :=
  match ev with
  | EvMkdir p => p = outdir
  | EvWriteText p _ => p = outdir // "requirements.txt" \/ p = outdir // "README.md"
  | EvNpSave p _ =>
      p = outdir // "test_input.npy" \/ exists i, p = outdir // test_output_name i
  | EvLoadWeights w => _get_weights_name E model prefer = ([], Ok w)
  | EvExportTF p => p = logdir model // "TF_SavedModel.zip"
  | EvExtractAll zip dest =>
      zip = logdir model // "TF_SavedModel.zip" /\ dest = logdir model // "tf_model"
  | EvTFPredict assets _ => assets = logdir model // "tf_model"
  | EvBuildModel nm zp kwargs =>
      nm = name /\ zp = zip_path /\
      kwargs !! "name" = None /\ kwargs !! "output_path" = None /\
      overwrite ⊆ kwargs
  end.

(** The keys of the dictionary that [_get_stardist_metadata] returns. *)
Definition package_keys : list string :=
  [ "description"; "authors"; "git_repo"; "license"; "dependencies"; "cite"; "tags";
    "covers"; "documentation" ].

(** The keys of the dictionary that [_get_weights_and_model_metadata]
    returns. *)
Definition model_keys : list string :=
  [ "weight_uri"; "test_inputs"; "test_outputs"; "config";
    "input_name"; "input_step"; "input_min_shape"; "input_axes"; "input_data_range";
    "preprocessing";
    "output_name"; "output_data_range"; "output_axes"; "output_reference";
    "output_scale"; "output_offset" ].

(** The output directory and the archive path that [export_bioimageio]
    derives from [outpath] (lines 266-271), for the suffixes it accepts. *)
Definition outdir_of (outpath : path) : path :=
  if String.eqb (PyPath.suffix outpath) ".zip" then PyPath.parent outpath else outpath.

Definition zip_path_of (outpath : path) (name : string) : path :=
  if String.eqb (PyPath.suffix outpath) ".zip" then outpath
  else outpath // (name +:+ ".zip").

(** Further sample runs: an override of the license, and an override of the
    archive name. *)
Module Runs2.

Import Sample.

Definition run_with (overwrite : gmap string pyval) : M nat unit :=
  export_bioimageio env0 model0 outpath0 7%nat "YXC" default_name default_mode
                    default_prefer_weights default_min_percentile default_max_percentile
                    overwrite.

Definition license_override : gmap string pyval := {[ "license" := VStr "MIT" ]}.

Definition name_override : gmap string pyval := {[ "name" := VStr "other" ]}.

Definition metadata0 : M nat (gmap string pyval) := _get_stardist_metadata env0 outpath0.

End Runs2.

(** ** A sample run with csbdeep's checks on axes

    Arrays are known by their number of samples only (the size of their
    first axis); [axes_check_and_normalize] and [move_image_axes] refuse
    what csbdeep's functions refuse. *)
Module Sample2.

Import Sample.

Definition allowed_axes : string := "STCZYX".

Fixpoint all_allowed (s : string) : bool :=
  match s with
  | EmptyString => true
  | String c s' => (has_char c allowed_axes && all_allowed s')%bool
  end.

Fixpoint no_repeat (s : string) : bool :=
  match s with
  | EmptyString => true
  | String c s' => (negb (has_char c s') && no_repeat s')%bool
  end.

Fixpoint all_in (s1 s2 : string) : bool :=
  match s1 with
  | EmptyString => true
  | String c s' => (has_char c s2 && all_in s' s2)%bool
  end.

(** csbdeep's [axes_check_and_normalize(axes)]: uppercase; every axis one
    of [STCZYX]; no axis twice. *)
Definition csbdeep_axes (s : string) : result string :=
  let a := PyStr.upper s in
  if negb (all_allowed a) then Raise (ValueError "invalid axis")
  else if negb (no_repeat a) then Raise (ValueError "axis occurs more than once")
  else Ok a.

(** csbdeep's [move_image_axes(x, fr, to)]: both axes strings are checked,
    and they have to name the same axes. *)
Definition csbdeep_move (x : nat) (fr to : string) : result nat :=
  match csbdeep_axes fr with
  | Raise e => Raise e
  | Ok f =>
      match csbdeep_axes to with
      | Raise e => Raise e
      | Ok t =>
          if (all_in f t && all_in t f)%bool then Ok x
          else Raise (ValueError "image cannot be moved to these axes")
      end
  end.

(** Normalization and prediction keep the number of samples; iterating
    over an array yields one item per sample. *)
Definition env_csbdeep : externals nat :=
  {| can_import := true;
     models_import := Ok tt;
     pkg_metadata := pkg_metadata env0;
     pkg_requires := pkg_requires env0;
     scandir := scandir env0;
     axes_check_and_normalize := csbdeep_axes;
     move_image_axes := csbdeep_move;
     normalize := fun a _ _ => Ok a;
     is_tf_1 := false;
     tf1_predict := fun _ x => Ok x;
     tf2_predict := fun _ x => Ok x;
     np_iter := fun y => Ok (List.repeat 64%nat y);
     os_mkdir := os_mkdir env0;
     os_write_text := os_write_text env0;
     np_save := np_save env0;
     zip_extractall := zip_extractall env0;
     build_model := build_model env0 |}.

(** [export_bioimageio(model, "export/out", x, "SYXC")] with an empty
    batch of test images: no sample, so no prediction output. *)
Definition run_empty_batch : M nat unit :=
  export_bioimageio env_csbdeep model0 outpath0 0%nat "SYXC" default_name default_mode
                    default_prefer_weights default_min_percentile default_max_percentile
                    ∅.

(** The same with one test image. *)
Definition run_one_image : M nat unit :=
  export_bioimageio env_csbdeep model0 outpath0 1%nat "SYXC" default_name default_mode
                    default_prefer_weights default_min_percentile default_max_percentile
                    ∅.

(** The optional libraries are there, TensorFlow is not. *)
Definition env_no_tf : externals nat :=
  {| can_import := true;
     models_import := Raise (RuntimeError "Please install TensorFlow");
     pkg_metadata := pkg_metadata env0;
     pkg_requires := pkg_requires env0;
     scandir := scandir env0;
     axes_check_and_normalize := axes_check_and_normalize env0;
     move_image_axes := move_image_axes env0;
     normalize := normalize env0;
     is_tf_1 := is_tf_1 env0;
     tf1_predict := tf1_predict env0;
     tf2_predict := tf2_predict env0;
     np_iter := np_iter env0;
     os_mkdir := os_mkdir env0;
     os_write_text := os_write_text env0;
     np_save := np_save env0;
     zip_extractall := zip_extractall env0;
     build_model := build_model env0 |}.

(** A multiclass model with the checkpoints of [model0]. *)
Definition model_multiclass : model_t nat :=
  {| is_stardist := true;
     logdir := logdir0;
     config := config model0;
     thresholds := thresholds model0;
     _axes_out := _axes_out model0;
     _is_multiclass := true;
     _axes_div_by := _axes_div_by model0;
     load_weights := load_weights model0;
     export_TF := export_TF model0;
     predict := predict model0 |}.

End Sample2.

(** * Properties *)

(** ** Picking the weight file: [_get_weights_name] *)

Section Sorting.

Context {A : Type} (key : A -> Q).

Lemma In_insert_by x y l : In y (insert_by key x l) <-> y = x \/ In y l.
Proof.
  induction l as [|z l IH]; simpl.
  - intuition.
  - destruct (Qle_bool (key x) (key z)); simpl; [intuition|].
    rewrite IH. intuition.
Qed.

Lemma In_sorted y l : In y (sorted key l) <-> In y l.
Proof.
  induction l as [|x l IH]; simpl; [tauto|].
  rewrite In_insert_by, IH. intuition.
Qed.

Lemma sorted_length l : List.length (sorted key l) = List.length l.
Proof.
  assert (Hins : forall x l', List.length (insert_by key x l') = S (List.length l')).
  { intros x l'. induction l' as [|z l' IH]; simpl; [reflexivity|].
    destruct (Qle_bool (key x) (key z)); simpl; [reflexivity|]. now rewrite IH. }
  induction l as [|x l IH]; simpl; [reflexivity|]. now rewrite Hins, IH.
Qed.

Lemma insert_by_ascending x l :
  StronglySorted (key_le key) l -> StronglySorted (key_le key) (insert_by key x l).
Proof.
  induction 1 as [|z l Hl IH Hz]; simpl.
  - constructor; [constructor | constructor].
  - destruct (Qle_bool (key x) (key z)) eqn:Hxz.
    + apply Qle_bool_iff in Hxz.
      constructor; [constructor; assumption|].
      constructor; [exact Hxz|].
      rewrite List.Forall_forall in Hz |- *. intros w Hw.
      unfold key_le in *. eapply Qle_trans; [exact Hxz | apply (Hz w Hw)].
    + assert (Hzx : (key z <= key x)%Q).
      { apply Qlt_le_weak, Qnot_le_lt. intros H. apply Qle_bool_iff in H. congruence. }
      constructor; [exact IH|].
      rewrite List.Forall_forall in Hz |- *. intros w Hw.
      apply In_insert_by in Hw as [-> | Hw]; [exact Hzx | apply (Hz w Hw)].
Qed.

(** [sorted] sorts by ascending key. *)
Lemma sorted_ascending l : StronglySorted (key_le key) (sorted key l).
Proof.
  induction l as [|x l IH]; simpl; [constructor|].
  now apply insert_by_ascending.
Qed.

Lemma rev_descending l :
  StronglySorted (key_le key) l -> StronglySorted (key_ge key) (List.rev l).
Proof.
  induction 1 as [|z l Hl IH Hz]; simpl; [constructor|].
  apply StronglySorted_app_2.
  - intros a b Ha Hb. apply list_elem_of_In in Ha, Hb.
    destruct Hb as [<- | []]. apply in_rev in Ha.
    rewrite List.Forall_forall in Hz. apply (Hz a Ha).
  - exact IH.
  - constructor; [constructor | constructor].
Qed.

Lemma filter_descending (f : A -> bool) l :
  StronglySorted (key_ge key) l -> StronglySorted (key_ge key) (List.filter f l).
Proof.
  induction 1 as [|z l Hl IH Hz]; simpl; [constructor|].
  destruct (f z); [|exact IH].
  constructor; [exact IH|].
  rewrite List.Forall_forall in Hz |- *. intros w Hw.
  apply filter_In in Hw as [Hw _]. apply (Hz w Hw).
Qed.

(** The head of a list in descending order has the largest key. *)
Lemma hd_descending x l y :
  StronglySorted (key_ge key) (x :: l) -> In y (x :: l) -> (key y <= key x)%Q.
Proof.
  intros H [<- | Hy]; [apply Qle_refl|].
  inversion H as [|? ? _ Hx]; subst.
  rewrite List.Forall_forall in Hx. apply (Hx y Hy).
Qed.

End Sorting.

Section WeightsName.

Context {array : Type}.
Variable E : externals array.
Variable model : model_t array.

Lemma In_weights_files f :
  In f (List.concat (List.map (glob E (logdir model)) weights_ext)) <-> is_weight_file E model f.
Proof.
  unfold is_weight_file, weights_ext, glob. simpl.
  rewrite !in_app_iff, !filter_In. simpl. tauto.
Qed.

(** The list the function picks from: the weight files, newest first. *)
Lemma newest_first_spec :
  let l := List.rev (sorted d_mtime
                       (List.concat (List.map (glob E (logdir model)) weights_ext))) in
  StronglySorted (key_ge d_mtime) l /\ forall f, In f l <-> is_weight_file E model f.
Proof.
  split.
  - apply rev_descending, sorted_ascending.
  - intros f. rewrite <- in_rev, In_sorted. apply In_weights_files.
Qed.

End WeightsName.

Section WeightsNameClaims.

Context {array : Type}.
Variable E : externals array.
Variable model : model_t array.

(** What [_get_weights_name] returns when there is a weight file. *)
Lemma get_weights_name_spec (prefer : string) :
  (exists f, is_weight_file E model f) ->
  exists f,
    _get_weights_name E model prefer = ([], Ok (d_name f)) /\
    is_weight_file E model f /\
    (forall g, is_weight_file E model g -> PyStr.contains prefer (d_name g) = true ->
       PyStr.contains prefer (d_name f) = true /\ (d_mtime g <= d_mtime f)%Q) /\
    ((forall g, is_weight_file E model g -> PyStr.contains prefer (d_name g) = false) ->
       forall g, is_weight_file E model g -> (d_mtime g <= d_mtime f)%Q).
Proof.
  intros [f0 Hf0].
  destruct (newest_first_spec E model) as [Hdesc Hin].
  unfold _get_weights_name.
  set (l := List.rev (sorted d_mtime
               (List.concat (List.map (glob E (logdir model)) weights_ext)))) in *.
  cbv zeta in Hdesc, Hin.
  apply Hin in Hf0.
  destruct l as [|x l'] eqn:Hl; [destruct Hf0|].
  cbn [List.length Nat.eqb].
  set (lp := List.filter (fun f => PyStr.contains prefer (d_name f)) (x :: l')).
  assert (Hlp : forall g, In g lp <->
                  In g (x :: l') /\ PyStr.contains prefer (d_name g) = true)
    by (intros g; apply filter_In).
  assert (Hlpd : StronglySorted (key_ge d_mtime) lp)
    by (apply filter_descending, Hdesc).
  destruct lp as [|y lp'] eqn:Hy.
  - (* no preferred file: the newest of all *)
    cbn. exists x. split; [reflexivity|]. split; [apply Hin; now left|]. split.
    + intros g Hg Hp. exfalso. apply (proj2 (Hlp g)). split; [now apply Hin | exact Hp].
    + intros _ g Hg. apply (hd_descending d_mtime x l' g Hdesc). now apply Hin.
  - (* the newest preferred file *)
    cbn. exists y.
    assert (Hyin : In y (x :: l') /\ PyStr.contains prefer (d_name y) = true)
      by (apply Hlp; now left).
    split; [reflexivity|]. split; [apply Hin, Hyin|]. split.
    + intros g Hg Hp. split; [apply Hyin|].
      apply (hd_descending d_mtime y lp' g Hlpd).
      apply Hlp. split; [now apply Hin | exact Hp].
    + intros Hnone. exfalso.
      rewrite (Hnone y) in Hyin; [destruct Hyin; discriminate | apply Hin, Hyin].
Qed.

(** C2. When the log directory holds a weight file ([*.h5] or [*.hdf5]),
    [_get_weights_name(model, prefer)] returns the name of a weight file
    [f] such that: if any weight file has [prefer] in its name, [f] has it
    too and no such file is more recently modified than [f]; if none has,
    no weight file at all is more recently modified than [f]. *)
Theorem get_weights_name_newest_preferred (prefer : string) :
  (exists f, is_weight_file E model f) ->
  exists f,
    _get_weights_name E model prefer = ([], Ok (d_name f)) /\
    is_weight_file E model f /\
    (forall g, is_weight_file E model g -> PyStr.contains prefer (d_name g) = true ->
       PyStr.contains prefer (d_name f) = true /\ (d_mtime g <= d_mtime f)%Q) /\
    ((forall g, is_weight_file E model g -> PyStr.contains prefer (d_name g) = false) ->
       forall g, is_weight_file E model g -> (d_mtime g <= d_mtime f)%Q).
Proof.
  exact (get_weights_name_spec prefer).
Qed.

(** Without a weight file the lookup raises, whatever [prefer] is. *)
Lemma get_weights_name_none (prefer : string) :
  (forall f, ~ is_weight_file E model f) ->
  _get_weights_name E model prefer = ([], Raise no_weights_error).
Proof.
  intros Hnone.
  destruct (newest_first_spec E model) as [_ Hin].
  unfold _get_weights_name.
  set (l := List.rev (sorted d_mtime
               (List.concat (List.map (glob E (logdir model)) weights_ext)))) in *.
  cbv zeta in Hin.
  destruct l as [|x l']; [reflexivity|].
  exfalso. apply (Hnone x), Hin. now left.
Qed.

(** With a weight file the lookup returns a name and calls nothing. *)
Lemma get_weights_name_some (prefer : string) :
  (exists f, is_weight_file E model f) ->
  exists w, _get_weights_name E model prefer = ([], Ok w).
Proof.
  intros H. destruct (get_weights_name_spec prefer H) as (f & Hf & _).
  now exists (d_name f).
Qed.

End WeightsNameClaims.

(** ** The computation monad *)

Section MonadFacts.

Context {array : Type}.
Implicit Types (t : list (event array)).

Lemma bind_Ok_inv {A B} (m : M array A) (f : A -> M array B) t b :
  bind m f = (t, Ok b) ->
  exists t1 a t2, m = (t1, Ok a) /\ f a = (t2, Ok b) /\ t = (t1 ++ t2)%list.
Proof.
  unfold bind. destruct m as [t1 [a|e]]; [|discriminate].
  destruct (f a) as [t2 r] eqn:Hf. intros [= <- ->].
  now exists t1, a, t2.
Qed.

Lemma bind_Raise_inv {A B} (m : M array A) (f : A -> M array B) t e :
  bind m f = (t, Raise e) ->
  m = (t, Raise e) \/
  exists t1 a t2, m = (t1, Ok a) /\ f a = (t2, Raise e) /\ t = (t1 ++ t2)%list.
Proof.
  unfold bind. destruct m as [t1 [a|e1]].
  - destruct (f a) as [t2 r] eqn:Hf. intros [= <- ->]. right. now exists t1, a, t2.
  - intros [= <- <-]. now left.
Qed.

Lemma bind_Ok {A B} (m : M array A) (f : A -> M array B) t1 a :
  m = (t1, Ok a) -> bind m f = ((t1 ++ fst (f a))%list, snd (f a)).
Proof. intros ->. unfold bind. now destruct (f a). Qed.

Lemma bind_Raise {A B} (m : M array A) (f : A -> M array B) t1 e :
  m = (t1, Raise e) -> bind m f = (t1, Raise e).
Proof. now intros ->. Qed.

Lemma bind_nil_Ok {A B} (a : A) (f : A -> M array B) :
  bind (([] : list (event array)), Ok a) f = f a.
Proof. unfold bind. now destruct (f a). Qed.

Lemma bind_raise {A B} (e : exn) (f : A -> M array B) : bind (raise e) f = raise e.
Proof. reflexivity. Qed.

(** The outcome of a [bind]: the second half runs only after a first half
    that returned. *)
Lemma snd_bind {A B} (m : M array A) (f : A -> M array B) :
  snd (bind m f) = match snd m with
                   | Ok a => snd (f a)
                   | Raise e => Raise e
                   end.
Proof.
  unfold bind. destruct m as [t [a|e]]; simpl; [|reflexivity].
  now destruct (f a).
Qed.

Lemma bind_call_trace {A B} ev (r0 : result A) (f : A -> M array B) t r :
  bind (call ev r0) f = (t, r) -> exists t', t = ev :: t'.
Proof.
  unfold bind, call. destruct r0 as [a|e].
  - destruct (f a) as [t2 r2]. intros [= <- _]. now exists t2.
  - intros [= <- _]. now exists [].
Qed.

(** *** Exceptions propagate: nothing catches them *)

Lemma raises_bind_l {A B} (m : M array A) (f : A -> M array B) :
  raises m -> raises (bind m f).
Proof.
  intros [e He]. destruct m as [t r]. simpl in He. subst r. now exists e.
Qed.

Lemma raises_bind_r {A B} (m : M array A) (f : A -> M array B) :
  (forall a, raises (f a)) -> raises (bind m f).
Proof.
  intros Hf. destruct m as [t [a|e]]; [|now exists e].
  destruct (Hf a) as [e He]. exists e. unfold bind.
  destruct (f a) as [t2 r]. exact He.
Qed.

Lemma raises_raise {A} (e : exn) : raises (raise e : M array A).
Proof. now exists e. Qed.

(** *** Traces without a call of the packager *)

Lemma no_build_nil : no_build ([] : list (event array)).
Proof. intros ev []. Qed.

Lemma no_build_app t1 t2 : no_build t1 -> no_build t2 -> no_build (t1 ++ t2).
Proof.
  intros H1 H2 ev Hev. apply in_app_iff in Hev as [Hev | Hev]; auto.
Qed.

Lemma no_build_single (ev : event array) : is_build_model ev = false -> no_build [ev].
Proof. intros H ev' [<- | []]. exact H. Qed.

Lemma never_builds_ret {A} (a : A) : never_builds (ret a : M array A).
Proof. apply no_build_nil. Qed.

Lemma never_builds_raise {A} (e : exn) : never_builds (raise e : M array A).
Proof. apply no_build_nil. Qed.

Lemma never_builds_pure_call {A} (r : result A) : never_builds (pure_call r : M array A).
Proof. apply no_build_nil. Qed.

Lemma never_builds_call {A} (ev : event array) (r : result A) :
  is_build_model ev = false -> never_builds (call ev r).
Proof. apply no_build_single. Qed.

Lemma never_builds_bind {A B} (m : M array A) (f : A -> M array B) :
  never_builds m -> (forall a, never_builds (f a)) -> never_builds (bind m f).
Proof.
  unfold never_builds, bind. intros Hm Hf. destruct m as [t [a|e]]; [|exact Hm].
  specialize (Hf a). destruct (f a) as [t2 r]. now apply no_build_app.
Qed.

Lemma never_builds_or_raise c e : never_builds (or_raise c e : M array unit).
Proof. destruct c; apply no_build_nil. Qed.

Lemma never_builds_assert c : never_builds (assert c : M array unit).
Proof. destruct c; apply no_build_nil. Qed.

Lemma never_builds_local {A} name (v : option A) : never_builds (local name v : M array A).
Proof. destruct v; apply no_build_nil. Qed.

Lemma never_builds_mapM {A B} (f : A -> M array B) l :
  (forall a, never_builds (f a)) -> never_builds (mapM f l).
Proof.
  intros Hf. induction l as [|x l IH]; simpl; [apply never_builds_ret|].
  apply never_builds_bind; [apply Hf|]. intros y.
  apply never_builds_bind; [exact IH|]. intros ys. apply never_builds_ret.
Qed.

(** *** Computations that end with the call of the packager *)

Lemma builds_last_bind {A} (E : externals array) name
      (m : M array A) (f : A -> M array unit) :
  never_builds m -> (forall a, builds_last E name (f a)) ->
  builds_last E name (bind m f).
Proof.
  unfold never_builds, builds_last, bind. intros Hm Hf.
  destruct m as [t [a|e]]; simpl in *.
  - destruct (Hf a) as [[Hnb [e He]] | (t0 & zp & kw & Ht & Hnb & Hr)];
      destruct (f a) as [t2 r]; simpl in *.
    + left. split; [now apply no_build_app | now exists e].
    + right. exists (t ++ t0)%list, zp, kw. subst t2.
      split; [now rewrite app_assoc|]. split; [now apply no_build_app | exact Hr].
  - left. split; [exact Hm | now exists e].
Qed.

Lemma builds_last_raise (E : externals array) name e :
  builds_last E name (raise e).
Proof. left. split; [apply no_build_nil | now exists e]. Qed.

End MonadFacts.

Create HintDb nobuild.
#[export] Hint Resolve never_builds_ret never_builds_raise never_builds_pure_call
  never_builds_or_raise never_builds_assert never_builds_local : nobuild.
#[export] Hint Extern 1 (never_builds (call _ _)) =>
  apply never_builds_call; reflexivity : nobuild.

(** One step through a computation that is claimed never to call the packager. *)
Ltac never_builds_step :=
  cbv beta zeta;
  lazymatch goal with
  | |- never_builds (bind _ _) => apply never_builds_bind; [|intros ?]
  | |- never_builds (if ?c then _ else _) => destruct c
  | |- never_builds (match ?x with _ => _ end) => destruct x
  | |- never_builds (mapM _ _) => apply never_builds_mapM; intros ?
  | |- _ => solve [auto with nobuild]
  end.

Ltac never_builds_tac := repeat never_builds_step; cbv beta zeta.

Section NeverBuilds.

Context {array : Type}.
Variable E : externals array.

Lemma never_builds_import error : never_builds (_import E error).
Proof. unfold _import. never_builds_tac. Qed.

Lemma never_builds_unpack v : never_builds (unpack v : M array imports).
Proof. unfold unpack. never_builds_tac. Qed.

Lemma never_builds_import_models model : never_builds (import_models E model).
Proof. unfold import_models. never_builds_tac. Qed.

Hint Resolve never_builds_import never_builds_unpack never_builds_import_models : nobuild.

Lemma never_builds_dependencies outdir : never_builds (_create_stardist_dependencies E outdir).
Proof. unfold _create_stardist_dependencies. never_builds_tac. Qed.

Lemma never_builds_doc outdir : never_builds (_create_stardist_doc E outdir).
Proof. unfold _create_stardist_doc. never_builds_tac. Qed.

Hint Resolve never_builds_dependencies never_builds_doc : nobuild.

Lemma never_builds_metadata outdir : never_builds (_get_stardist_metadata E outdir).
Proof. unfold _get_stardist_metadata. never_builds_tac. Qed.

Lemma never_builds_weights_name model prefer :
  never_builds (_get_weights_name E model prefer).
Proof. unfold _get_weights_name. never_builds_tac. Qed.

Lemma never_builds_predict_tf model_path x : never_builds (_predict_tf E model_path x).
Proof. unfold _predict_tf. never_builds_tac. Qed.

Lemma never_builds_save_outputs outdir oa ba outs :
  forall i out_paths, never_builds (save_outputs E outdir oa ba i outs out_paths).
Proof.
  induction outs as [|out outs IH]; intros i out_paths; cbn [save_outputs].
  - apply never_builds_ret.
  - never_builds_tac; try apply IH.
Qed.

Hint Resolve never_builds_metadata never_builds_weights_name
     never_builds_predict_tf never_builds_save_outputs : nobuild.

Lemma never_builds_weights_and_model_metadata
      outdir model test_input input_axes mode prefer minp maxp :
  never_builds (_get_weights_and_model_metadata E outdir model test_input input_axes
                                                mode prefer minp maxp).
Proof. unfold _get_weights_and_model_metadata. never_builds_tac. Qed.

Lemma builds_last_call_build_model name zip_path kwargs :
  builds_last E name (call_build_model E name zip_path kwargs).
Proof.
  unfold call_build_model.
  destruct (kwargs !! "name"); [apply builds_last_raise|].
  destruct (kwargs !! "output_path"); [apply builds_last_raise|].
  right. exists [], zip_path, kwargs. repeat split. apply no_build_nil.
Qed.

Lemma builds_last_export model outpath test_input input_axes name mode prefer
      minp maxp overwrite :
  builds_last E name (export_bioimageio E model outpath test_input input_axes name mode
                                        prefer minp maxp overwrite).
Proof.
  unfold export_bioimageio.
  do 5 (apply builds_last_bind; [never_builds_tac | intros ?]).
  apply builds_last_bind; [never_builds_tac|]. intros [outdir zip_path].
  repeat (apply builds_last_bind;
          [first [apply never_builds_weights_and_model_metadata | never_builds_tac]
          | intros ?]).
  cbv zeta. apply builds_last_call_build_model.
Qed.

End NeverBuilds.

(** ** No call follows a call that raised *)

Section StopsAtFailure.

Context {array : Type}.
Variable E : externals array.
Variable model : model_t array.

(** A computation whose trace and outcome are related by
    [stops_at_failure]. *)
Local Notation "'stops' m" := (stops_at_failure E model (fst m) (outcome_unit (snd m))) (at level 10, m at level 9).

Lemma stops_at_failure_app t1 t2 r :
  stops_at_failure E model t1 (Ok tt) -> stops_at_failure E model t2 r ->
  stops_at_failure E model (t1 ++ t2) r.
Proof.
  induction t1 as [|ev t1 IH]; simpl; [auto|].
  destruct (event_outcome E model ev); [auto|].
  intros [_ [=]].
Qed.

Lemma stops_bind {A B} (m : M array A) (f : A -> M array B) :
  stops m -> (forall a, stops (f a)) -> stops (bind m f).
Proof.
  unfold bind. intros Hm Hf. destruct m as [t [a|e]]; [|exact Hm].
  specialize (Hf a). destruct (f a) as [t2 r]. simpl in *.
  now apply stops_at_failure_app.
Qed.

Lemma stops_ret {A} (a : A) : stops (ret a : M array A).
Proof. exact I. Qed.

Lemma stops_raise {A} e : stops (raise e : M array A).
Proof. exact I. Qed.

Lemma stops_pure_call {A} (r : result A) : stops (pure_call r : M array A).
Proof. exact I. Qed.

Lemma stops_call {A} (ev : event array) (r : result A) :
  event_outcome E model ev = outcome_unit r -> stops (call ev r).
Proof.
  intros H. simpl. rewrite H. destruct r; simpl; auto.
Qed.

Lemma stops_call_unit (ev : event array) (r : result unit) :
  event_outcome E model ev = r -> stops (call ev r).
Proof.
  intros H. apply stops_call. rewrite H. now destruct r as [[]|].
Qed.

Lemma stops_or_raise c e : stops (or_raise c e : M array unit).
Proof. now destruct c. Qed.

Lemma stops_assert c : stops (assert c : M array unit).
Proof. now destruct c. Qed.

Lemma stops_local {A} name (v : option A) : stops (local name v : M array A).
Proof. now destruct v. Qed.

Lemma stops_mapM {A B} (f : A -> M array B) l :
  (forall a, stops (f a)) -> stops (mapM f l).
Proof.
  intros Hf. induction l as [|x l IH]; cbn [mapM]; [exact I|].
  apply stops_bind; [apply Hf|]. intros y.
  apply stops_bind; [exact IH|]. intros ys. exact I.
Qed.

Ltac stops_step :=
  cbv beta zeta;
  lazymatch goal with
  | |- stops_at_failure _ _ (fst (bind _ _)) _ => apply stops_bind; [|intros ?]
  | |- stops_at_failure _ _ (fst (if ?c then _ else _)) _ => destruct c
  | |- stops_at_failure _ _ (fst (match ?x with _ => _ end)) _ => destruct x
  | |- stops_at_failure _ _ (fst (mapM _ _)) _ => apply stops_mapM; intros ?
  | |- stops_at_failure _ _ (fst (call _ _)) _ =>
      first [apply stops_call_unit; reflexivity | apply stops_call; reflexivity]
  | |- stops_at_failure _ _ (fst (ret _)) _ => exact I
  | |- stops_at_failure _ _ (fst (raise _)) _ => exact I
  | |- stops_at_failure _ _ (fst (pure_call _)) _ => exact I
  | |- stops_at_failure _ _ (fst (or_raise _ _)) _ => apply stops_or_raise
  | |- stops_at_failure _ _ (fst (assert _)) _ => apply stops_assert
  | |- stops_at_failure _ _ (fst (local _ _)) _ => apply stops_local
  end.

Lemma stops_import error : stops (_import E error).
Proof. unfold _import. repeat stops_step. Qed.

Lemma stops_unpack v : stops (unpack v : M array imports).
Proof. unfold unpack. repeat stops_step. Qed.

Lemma stops_import_models : stops (import_models E model).
Proof. unfold import_models. repeat stops_step. Qed.

Lemma stops_metadata outdir : stops (_get_stardist_metadata E outdir).
Proof.
  unfold _get_stardist_metadata, _create_stardist_dependencies, _create_stardist_doc.
  repeat first [apply stops_import | apply stops_unpack | stops_step].
Qed.

Lemma stops_weights_name prefer : stops (_get_weights_name E model prefer).
Proof. unfold _get_weights_name. repeat stops_step. Qed.

Lemma stops_predict_tf model_path x : stops (_predict_tf E model_path x).
Proof.
  unfold _predict_tf. cbv zeta.
  apply stops_bind; [apply stops_call_unit; reflexivity|]. intros _.
  destruct (is_tf_1 E) eqn:Htf; apply stops_call; simpl; now rewrite Htf.
Qed.

Lemma stops_save_outputs outdir oa ba outs :
  forall i out_paths, stops (save_outputs E outdir oa ba i outs out_paths).
Proof.
  induction outs as [|out outs IH]; intros i out_paths; cbn [save_outputs].
  - exact I.
  - repeat first [apply IH | stops_step].
Qed.

Lemma stops_weights_and_model_metadata
      outdir test_input input_axes mode prefer minp maxp :
  stops (_get_weights_and_model_metadata E outdir model test_input input_axes
                                         mode prefer minp maxp).
Proof.
  unfold _get_weights_and_model_metadata.
  repeat first [apply stops_weights_name | apply stops_import | apply stops_unpack
               | apply stops_predict_tf | apply stops_save_outputs | stops_step].
Qed.

Lemma stops_call_build_model name zip_path kwargs :
  stops (call_build_model E name zip_path kwargs).
Proof.
  unfold call_build_model.
  destruct (kwargs !! "name"); [exact I|].
  destruct (kwargs !! "output_path"); [exact I|].
  now apply stops_call_unit.
Qed.

Lemma stops_export outpath test_input input_axes name mode prefer minp maxp overwrite :
  stops (export_bioimageio E model outpath test_input input_axes name mode
                           prefer minp maxp overwrite).
Proof.
  unfold export_bioimageio.
  repeat first [apply stops_import | apply stops_unpack | apply stops_import_models
               | apply stops_metadata
               | apply stops_weights_and_model_metadata
               | apply stops_call_build_model | stops_step].
Qed.

End StopsAtFailure.

(** ** Axes strings *)

Section AxesStrings.

Lemma lower_char_not_S c : Ascii.eqb "S" (PyStr.lower_char c) = false.
Proof. destruct c as [[] [] [] [] [] [] [] []]; reflexivity. Qed.

Lemma lower_char_idem c : PyStr.lower_char (PyStr.lower_char c) = PyStr.lower_char c.
Proof. destruct c as [[] [] [] [] [] [] [] []]; reflexivity. Qed.

Lemma lower_idem s : PyStr.lower (PyStr.lower s) = PyStr.lower s.
Proof.
  induction s as [|c s IH]; simpl; [reflexivity|].
  now rewrite lower_char_idem, IH.
Qed.

(** A lowercased string holds no ["S"] to replace. *)
Lemma replace_S_lower s :
  PyStr.replace_from "S" "B" (PyStr.lower s) 0 = PyStr.lower s.
Proof.
  induction s as [|c s IH]; [reflexivity|].
  cbn [PyStr.lower PyStr.replace_from PyStr.startswith].
  rewrite lower_char_not_S. cbn [andb]. now rewrite IH.
Qed.

(** ["S" + s], then [.replace("S", "B").lower()], for a lowercased [s]. *)
Lemma sample_axis_to_batch s :
  PyStr.lower (PyStr.replace "S" "B" ("S" +:+ PyStr.lower s)) = "b" +:+ PyStr.lower s.
Proof.
  change (PyStr.replace "S" "B" ("S" +:+ PyStr.lower s))
    with ("B" +:+ PyStr.replace_from "S" "B" (PyStr.lower s) 0).
  rewrite replace_S_lower.
  change (String "b" (PyStr.lower (PyStr.lower s)) = String "b" (PyStr.lower s)).
  now rewrite lower_idem.
Qed.

End AxesStrings.

(** ** Inversion of successful computations *)

(** Split a successful [bind] into its two successful halves. *)
Tactic Notation "inv_bind" hyp(H) "as" simple_intropattern(a) ident(Hm) :=
  let t1 := fresh "t" in
  let t2 := fresh "t" in
  apply bind_Ok_inv in H as (t1 & a & t2 & Hm & H & ->).

Section Inversion.

Context {array : Type}.
Variable E : externals array.
Implicit Types (t : list (event array)).

Lemma ret_inv {A} (a : A) t r :
  (ret a : M array A) = (t, r) -> t = [] /\ r = Ok a.
Proof. now intros [= <- <-]. Qed.

Lemma raise_inv {A} e t (r : result A) :
  (raise e : M array A) = (t, r) -> t = [] /\ r = Raise e.
Proof. now intros [= <- <-]. Qed.

Lemma raise_Ok_inv {A} e t (a : A) : (raise e : M array A) = (t, Ok a) -> False.
Proof. discriminate. Qed.

Lemma pure_call_inv {A} (r r' : result A) t :
  (pure_call r : M array A) = (t, r') -> t = [] /\ r = r'.
Proof. now intros [= <- <-]. Qed.

Lemma call_inv {A} ev (r r' : result A) t :
  call ev r = (t, r') -> t = [ev] /\ r = r'.
Proof. now intros [= <- <-]. Qed.

Lemma or_raise_Ok_inv c e t u :
  (or_raise c e : M array unit) = (t, Ok u) -> t = [] /\ c = true.
Proof. destruct c; [now intros [= <- _] | discriminate]. Qed.

Lemma assert_Ok_inv c t u :
  (assert c : M array unit) = (t, Ok u) -> t = [] /\ c = true.
Proof. destruct c; [now intros [= <- _] | discriminate]. Qed.

Lemma local_Ok_inv {A} name (v : option A) t a :
  (local name v : M array A) = (t, Ok a) -> t = [] /\ v = Some a.
Proof. destruct v; [now intros [= <- <-] | discriminate]. Qed.

Lemma import_Ok_inv error t v :
  _import E error = (t, Ok v) ->
  t = [] /\ (can_import E = true /\ v = Some Imports \/
             can_import E = false /\ error = false /\ v = None).
Proof.
  unfold _import. destruct (can_import E).
  - intros [= <- <-]. auto.
  - destruct error; [discriminate|]. intros [= <- <-]. auto.
Qed.

Lemma import_models_Ok_inv model t u :
  import_models E model = (t, Ok u) -> t = [].
Proof.
  unfold import_models. destruct (is_stardist model); [now intros [= <- _]|].
  now intros [= <- _].
Qed.

Lemma unpack_Ok_inv v t i :
  (unpack v : M array imports) = (t, Ok i) -> t = [] /\ v = Some i.
Proof. destruct v; [now intros [= <- <-] | discriminate]. Qed.

(** The lookup of the weight file calls nothing. *)
Lemma weights_name_no_calls model prefer :
  fst (_get_weights_name E model prefer) = [].
Proof.
  unfold _get_weights_name. cbv zeta.
  destruct (Nat.eqb _ 0); [reflexivity|].
  now destruct (if Nat.ltb 0 _ then _ else _).
Qed.

(** The directory next to the zipped weights is the log directory's. *)
Lemma parent_joinpath_name (p : path) :
  PyPath.parent (p // "TF_SavedModel.zip") = p.
Proof.
  destruct p as [ab ps]. unfold PyPath.parent, PyPath.joinpath. cbn.
  f_equal. apply removelast_last.
Qed.

Lemma zlen_one {A} (l : list A) : (zlen l =? 1) = true -> exists a, l = [a].
Proof.
  unfold zlen. destruct l as [|a [|b l]]; cbn; try discriminate; [now exists a|].
  intros H. apply Z.eqb_eq in H. lia.
Qed.

(** The loop over the outputs, when it succeeds: each output is moved to
    the output axes and saved under its index. *)
Lemma save_outputs_Ok_inv outdir oa ba outs :
  forall i out_paths t ps,
    save_outputs E outdir oa ba i outs out_paths = (t, Ok ps) ->
    exists saved,
      Forall2 (fun out s => move_image_axes E out oa ba = Ok s) outs saved /\
      t = imap (fun j s => EvNpSave (outdir // test_output_name (i + j)) s) saved /\
      ps = (out_paths ++
            imap (fun j (_ : array) => outdir // test_output_name (i + j)) saved)%list.
Proof.
  induction outs as [|out outs IH]; intros i out_paths t ps; cbn [save_outputs].
  - intros [= <- <-]. exists []. split; [constructor|]. split; [reflexivity|].
    cbn. now rewrite app_nil_r.
  - intros H.
    apply bind_Ok_inv in H as (t1 & s & t2 & H1 & H2 & ->).
    apply pure_call_inv in H1 as [-> Hs].
    apply bind_Ok_inv in H2 as (t3 & u & t4 & H3 & H4 & ->).
    apply call_inv in H3 as [-> _].
    apply IH in H4 as (saved & HF & -> & ->).
    exists (s :: saved). split; [now constructor|]. split.
    + cbn. rewrite Nat.add_0_r. f_equal.
      apply imap_ext. intros j x _. cbn. now rewrite Nat.add_succ_r.
    + rewrite <- app_assoc. cbn. rewrite Nat.add_0_r. do 2 f_equal.
      apply imap_ext. intros j x _. cbn. now rewrite Nat.add_succ_r.
Qed.

End Inversion.

Section MetadataInversion.

Context {array : Type}.
Variable E : externals array.

Lemma gwmm_Ok_inv outdir (model : model_t array) test_input input_axes mode prefer
      minp maxp t data :
  _get_weights_and_model_metadata E outdir model test_input input_axes mode prefer
                                  minp maxp = (t, Ok data) ->
  let zip := logdir model // "TF_SavedModel.zip" in
  let assets := logdir model // "tf_model" in
  let net_in := PyStr.lower (axes (config model)) in
  mode = "tensorflow_saved_model_bundle" /\ _is_multiclass model = false /\
  exists w normalized x xn xm y outs saved,
    _get_weights_name E model prefer = ([], Ok w) /\
    axes_check_and_normalize E (_axes_out model) = Ok normalized /\
    move_image_axes E test_input (PyStr.upper input_axes) ("S" +:+ net_in) = Ok x /\
    normalize E test_input minp maxp = Ok xn /\
    move_image_axes E xn (PyStr.upper input_axes) ("S" +:+ net_in) = Ok xm /\
    (if is_tf_1 E then tf1_predict E assets xm else tf2_predict E assets xm) = Ok y /\
    np_iter E y = Ok outs /\
    Forall2 (fun out s =>
               move_image_axes E out (PyStr.lower normalized)
                               ("b" +:+ PyStr.lower normalized) = Ok s) outs saved /\
    t = ([EvLoadWeights w; EvExportTF zip; EvNpSave (outdir // "test_input.npy") x;
          EvExtractAll zip assets; EvTFPredict assets xm] ++
         imap (fun j s => EvNpSave (outdir // test_output_name j) s) saved)%list /\
    data !! "weight_uri" = Some (VPath zip) /\
    data !! "test_inputs" = Some (VList [VPath (outdir // "test_input.npy")]) /\
    data !! "test_outputs" =
      Some (VList (List.map VPath
                     (imap (fun j (_ : array) => outdir // test_output_name j) saved))) /\
    data !! "input_axes" = Some (VList [VStr ("b" +:+ net_in)]) /\
    data !! "output_axes" = Some (VList [VStr ("b" +:+ PyStr.lower normalized)]) /\
    data !! "dependencies" = None /\
    data !! "documentation" = None /\
    data !! "name" = None /\
    data !! "output_path" = None.
Proof.
  unfold _get_weights_and_model_metadata. intros H.
  rewrite !lower_idem, sample_axis_to_batch in H.
  inv_bind H as w Hw.
  inv_bind H as [weight_uri mc] Hmode.
  destruct (String.eqb mode "keras_hdf5") eqn:Hk; [discriminate|].
  destruct (String.eqb mode "tensorflow_saved_model_bundle") eqn:Htf; [|discriminate].
  cbv zeta in Hmode.
  inv_bind Hmode as [] Hload.
  apply call_inv in Hload as [-> Hload].
  inv_bind Hmode as mc' Hexp.
  apply call_inv in Hexp as [-> Hexp].
  apply ret_inv in Hmode as [-> [= -> ->]].
  cbv zeta in H.
  inv_bind H as normalized Hnorm.
  apply pure_call_inv in Hnorm as [-> Hnorm].
  rewrite sample_axis_to_batch in H.
  inv_bind H as div_by Hdiv.
  apply pure_call_inv in Hdiv as [-> Hdiv].
  inv_bind H as locals Hloc.
  destruct (_is_multiclass model) eqn:Hmc; [discriminate|].
  apply ret_inv in Hloc as [-> [= ->]].
  cbv beta iota delta [l_input_names l_output_names l_output_n_channels l_output_scale] in H.
  inv_bind H as imp Himp.
  apply import_Ok_inv in Himp as [-> Himp].
  inv_bind H as imp' Hunp.
  apply unpack_Ok_inv in Hunp as [-> Hunp].
  inv_bind H as package_data Hpd.
  apply pure_call_inv in Hpd as [-> Hpd].
  inv_bind H as version Hver.
  apply pure_call_inv in Hver as [-> Hver].
  inv_bind H as inames Hin.
  apply local_Ok_inv in Hin as [-> [= <-]].
  inv_bind H as [] Has.
  apply assert_Ok_inv in Has as [-> Hone].
  inv_bind H as onames Hon.
  apply local_Ok_inv in Hon as [-> [= <-]].
  inv_bind H as onch Hoc.
  apply local_Ok_inv in Hoc as [-> [= <-]].
  inv_bind H as [] Has2.
  apply assert_Ok_inv in Has2 as [-> _].
  inv_bind H as in0 Hin0.
  inv_bind H as oscale Hos.
  apply local_Ok_inv in Hos as [-> [= <-]].
  inv_bind H as x Hx.
  apply pure_call_inv in Hx as [-> Hx].
  inv_bind H as [] Hsave.
  apply call_inv in Hsave as [-> Hsave].
  inv_bind H as xn Hxn.
  apply pure_call_inv in Hxn as [-> Hxn].
  inv_bind H as outs Hpred.
  inv_bind Hpred as xm Hxm.
  apply pure_call_inv in Hxm as [-> Hxm].
  inv_bind Hpred as y Hy.
  apply pure_call_inv in Hpred as [-> Houts].
  unfold _predict_tf in Hy. cbv zeta in Hy.
  inv_bind Hy as [] Hzip.
  apply call_inv in Hzip as [-> Hzip].
  inv_bind H as out_paths Hso.
  apply save_outputs_Ok_inv in Hso as (saved & HF & -> & ->).
  apply ret_inv in H as [-> [= ->]].
  pose proof (weights_name_no_calls E model prefer) as Hnil.
  rewrite Hw in Hnil. cbn in Hnil. subst.
  rewrite parent_joinpath_name in Hzip, Hy.
  destruct (zlen_one _ Hone) as [in0' Hnames]. rewrite Hnames in *.
  apply ret_inv in Hin0 as [-> _].
  assert (t4 = [EvTFPredict (logdir model // "tf_model") xm] /\
          (if is_tf_1 E then tf1_predict E (logdir model // "tf_model") xm
           else tf2_predict E (logdir model // "tf_model") xm) = Ok y) as [-> Hrun].
  { destruct (is_tf_1 E); now apply call_inv in Hy as [-> ->]. }
  split; [now apply String.eqb_eq|]. split; [reflexivity|].
  exists w, normalized, x, xn, xm, y, outs, saved.
  repeat (split; [first [assumption | reflexivity
                        | rewrite !app_nil_r, parent_joinpath_name; reflexivity]|]).
  repeat split; vm_compute; reflexivity.
Qed.

End MetadataInversion.

Section ExportInversion.

Context {array : Type}.
Variable E : externals array.

Lemma metadata_Ok_inv outdir t kwargs :
  _get_stardist_metadata E outdir = (t, Ok kwargs) ->
  exists requires,
    pkg_requires E "stardist" = Ok requires /\
    t = [EvWriteText (outdir // "requirements.txt")
                     (PyStr.join PyStr.newline ("tensorflow" :: requires));
         EvWriteText (outdir // "README.md") doc_text] /\
    kwargs !! "dependencies" =
      Some (VStr ("pip:" +:+ PyPath.to_string (outdir // "requirements.txt"))) /\
    kwargs !! "documentation" = Some (VPath (outdir // "README.md")) /\
    kwargs !! "input_axes" = None /\
    kwargs !! "output_axes" = None.
Proof.
  unfold _get_stardist_metadata. intros H.
  inv_bind H as imp Himp. apply import_Ok_inv in Himp as [-> _].
  inv_bind H as imp' Hunp. apply unpack_Ok_inv in Hunp as [-> _].
  inv_bind H as package_data Hpd. apply pure_call_inv in Hpd as [-> _].
  inv_bind H as description Hd. apply pure_call_inv in Hd as [-> _].
  inv_bind H as author Ha. apply pure_call_inv in Ha as [-> _].
  inv_bind H as authors Hau.
  destruct author as [a|]; [apply ret_inv in Hau as [-> _] | discriminate].
  inv_bind H as git_repo Hg. apply pure_call_inv in Hg as [-> _].
  inv_bind H as license Hl. apply pure_call_inv in Hl as [-> _].
  inv_bind H as dependencies Hdep.
  inv_bind H as documentation Hdoc.
  apply ret_inv in H as [-> [= ->]].
  unfold _create_stardist_dependencies in Hdep. cbv zeta in Hdep.
  inv_bind Hdep as requires Hreq. apply pure_call_inv in Hreq as [-> Hreq].
  inv_bind Hdep as u Hwr. apply call_inv in Hwr as [-> _].
  apply ret_inv in Hdep as [-> [= ->]].
  unfold _create_stardist_doc in Hdoc. cbv zeta in Hdoc.
  inv_bind Hdoc as u' Hwr. apply call_inv in Hwr as [-> _].
  apply ret_inv in Hdoc as [-> [= ->]].
  exists requires. split; [exact Hreq|]. split; [reflexivity|].
  repeat split; vm_compute; reflexivity.
Qed.

(** A [bind] whose trace holds a call of the packager, after a first half
    that never makes one: the first half succeeded. *)
Lemma bind_build_inv {A B} (m : M array A) (f : A -> M array B) t r ev :
  bind m f = (t, r) -> never_builds m ->
  In ev t -> is_build_model ev = true ->
  exists t1 a t2, m = (t1, Ok a) /\ f a = (t2, r) /\ t = (t1 ++ t2)%list /\ In ev t2.
Proof.
  unfold bind, never_builds. destruct m as [t1 [a|e]]; simpl.
  - destruct (f a) as [t2 r2] eqn:Hf. intros [= <- <-] Hnb Hin Hb.
    exists t1, a, t2. split; [reflexivity|]. split; [exact Hf|]. split; [reflexivity|].
    apply in_app_iff in Hin as [Hin | Hin]; [|exact Hin].
    apply Hnb in Hin. congruence.
  - intros [= <- <-] Hnb Hin Hb. apply Hnb in Hin. congruence.
Qed.

(** The path resolution at the head of [export_bioimageio]. *)
Lemma outpath_cases (outpath : path) (name : string) t outdir zip_path :
  (if String.eqb (PyPath.suffix outpath) EmptyString
   then ret (outpath, outpath // (name +:+ ".zip"))
   else if String.eqb (PyPath.suffix outpath) ".zip"
        then ret (PyPath.parent outpath, outpath)
        else raise (ValueError ("outpath has to be a folder or zip file, got " +:+
                                PyPath.to_string outpath)))
  = ((t, Ok (outdir, zip_path)) : M array (path * path)) ->
  t = [] /\
  (PyPath.suffix outpath = EmptyString /\ outdir = outpath /\
   zip_path = outpath // (name +:+ ".zip") \/
   PyPath.suffix outpath = ".zip" /\ outdir = PyPath.parent outpath /\
   zip_path = outpath).
Proof.
  destruct (String.eqb (PyPath.suffix outpath) EmptyString) eqn:H1.
  - intros [= <- <- <-]. apply String.eqb_eq in H1. auto.
  - destruct (String.eqb (PyPath.suffix outpath) ".zip") eqn:H2; [|discriminate].
    intros [= <- <- <-]. apply String.eqb_eq in H2. auto.
Qed.

(** A run of [export_bioimageio] that reaches the packager. *)
Lemma export_build_inv (model : model_t array) outpath test_input input_axes name mode
      prefer minp maxp overwrite t r nm zp kw :
  export_bioimageio E model outpath test_input input_axes name mode prefer
                    minp maxp overwrite = (t, r) ->
  In (EvBuildModel nm zp kw) t ->
  can_import E = true /\ is_stardist model = true /\ percentiles_ok minp maxp = true /\
  exists outdir t_meta kwargs t_model model_kwargs,
    (PyPath.suffix outpath = EmptyString /\ outdir = outpath /\
     zp = outpath // (name +:+ ".zip") \/
     PyPath.suffix outpath = ".zip" /\ outdir = PyPath.parent outpath /\ zp = outpath) /\
    _get_stardist_metadata E outdir = (t_meta, Ok kwargs) /\
    _get_weights_and_model_metadata E outdir model test_input input_axes mode prefer
                                    minp maxp = (t_model, Ok model_kwargs) /\
    nm = name /\
    kw = dict_update (dict_update kwargs model_kwargs) overwrite /\
    t = (EvMkdir outdir :: t_meta ++ t_model ++ [EvBuildModel name zp kw])%list /\
    r = build_model E name zp kw.
Proof.
  unfold export_bioimageio. intros H Hin.
  eapply bind_build_inv in H as (t1 & imp & t2 & Himp & H & -> & Hin');
    [| apply never_builds_import | exact Hin | reflexivity].
  apply import_Ok_inv in Himp as [-> [[Hcan ->] | (_ & [=] & _)]].
  clear Hin. rename Hin' into Hin.
  eapply bind_build_inv in H as (t1 & imp' & t3 & Hunp & H & -> & Hin');
    [| apply never_builds_unpack | exact Hin | reflexivity].
  apply unpack_Ok_inv in Hunp as [-> _]. clear Hin. rename Hin' into Hin.
  eapply bind_build_inv in H as (t1 & um & tm & Himpm & H & -> & Hin');
    [| apply never_builds_import_models | exact Hin | reflexivity].
  apply import_models_Ok_inv in Himpm as ->. clear Hin. rename Hin' into Hin.
  eapply bind_build_inv in H as (t1 & u & t4 & Hmod & H & -> & Hin');
    [| apply never_builds_or_raise | exact Hin | reflexivity].
  apply or_raise_Ok_inv in Hmod as [-> Hmod]. clear Hin. rename Hin' into Hin.
  eapply bind_build_inv in H as (t1 & u' & t5 & Hperc & H & -> & Hin');
    [| apply never_builds_or_raise | exact Hin | reflexivity].
  apply or_raise_Ok_inv in Hperc as [-> Hperc]. clear Hin. rename Hin' into Hin.
  eapply bind_build_inv in H as (t1 & [outdir zip_path] & t6 & Hpath & H & -> & Hin');
    [| never_builds_tac | exact Hin | reflexivity].
  apply outpath_cases in Hpath as [-> Hpath]. clear Hin. rename Hin' into Hin.
  eapply bind_build_inv in H as (t1 & u'' & t7 & Hmk & H & -> & Hin');
    [| never_builds_tac | exact Hin | reflexivity].
  apply call_inv in Hmk as [-> _]. clear Hin. rename Hin' into Hin.
  eapply bind_build_inv in H as (t_meta & kwargs & t8 & Hmeta & H & -> & Hin');
    [| apply never_builds_metadata | exact Hin | reflexivity].
  clear Hin. rename Hin' into Hin.
  eapply bind_build_inv in H as (t_model & model_kwargs & t9 & Hmodel & H & -> & Hin');
    [| apply never_builds_weights_and_model_metadata | exact Hin | reflexivity].
  clear Hin. rename Hin' into Hin.
  cbv zeta in H. unfold call_build_model in H.
  destruct (_ !! "name"); [apply raise_inv in H as [-> _]; destruct Hin|].
  destruct (_ !! "output_path"); [apply raise_inv in H as [-> _]; destruct Hin|].
  apply call_inv in H as [-> <-].
  destruct Hin as [[= <- <- <-] | []].
  repeat (split; [assumption|]).
  exists outdir, t_meta, kwargs, t_model, model_kwargs.
  split; [destruct Hpath as [(? & ? & ?) | (? & ? & ?)]; subst; auto|].
  repeat split; try assumption.
Qed.

End ExportInversion.

(** ** The checks at the head of [export_bioimageio] *)

Section Checks.

Context {array : Type}.
Variable E : externals array.

Lemma Qlt_bool_iff (x y : Q) : negb (Qle_bool y x) = true <-> (x < y)%Q.
Proof.
  rewrite negb_true_iff. split.
  - intros H. apply Qnot_le_lt. intros Hle. apply Qle_bool_iff in Hle. congruence.
  - intros H. destruct (Qle_bool y x) eqn:Hb; [|reflexivity].
    apply Qle_bool_iff in Hb. exfalso. exact (Qlt_not_le _ _ H Hb).
Qed.

(** The chained comparison of the source accepts exactly the finite
    percentiles with [0 <= min < max <= 100]. *)
Lemma percentiles_ok_iff minp maxp :
  percentiles_ok minp maxp = true <-> within_percentile_bounds minp maxp.
Proof.
  unfold percentiles_ok, within_percentile_bounds. split.
  - intros H. apply andb_prop in H as [H H3]. apply andb_prop in H as [H1 H2].
    destruct minp as [a| | |]; try discriminate;
      destruct maxp as [b| | |]; try discriminate.
    exists a, b. cbn in H1, H2, H3.
    apply Qle_bool_iff in H1, H3. apply Qlt_bool_iff in H2. auto.
  - intros (a & b & -> & -> & H1 & H2 & H3). cbn.
    apply Qle_bool_iff in H1, H3. apply Qlt_bool_iff in H2.
    now rewrite H1, H2, H3.
Qed.

Lemma import_available error :
  can_import E = true -> _import E error = ([], Ok (Some Imports)).
Proof. unfold _import. now intros ->. Qed.

Lemma import_missing :
  can_import E = false -> _import E true = ([], Raise (RuntimeError import_error_msg)).
Proof. unfold _import. now intros ->. Qed.

Variable model : model_t array.
Variables (outpath : path) (test_input : array).
Variables (input_axes name mode prefer_weights : string).
Variables (min_percentile max_percentile : pyfloat).
Variable overwrite_spec_kwargs : gmap string pyval.

(** C7, as amended. With the optional libraries importable and
    [stardist.models] importable (line 261 loads it, and TensorFlow with
    it), a model that is no instance of StarDist2D or StarDist3D makes
    [export_bioimageio] raise [ValueError("not a valid model")] at once,
    before any call to the outside. *)
Theorem invalid_model_raises :
  can_import E = true ->
  models_import E = Ok tt ->
  is_stardist model = false ->
  export_bioimageio E model outpath test_input input_axes name mode prefer_weights
                    min_percentile max_percentile overwrite_spec_kwargs
    = ([], Raise (ValueError "not a valid model")).
Proof.
  intros Hcan Hmi Hmodel. unfold export_bioimageio.
  rewrite (import_available true Hcan), bind_nil_Ok.
  cbn [unpack]. unfold ret at 1. rewrite bind_nil_Ok.
  unfold import_models. rewrite Hmodel, Hmi. unfold pure_call.
  now rewrite bind_nil_Ok.
Qed.

(** C1, as amended. With the optional libraries importable and a StarDist
    model, percentile arguments that do not satisfy
    [0 <= min_percentile < max_percentile <= 100] (100 itself is allowed
    for [max_percentile]) make [export_bioimageio] raise
    [ValueError("invalid percentile values")] before any export work: the
    trace of calls is empty. *)
Theorem invalid_percentiles_raise :
  can_import E = true ->
  is_stardist model = true ->
  ~ within_percentile_bounds min_percentile max_percentile ->
  export_bioimageio E model outpath test_input input_axes name mode prefer_weights
                    min_percentile max_percentile overwrite_spec_kwargs
    = ([], Raise (ValueError "invalid percentile values")).
Proof.
  intros Hcan Hmodel Hbounds. unfold export_bioimageio.
  rewrite (import_available true Hcan), bind_nil_Ok.
  cbn [unpack]. unfold ret at 1. rewrite bind_nil_Ok.
  unfold import_models. rewrite Hmodel. unfold ret at 1. rewrite bind_nil_Ok.
  cbn [or_raise]. unfold ret at 1. rewrite bind_nil_Ok.
  destruct (percentiles_ok min_percentile max_percentile) eqn:Hok; [|reflexivity].
  exfalso. apply Hbounds. now apply percentiles_ok_iff.
Qed.

End Checks.

(** ** Errors of [_get_weights_and_model_metadata] and missing weights *)

Section MetadataErrors.

Context {array : Type}.
Variable E : externals array.
Variable model : model_t array.

(** C3. When no entry of the model's log directory matches [*.h5] or
    [*.hdf5], [_get_weights_name] raises the [ValueError] about missing
    network weights, whatever [prefer] is, and every call of
    [export_bioimageio] for that model ends with an exception. *)
Theorem no_weights_export_fails :
  (forall f, ~ is_weight_file E model f) ->
  (forall prefer, _get_weights_name E model prefer = ([], Raise no_weights_error)) /\
  (forall outpath test_input input_axes name mode prefer minp maxp overwrite,
      raises (export_bioimageio E model outpath test_input input_axes name mode prefer
                                minp maxp overwrite)).
Proof.
  intros Hnone. split; [intros prefer; now apply get_weights_name_none|].
  intros outpath test_input input_axes name mode prefer minp maxp overwrite.
  unfold export_bioimageio.
  do 5 (apply raises_bind_r; intros ?).
  apply raises_bind_r. intros [outdir zip_path].
  do 2 (apply raises_bind_r; intros ?).
  apply raises_bind_l. unfold _get_weights_and_model_metadata.
  apply raises_bind_l. rewrite (get_weights_name_none E model prefer Hnone).
  now exists no_weights_error.
Qed.

Variables (outdir : path) (test_input : array).
Variables (input_axes mode prefer_weights : string).
Variables (min_percentile max_percentile : pyfloat).

Local Abbreviation metadata_outcome :=
  (snd (_get_weights_and_model_metadata E outdir model test_input input_axes mode
                                        prefer_weights min_percentile max_percentile)).

(** C4, as amended. [_get_weights_and_model_metadata] raises an exception
    unless [mode] is ["tensorflow_saved_model_bundle"] and the model is not
    multiclass. Without a weight file in the log directory the exception is
    the [ValueError] of [_get_weights_name], whatever the mode. With one,
    mode ["keras_hdf5"] raises [NotImplementedError], a mode other than the
    two raises [ValueError], and a multiclass model in
    ["tensorflow_saved_model_bundle"] mode raises [NotImplementedError] once
    [load_weights] (called with the name [_get_weights_name] returned),
    [export_TF], [axes_check_and_normalize] and [_axes_div_by] have
    returned. *)
Theorem weights_and_model_metadata_errors :
  (~ (mode = "tensorflow_saved_model_bundle" /\ _is_multiclass model = false) ->
   exists e, metadata_outcome = Raise e) /\
  ((forall f, ~ is_weight_file E model f) ->
   metadata_outcome = Raise no_weights_error) /\
  ((exists f, is_weight_file E model f) ->
   (mode = "keras_hdf5" ->
    metadata_outcome =
      Raise (NotImplementedError "Export to keras format is not supported yet")) /\
   (mode <> "keras_hdf5" -> mode <> "tensorflow_saved_model_bundle" ->
    metadata_outcome = Raise (ValueError ("Unsupported mode: " +:+ mode))) /\
   (mode = "tensorflow_saved_model_bundle" -> _is_multiclass model = true ->
    (forall w, _get_weights_name E model prefer_weights = ([], Ok w) ->
               load_weights model w = Ok tt) ->
    (exists mc, export_TF model (logdir model // "TF_SavedModel.zip") = Ok mc) ->
    (exists a, axes_check_and_normalize E (_axes_out model) = Ok a) ->
    (exists d, _axes_div_by model (PyStr.lower (axes (config model))) = Ok d) ->
    metadata_outcome =
      Raise (NotImplementedError
               "Tensorflow SavedModel not supported for multiclass models yet"))).
Proof.
  split; [|split].
  - intros Hnot.
    destruct (_get_weights_and_model_metadata E outdir model test_input input_axes mode
                prefer_weights min_percentile max_percentile) as [t [data|e]] eqn:H.
    + apply gwmm_Ok_inv in H as (Hm & Hc & _). now destruct Hnot.
    + now exists e.
  - intros Hnone. unfold _get_weights_and_model_metadata.
    now rewrite snd_bind, (get_weights_name_none E model prefer_weights Hnone).
  - intros Hsome.
    destruct (get_weights_name_some E model prefer_weights Hsome) as [w Hw].
    unfold _get_weights_and_model_metadata. rewrite snd_bind, Hw. cbn [snd].
    split; [|split].
    + intros ->. now rewrite snd_bind.
    + intros Hk Htf. apply String.eqb_neq in Hk, Htf.
      now rewrite snd_bind, Hk, Htf.
    + intros -> Hmc Hload [mc Hexp] [a Ha] [d Hd].
      rewrite snd_bind. cbn [String.eqb Ascii.eqb Bool.eqb]. cbv zeta.
      rewrite !snd_bind. cbn [snd call ret]. rewrite (Hload w eq_refl), Hexp.
      rewrite snd_bind. cbn [snd pure_call]. rewrite Ha.
      rewrite snd_bind. cbn [snd pure_call]. rewrite Hd.
      rewrite snd_bind. now rewrite Hmc.
Qed.

End MetadataErrors.

(** ** What an export writes and hands to the packager *)

Section Outputs.

Context {array : Type}.
Variable E : externals array.
Variable model : model_t array.
Variables (test_input : array) (input_axes mode prefer_weights : string).
Variables (min_percentile max_percentile : pyfloat).

(** C10. Whenever [_get_weights_and_model_metadata] returns, the array
    saved as [test_input.npy] is the raw test input moved to the network's
    axes, while the arrays saved as [test_output{i}.npy] come from the
    prediction on the percentile-normalized input: normalize, move to the
    network's axes, run the saved model, iterate over the result, move each
    item to the output axes. Nothing else is saved with [np.save]. *)
Theorem test_outputs_from_normalized_input (outdir : path) t data :
  _get_weights_and_model_metadata E outdir model test_input input_axes mode
      prefer_weights min_percentile max_percentile = (t, Ok data) ->
  let net_in := "S" +:+ PyStr.lower (axes (config model)) in
  let assets := logdir model // "tf_model" in
  exists raw normalized moved prediction outs saved out_axes,
    move_image_axes E test_input (PyStr.upper input_axes) net_in = Ok raw /\
    In (EvNpSave (outdir // "test_input.npy") raw) t /\
    normalize E test_input min_percentile max_percentile = Ok normalized /\
    move_image_axes E normalized (PyStr.upper input_axes) net_in = Ok moved /\
    (if is_tf_1 E then tf1_predict E assets moved else tf2_predict E assets moved)
      = Ok prediction /\
    np_iter E prediction = Ok outs /\
    Forall2 (fun out s => move_image_axes E out out_axes ("b" +:+ out_axes) = Ok s)
            outs saved /\
    (forall i s, saved !! i = Some s ->
                 In (EvNpSave (outdir // test_output_name i) s) t) /\
    (forall p a, In (EvNpSave p a) t ->
                 p = outdir // "test_input.npy" /\ a = raw \/
                 exists i, saved !! i = Some a /\ p = outdir // test_output_name i).
Proof.
  intros H. apply gwmm_Ok_inv in H as (_ & _ & H).
  destruct H as (w & nrm & x & xn & xm & y & outs & saved & _ & _ & Hx & Hxn & Hxm &
                 Hy & Houts & HF & -> & _).
  exists x, xn, xm, y, outs, saved, (PyStr.lower nrm).
  repeat (split; [first [assumption | cbn; tauto]|]).
  split.
  - intros i s Hi. apply in_app_iff. right. apply list_elem_of_In.
    apply elem_of_lookup_imap. now exists i, s.
  - intros p a Hin. apply in_app_iff in Hin as [Hin | Hin].
    + cbn in Hin.
      destruct Hin as [[=] | [[=] | [[= <- <-] | [[=] | [[=] | []]]]]]. now left.
    + apply list_elem_of_In, elem_of_lookup_imap in Hin as (i & s & [= -> ->] & Hi).
      right. now exists i.
Qed.

(** C6. The dictionary that [_get_weights_and_model_metadata] returns
    carries, as [input_axes], the string ["b"] followed by the lowercased
    [model.config.axes], and as [output_axes] the string ["b"] followed by
    the lowercased result of [axes_check_and_normalize(model._axes_out)];
    and these are the values [build_model] receives from
    [export_bioimageio], for the keys that [overwrite_spec_kwargs] does not
    set itself. *)
Theorem axes_strings_for_builder :
  (forall outdir t data,
      _get_weights_and_model_metadata E outdir model test_input input_axes mode
          prefer_weights min_percentile max_percentile = (t, Ok data) ->
      exists normalized,
        axes_check_and_normalize E (_axes_out model) = Ok normalized /\
        data !! "input_axes" =
          Some (VList [VStr ("b" +:+ PyStr.lower (axes (config model)))]) /\
        data !! "output_axes" =
          Some (VList [VStr ("b" +:+ PyStr.lower normalized)])) /\
  (forall outpath name overwrite t r nm zp kwargs,
      export_bioimageio E model outpath test_input input_axes name mode prefer_weights
                        min_percentile max_percentile overwrite = (t, r) ->
      In (EvBuildModel nm zp kwargs) t ->
      exists normalized,
        axes_check_and_normalize E (_axes_out model) = Ok normalized /\
        (overwrite !! "input_axes" = None ->
         kwargs !! "input_axes" =
           Some (VList [VStr ("b" +:+ PyStr.lower (axes (config model)))])) /\
        (overwrite !! "output_axes" = None ->
         kwargs !! "output_axes" =
           Some (VList [VStr ("b" +:+ PyStr.lower normalized)]))).
Proof.
  split.
  - intros outdir t data H. apply gwmm_Ok_inv in H as (_ & _ & H).
    destruct H as (w & nrm & x & xn & xm & y & outs & saved & _ & Hn & _ & _ & _ & _ & _ &
                   _ & _ & _ & _ & _ & Hin & Hout & _).
    now exists nrm.
  - intros outpath name overwrite t r nm zp kwargs H Hb.
    eapply (export_build_inv E) in H; [|exact Hb].
    destruct H as (_ & _ & _ & outdir & t_meta & kw0 & t_model & mkw & _ & _ & Hmodel &
                   _ & -> & _).
    apply gwmm_Ok_inv in Hmodel as (_ & _ & H).
    destruct H as (w & nrm & x & xn & xm & y & outs & saved & _ & Hn & _ & _ & _ & _ & _ &
                   _ & _ & _ & _ & _ & Hin & Hout & _).
    exists nrm. split; [exact Hn|]. unfold dict_update. split; intros Hov.
    + rewrite (lookup_union_r _ _ _ Hov). now apply lookup_union_Some_l.
    + rewrite (lookup_union_r _ _ _ Hov). now apply lookup_union_Some_l.
Qed.

Variables (outpath : path) (name : string) (overwrite_spec_kwargs : gmap string pyval).

(** C5, as amended. A successful export made exactly these calls, in this
    order: it created the output directory; wrote [requirements.txt] and
    [README.md] into it; loaded the weights and had [model.export_TF]
    write [TF_SavedModel.zip] into the model's log directory
    ([model.logdir], whatever the output directory is); saved
    [test_input.npy] into the output directory; unpacked the zip into
    [tf_model] in the log directory and ran the saved model; saved, for
    each item [i] (from 0) that the iteration over the prediction yields,
    that item moved to the output axes as [test_output{i}.npy] in the
    output directory, one file per item; called [build_model] with the
    archive path. The paths of the files are among the keyword arguments
    of that call, under every key that [overwrite_spec_kwargs] does not
    set itself. *)
Theorem export_files_written t :
  export_bioimageio E model outpath test_input input_axes name mode prefer_weights
                    min_percentile max_percentile overwrite_spec_kwargs
    = (t, Ok tt) ->
  exists outdir zip_path requires w raw moved prediction outs normalized saved kwargs,
    (PyPath.suffix outpath = EmptyString /\ outdir = outpath /\
     zip_path = outpath // (name +:+ ".zip") \/
     PyPath.suffix outpath = ".zip" /\ outdir = PyPath.parent outpath /\
     zip_path = outpath) /\
    (if is_tf_1 E then tf1_predict E (logdir model // "tf_model") moved
     else tf2_predict E (logdir model // "tf_model") moved) = Ok prediction /\
    np_iter E prediction = Ok outs /\
    axes_check_and_normalize E (_axes_out model) = Ok normalized /\
    Forall2 (fun out s =>
               move_image_axes E out (PyStr.lower normalized)
                               ("b" +:+ PyStr.lower normalized) = Ok s)
            outs saved /\
    t = ([EvMkdir outdir;
          EvWriteText (outdir // "requirements.txt")
                      (PyStr.join PyStr.newline ("tensorflow" :: requires));
          EvWriteText (outdir // "README.md") doc_text;
          EvLoadWeights w;
          EvExportTF (logdir model // "TF_SavedModel.zip");
          EvNpSave (outdir // "test_input.npy") raw;
          EvExtractAll (logdir model // "TF_SavedModel.zip") (logdir model // "tf_model");
          EvTFPredict (logdir model // "tf_model") moved] ++
         imap (fun i s => EvNpSave (outdir // test_output_name i) s) saved ++
         [EvBuildModel name zip_path kwargs])%list /\
    (overwrite_spec_kwargs !! "dependencies" = None ->
     kwargs !! "dependencies" =
       Some (VStr ("pip:" +:+ PyPath.to_string (outdir // "requirements.txt")))) /\
    (overwrite_spec_kwargs !! "documentation" = None ->
     kwargs !! "documentation" = Some (VPath (outdir // "README.md"))) /\
    (overwrite_spec_kwargs !! "test_inputs" = None ->
     kwargs !! "test_inputs" = Some (VList [VPath (outdir // "test_input.npy")])) /\
    (overwrite_spec_kwargs !! "test_outputs" = None ->
     kwargs !! "test_outputs" =
       Some (VList (List.map VPath
                      (imap (fun i (_ : array) => outdir // test_output_name i) saved)))) /\
    (overwrite_spec_kwargs !! "weight_uri" = None ->
     kwargs !! "weight_uri" = Some (VPath (logdir model // "TF_SavedModel.zip"))).
Proof.
  intros H.
  pose proof (builds_last_export E model outpath test_input input_axes name mode
                prefer_weights min_percentile max_percentile overwrite_spec_kwargs) as Hb.
  unfold builds_last in Hb. rewrite H in Hb. cbn [fst snd] in Hb.
  destruct Hb as [[_ [e [=]]] | (t0 & zp & kw & Ht & _ & _)].
  assert (Hin : In (EvBuildModel name zp kw) t)
    by (rewrite Ht; apply in_app_iff; right; now left).
  eapply (export_build_inv E) in H; [|exact Hin].
  destruct H as (_ & _ & _ & outdir & t_meta & kw0 & t_model & mkw & Hpath & Hmeta &
                 Hmodel & _ & Hkw & Htrace & _).
  apply metadata_Ok_inv in Hmeta as (requires & _ & -> & Hdep & Hdoc & _).
  apply gwmm_Ok_inv in Hmodel as (_ & _ & Hm).
  destruct Hm as (w & nrm & x & xn & xm & y & outs & saved & _ & Hn & _ & _ & _ & Hy &
                  Houts & HF & -> & Huri & Htin & Htout & _ & _ & Hndep & Hndoc & _).
  exists outdir, zp, requires, w, x, xm, y, outs, nrm, saved, kw.
  split; [exact Hpath|].
  split; [exact Hy|]. split; [exact Houts|]. split; [exact Hn|]. split; [exact HF|].
  split; [rewrite Htrace, <- app_assoc; reflexivity|].
  subst kw. unfold dict_update.
  repeat split; intros Hov; rewrite (lookup_union_r _ _ _ Hov).
  - now rewrite (lookup_union_r _ _ _ Hndep).
  - now rewrite (lookup_union_r _ _ _ Hndoc).
  - now apply lookup_union_Some_l.
  - now apply lookup_union_Some_l.
  - now apply lookup_union_Some_l.
Qed.

(** C9, as amended. When [outpath] has no suffix, it is the directory the
    export creates and the archive path given to [build_model] is
    [outpath/{name}.zip]; when its suffix is [.zip], the directory is its
    parent and the archive path is [outpath] itself; for any other suffix,
    with the optional libraries importable and [stardist.models]
    importable or the model already an instance of its classes, the export
    raises a [ValueError] before any call to the outside. *)
Theorem outpath_resolution t r :
  export_bioimageio E model outpath test_input input_axes name mode prefer_weights
                    min_percentile max_percentile overwrite_spec_kwargs
    = (t, r) ->
  (PyPath.suffix outpath = EmptyString ->
   (can_import E = true -> is_stardist model = true ->
    within_percentile_bounds min_percentile max_percentile ->
    exists t', t = EvMkdir outpath :: t') /\
   (forall nm zp kwargs, In (EvBuildModel nm zp kwargs) t ->
                         zp = outpath // (name +:+ ".zip"))) /\
  (PyPath.suffix outpath = ".zip" ->
   (can_import E = true -> is_stardist model = true ->
    within_percentile_bounds min_percentile max_percentile ->
    exists t', t = EvMkdir (PyPath.parent outpath) :: t') /\
   (forall nm zp kwargs, In (EvBuildModel nm zp kwargs) t -> zp = outpath)) /\
  (PyPath.suffix outpath <> EmptyString -> PyPath.suffix outpath <> ".zip" ->
   can_import E = true ->
   is_stardist model = true \/ models_import E = Ok tt ->
   t = [] /\ exists msg, r = Raise (ValueError msg)).
Proof.
  intros H.
  assert (Hhead : can_import E = true -> is_stardist model = true ->
                  within_percentile_bounds min_percentile max_percentile ->
                  export_bioimageio E model outpath test_input input_axes name mode prefer_weights
                    min_percentile max_percentile overwrite_spec_kwargs
                    =
                  bind (if String.eqb (PyPath.suffix outpath) EmptyString
                        then ret (outpath, outpath // (name +:+ ".zip"))
                        else if String.eqb (PyPath.suffix outpath) ".zip"
                             then ret (PyPath.parent outpath, outpath)
                             else raise (ValueError
                                    ("outpath has to be a folder or zip file, got " +:+
                                     PyPath.to_string outpath)))
                       (fun '(outdir, zip_path) =>
                          bind (call (EvMkdir outdir) (os_mkdir E outdir))
                               (fun _ =>
                                  bind (_get_stardist_metadata E outdir)
                                       (fun kwargs =>
                                          bind (_get_weights_and_model_metadata
                                                  E outdir model test_input input_axes mode
                                                  prefer_weights min_percentile
                                                  max_percentile)
                                               (fun model_kwargs =>
                                                  call_build_model E name zip_path
                                                    (dict_update
                                                       (dict_update kwargs model_kwargs)
                                                       overwrite_spec_kwargs)))))).
  { intros Hcan Hmodel Hperc. apply percentiles_ok_iff in Hperc.
    unfold export_bioimageio.
    rewrite (import_available E true Hcan), bind_nil_Ok.
    cbn [unpack]. unfold ret at 1. rewrite bind_nil_Ok.
    unfold import_models. rewrite Hmodel. unfold ret at 1. rewrite bind_nil_Ok.
    cbn [or_raise]. unfold ret at 1. rewrite bind_nil_Ok.
    rewrite Hperc. cbn [or_raise]. unfold ret at 1. now rewrite bind_nil_Ok. }
  split; [|split].
  - intros Hsuf. split.
    + intros Hcan Hmodel Hperc. rewrite (Hhead Hcan Hmodel Hperc) in H.
      rewrite Hsuf in H. cbn [String.eqb] in H. unfold ret at 1 in H.
      rewrite bind_nil_Ok in H. now apply bind_call_trace in H.
    + intros nm zp kwargs Hin. eapply (export_build_inv E) in H; [|exact Hin].
      destruct H as (_ & _ & _ & outdir & ? & ? & ? & ? & Hpath & _).
      destruct Hpath as [(_ & _ & ->) | (Hz & _)]; [reflexivity|].
      rewrite Hsuf in Hz. discriminate.
  - intros Hsuf. split.
    + intros Hcan Hmodel Hperc. rewrite (Hhead Hcan Hmodel Hperc) in H.
      rewrite Hsuf in H. cbn [String.eqb Ascii.eqb Bool.eqb] in H. unfold ret at 1 in H.
      rewrite bind_nil_Ok in H. now apply bind_call_trace in H.
    + intros nm zp kwargs Hin. eapply (export_build_inv E) in H; [|exact Hin].
      destruct H as (_ & _ & _ & outdir & ? & ? & ? & ? & Hpath & _).
      destruct Hpath as [(He & _) | (_ & _ & ->)]; [|reflexivity].
      rewrite Hsuf in He. discriminate.
  - intros Hne Hnz Hcan Hmods. apply String.eqb_neq in Hne, Hnz.
    unfold export_bioimageio in H.
    rewrite (import_available E true Hcan), bind_nil_Ok in H.
    cbn [unpack] in H. unfold ret at 1 in H. rewrite bind_nil_Ok in H.
    unfold import_models in H.
    destruct (is_stardist model).
    2:{ destruct Hmods as [[=] | Hmi]. rewrite Hmi in H. unfold pure_call in H.
        rewrite bind_nil_Ok in H. cbn [or_raise] in H.
        apply raise_inv in H as [-> ->]. eauto. }
    unfold ret at 1 in H. rewrite bind_nil_Ok in H. cbn [or_raise] in H.
    unfold ret at 1 in H. rewrite bind_nil_Ok in H.
    destruct (percentiles_ok min_percentile max_percentile); cbn [or_raise] in H;
      [|apply raise_inv in H as [-> ->]; eauto].
    unfold ret at 1 in H. rewrite bind_nil_Ok in H.
    rewrite Hne, Hnz, bind_raise in H.
    apply raise_inv in H as [-> ->]. eauto.
Qed.

End Outputs.

(** ** Every call of a run is an expected one *)

Section AllEvents.

Context {array : Type}.
Variable P : event array -> Prop.

Lemma all_events_silent {A} (m : M array A) : fst m = [] -> all_events P m.
Proof. unfold all_events. intros ->. constructor. Qed.

Lemma all_events_call {A} ev (r : result A) : P ev -> all_events P (call ev r).
Proof. intros H. unfold all_events. cbn. now constructor. Qed.

(** The second half may rely on what the first half returned. *)
Lemma all_events_bind {A B} (m : M array A) (f : A -> M array B) :
  all_events P m ->
  (forall t a, m = (t, Ok a) -> all_events P (f a)) ->
  all_events P (bind m f).
Proof.
  unfold all_events, bind. intros Hm Hf. destruct m as [t [a|e]]; [|exact Hm].
  specialize (Hf t a eq_refl). destruct (f a) as [t2 r]. cbn in *.
  apply List.Forall_app. now split.
Qed.

Lemma all_events_or_raise c e : all_events P (or_raise c e : M array unit).
Proof. apply all_events_silent. now destruct c. Qed.

Lemma all_events_assert c : all_events P (assert c : M array unit).
Proof. apply all_events_silent. now destruct c. Qed.

Lemma all_events_local {A} name (v : option A) : all_events P (local name v : M array A).
Proof. apply all_events_silent. now destruct v. Qed.

Lemma all_events_mapM {A B} (f : A -> M array B) l :
  (forall a, all_events P (f a)) -> all_events P (mapM f l).
Proof.
  intros Hf. induction l as [|x l IH]; cbn [mapM]; [now apply all_events_silent|].
  apply all_events_bind; [apply Hf|]. intros _ y _.
  apply all_events_bind; [exact IH|]. intros _ ys _. now apply all_events_silent.
Qed.

Lemma all_events_import (E : externals array) error : all_events P (_import E error).
Proof.
  apply all_events_silent. unfold _import.
  destruct (can_import E); [reflexivity|]. now destruct error.
Qed.

Lemma all_events_import_models (E : externals array) model :
  all_events P (import_models E model).
Proof. apply all_events_silent. unfold import_models. now destruct (is_stardist model). Qed.

Lemma all_events_unpack v : all_events P (unpack v : M array imports).
Proof. apply all_events_silent. now destruct v. Qed.

Lemma all_events_weights_name (E : externals array) model prefer :
  all_events P (_get_weights_name E model prefer).
Proof. apply all_events_silent, weights_name_no_calls. Qed.

End AllEvents.

(** One step through a computation all of whose calls are claimed to satisfy
    a property; a call leaves the property of its event to prove. *)
Ltac all_events_step :=
  cbv beta zeta;
  lazymatch goal with
  | |- all_events _ (bind _ _) => apply all_events_bind; [|intros ? ? ?]
  | |- all_events _ (if ?c then _ else _) => destruct c
  | |- all_events _ (match ?x with _ => _ end) => destruct x
  | |- all_events _ (mapM _ _) => apply all_events_mapM; intros ?
  | |- all_events _ (call _ _) => apply all_events_call
  | |- all_events _ (or_raise _ _) => apply all_events_or_raise
  | |- all_events _ (assert _) => apply all_events_assert
  | |- all_events _ (local _ _) => apply all_events_local
  | |- all_events _ (_import _ _) => apply all_events_import
  | |- all_events _ (unpack _) => apply all_events_unpack
  | |- all_events _ (import_models _ _) => apply all_events_import_models
  | |- all_events _ (_get_weights_name _ _ _) => apply all_events_weights_name
  | |- all_events _ (ret _) => apply all_events_silent; reflexivity
  | |- all_events _ (raise _) => apply all_events_silent; reflexivity
  | |- all_events _ (pure_call _) => apply all_events_silent; reflexivity
  end.

Section ExpectedCalls.

Context {array : Type}.
Variable E : externals array.
Variable model : model_t array.

Lemma hd_error_In {A} (l : list A) x : List.hd_error l = Some x -> In x l.
Proof. destruct l; [discriminate|]. intros [= ->]. now left. Qed.

(** The name that [_get_weights_name] returns is the name of a weight file
    of the log directory. *)
Lemma weights_name_Ok_inv prefer t w :
  _get_weights_name E model prefer = (t, Ok w) ->
  exists f, is_weight_file E model f /\ d_name f = w.
Proof.
  destruct (newest_first_spec E model) as [_ Hin].
  unfold _get_weights_name.
  set (l := List.rev (sorted d_mtime
               (List.concat (List.map (glob E (logdir model)) weights_ext)))) in *.
  cbv zeta in Hin.
  destruct (Nat.eqb (List.length l) 0); [discriminate|].
  set (lp := List.filter (fun f => PyStr.contains prefer (d_name f)) l).
  destruct (if Nat.ltb 0 (List.length lp) then List.hd_error lp else List.hd_error l)
    as [f|] eqn:Hf; [|discriminate].
  intros [= _ <-]. exists f. split; [|reflexivity]. apply Hin.
  destruct (Nat.ltb 0 (List.length lp)); apply hd_error_In in Hf; [|exact Hf].
  now apply filter_In in Hf.
Qed.

Variables (outdir zip_path : path) (name prefer : string).
Variable overwrite : gmap string pyval.

Local Abbreviation expected :=
  (expected_call E model outdir zip_path name prefer overwrite).

Lemma expected_metadata : all_events expected (_get_stardist_metadata E outdir).
Proof.
  unfold _get_stardist_metadata, _create_stardist_dependencies, _create_stardist_doc.
  repeat all_events_step; cbn; auto.
Qed.

Lemma expected_save_outputs oa ba outs :
  forall i out_paths, all_events expected (save_outputs E outdir oa ba i outs out_paths).
Proof.
  induction outs as [|out outs IH]; intros i out_paths; cbn [save_outputs].
  - now apply all_events_silent.
  - repeat first [apply IH | all_events_step]. cbn. right. now exists i.
Qed.

Lemma expected_predict_tf x :
  all_events expected (_predict_tf E (logdir model // "TF_SavedModel.zip") x).
Proof.
  unfold _predict_tf. rewrite parent_joinpath_name.
  repeat all_events_step; cbn; auto.
Qed.

Lemma expected_weights_and_model_metadata test_input input_axes mode minp maxp :
  all_events expected
    (_get_weights_and_model_metadata E outdir model test_input input_axes mode prefer
                                     minp maxp).
Proof.
  unfold _get_weights_and_model_metadata.
  apply all_events_bind; [apply all_events_weights_name|]. intros t w Hw.
  pose proof (weights_name_no_calls E model prefer) as Hnil.
  rewrite Hw in Hnil. cbn in Hnil. subst t.
  apply all_events_bind; [repeat all_events_step; cbn; auto|].
  intros t0 [weight_uri mc] Hblock.
  assert (weight_uri = logdir model // "TF_SavedModel.zip") as ->.
  { destruct (String.eqb mode "keras_hdf5"); [discriminate|].
    destruct (String.eqb mode "tensorflow_saved_model_bundle"); [|discriminate].
    cbv zeta in Hblock.
    inv_bind Hblock as u Hload. inv_bind Hblock as mc' Hexp.
    now apply ret_inv in Hblock as [_ [= -> _]]. }
  repeat first [apply expected_predict_tf | apply expected_save_outputs
               | all_events_step]; cbn; auto.
Qed.

Lemma expected_call_build_model kwargs :
  overwrite ⊆ kwargs ->
  all_events expected (call_build_model E name zip_path kwargs).
Proof.
  intros Hsub. unfold call_build_model.
  destruct (kwargs !! "name") eqn:Hn; [now apply all_events_silent|].
  destruct (kwargs !! "output_path") eqn:Ho; [now apply all_events_silent|].
  apply all_events_call. cbn. auto.
Qed.

End ExpectedCalls.

Section ExportConfined.

Context {array : Type}.
Variable E : externals array.
Variable model : model_t array.
Variables (outpath : path) (test_input : array).
Variables (input_axes name mode prefer_weights : string).
Variables (min_percentile max_percentile : pyfloat).
Variable overwrite_spec_kwargs : gmap string pyval.

(** Whatever the outcome of a run of [export_bioimageio], each call it
    made is an expected one. *)
Lemma export_calls_expected :
  all_events (expected_call E model (outdir_of outpath) (zip_path_of outpath name) name
                            prefer_weights overwrite_spec_kwargs)
    (export_bioimageio E model outpath test_input input_axes name mode prefer_weights
                       min_percentile max_percentile overwrite_spec_kwargs).
Proof.
  unfold export_bioimageio.
  do 5 (apply all_events_bind; [all_events_step|]; intros ? ? _).
  apply all_events_bind; [repeat all_events_step|]. intros tp [outdir zp] Hpath.
  apply outpath_cases in Hpath as [_ Hpath].
  assert (outdir = outdir_of outpath /\ zp = zip_path_of outpath name) as [-> ->].
  { unfold outdir_of, zip_path_of.
    destruct Hpath as [(-> & -> & ->) | (-> & -> & ->)]; now cbn. }
  repeat first [apply expected_metadata | apply expected_weights_and_model_metadata
               | all_events_step].
  - reflexivity.
  - apply expected_call_build_model. unfold dict_update. apply map_union_subseteq_l.
Qed.

End ExportConfined.

(** ** Further properties of a run of [export_bioimageio] *)

Section ExportRuns.

Context {array : Type}.
Variable E : externals array.
Variable model : model_t array.
Variables (outpath : path) (test_input : array).
Variables (input_axes name mode prefer_weights : string).
Variables (min_percentile max_percentile : pyfloat).
Variable overwrite_spec_kwargs : gmap string pyval.

(** X1. Without the optional libraries, [export_bioimageio] raises the
    [RuntimeError] that tells how to install them, whatever its arguments,
    and before any call to the outside. *)
Theorem missing_libraries_abort :
  can_import E = false ->
  export_bioimageio E model outpath test_input input_axes name mode prefer_weights
                    min_percentile max_percentile overwrite_spec_kwargs
    = ([], Raise (RuntimeError import_error_msg)).
Proof.
  intros H. unfold export_bioimageio. now rewrite (import_missing E H).
Qed.

(** X2. The paths handed to the calls of a run, whatever its outcome:
    [mkdir(parents=True, exist_ok=True)] is called on the output directory
    only; the files that are written or saved are [requirements.txt],
    [README.md], [test_input.npy] and [test_output{i}.npy] in the output
    directory; [model.export_TF] is given [TF_SavedModel.zip] and the
    unpacking [tf_model], both in the model's log directory; and
    [build_model] is given the archive path ([outpath] itself when it ends
    in [.zip], [name + ".zip"] in the output directory otherwise) and
    [name]. What these calls create beyond the paths they are given (the
    missing parents of the output directory, the contents of [tf_model])
    is theirs to say. *)
Theorem export_calls_confined :
  let t := fst (export_bioimageio E model outpath test_input input_axes name mode
                                  prefer_weights min_percentile max_percentile
                                  overwrite_spec_kwargs) in
  let outdir := outdir_of outpath in
  (forall d, In (EvMkdir d) t -> d = outdir) /\
  (forall p, In p (written_paths t) ->
     p = outdir // "requirements.txt" \/ p = outdir // "README.md" \/
     p = outdir // "test_input.npy" \/ (exists i, p = outdir // test_output_name i) \/
     p = logdir model // "TF_SavedModel.zip" \/ p = logdir model // "tf_model") /\
  (forall p content, In (EvWriteText p content) t ->
     p = outdir // "requirements.txt" \/ p = outdir // "README.md") /\
  (forall p a, In (EvNpSave p a) t ->
     p = outdir // "test_input.npy" \/ exists i, p = outdir // test_output_name i) /\
  (forall p, In (EvExportTF p) t -> p = logdir model // "TF_SavedModel.zip") /\
  (forall zip dest, In (EvExtractAll zip dest) t ->
     zip = logdir model // "TF_SavedModel.zip" /\ dest = logdir model // "tf_model") /\
  (forall nm zp kwargs, In (EvBuildModel nm zp kwargs) t ->
     nm = name /\ zp = zip_path_of outpath name).
Proof.
  pose proof (export_calls_expected E model outpath test_input input_axes name mode
                prefer_weights min_percentile max_percentile overwrite_spec_kwargs) as H.
  unfold all_events in H. rewrite List.Forall_forall in H. cbv zeta.
  split; [|split; [|split; [|split; [|split; [|split]]]]].
  - intros d Hd. exact (H _ Hd).
  - intros p Hp. unfold written_paths in Hp.
    apply list_elem_of_In, list_elem_of_omap in Hp as (ev & Hev & Hw).
    apply list_elem_of_In, H in Hev.
    destruct ev; cbn in *; try discriminate; injection Hw as <-; intuition.
  - intros p c Hp. exact (H _ Hp).
  - intros p a Hp. exact (H _ Hp).
  - intros p Hp. exact (H _ Hp).
  - intros zip dest Hp. exact (H _ Hp).
  - intros nm zp kw Hp. apply H in Hp. cbn in Hp. now destruct Hp as (-> & -> & _).
Qed.

(** X3. Whatever the outcome of a run, [model.load_weights] is only called
    with the name that [_get_weights_name(model, prefer_weights)] returns,
    the name of a weight file of the log directory. *)
Theorem export_loads_chosen_weights (w : string) :
  In (EvLoadWeights w)
     (fst (export_bioimageio E model outpath test_input input_axes name mode
                             prefer_weights min_percentile max_percentile
                             overwrite_spec_kwargs)) ->
  _get_weights_name E model prefer_weights = ([], Ok w) /\
  exists f, is_weight_file E model f /\ d_name f = w.
Proof.
  intros Hin.
  pose proof (export_calls_expected E model outpath test_input input_axes name mode
                prefer_weights min_percentile max_percentile overwrite_spec_kwargs) as H.
  unfold all_events in H. rewrite List.Forall_forall in H.
  apply H in Hin. cbn in Hin. split; [exact Hin|].
  now apply weights_name_Ok_inv in Hin.
Qed.

(** X4. Every entry of [overwrite_spec_kwargs] is among the keyword
    arguments of any call of [build_model], with its own value: the
    overrides win over the values the module computes. *)
Theorem export_overrides_win nm zp kwargs :
  In (EvBuildModel nm zp kwargs)
     (fst (export_bioimageio E model outpath test_input input_axes name mode
                             prefer_weights min_percentile max_percentile
                             overwrite_spec_kwargs)) ->
  forall k v, overwrite_spec_kwargs !! k = Some v -> kwargs !! k = Some v.
Proof.
  intros Hin k v Hk.
  pose proof (export_calls_expected E model outpath test_input input_axes name mode
                prefer_weights min_percentile max_percentile overwrite_spec_kwargs) as H.
  unfold all_events in H. rewrite List.Forall_forall in H.
  apply H in Hin. cbn in Hin. destruct Hin as (_ & _ & _ & _ & Hsub).
  exact (lookup_weaken _ _ _ _ Hk Hsub).
Qed.

(** X5. An [overwrite_spec_kwargs] that sets [name] or [output_path]
    makes every run fail without calling [build_model]: the two are
    already given to it as explicit keywords. *)
Theorem export_rejects_name_override :
  is_Some (overwrite_spec_kwargs !! "name") \/
  is_Some (overwrite_spec_kwargs !! "output_path") ->
  no_build (fst (export_bioimageio E model outpath test_input input_axes name mode
                                   prefer_weights min_percentile max_percentile
                                   overwrite_spec_kwargs)) /\
  raises (export_bioimageio E model outpath test_input input_axes name mode
                            prefer_weights min_percentile max_percentile
                            overwrite_spec_kwargs).
Proof.
  intros Hov.
  pose proof (export_calls_expected E model outpath test_input input_axes name mode
                prefer_weights min_percentile max_percentile overwrite_spec_kwargs) as H.
  unfold all_events in H. rewrite List.Forall_forall in H.
  pose proof (builds_last_export E model outpath test_input input_axes name mode
                prefer_weights min_percentile max_percentile overwrite_spec_kwargs) as Hb.
  destruct Hb as [Hb | (t0 & zp & kw & Ht & _ & _)]; [exact Hb|].
  exfalso.
  assert (Hin : In (EvBuildModel name zp kw)
                   (fst (export_bioimageio E model outpath test_input input_axes name
                           mode prefer_weights min_percentile max_percentile
                           overwrite_spec_kwargs)))
    by (rewrite Ht; apply in_app_iff; right; now left).
  apply H in Hin. cbn in Hin. destruct Hin as (_ & _ & Hn & Ho & Hsub).
  destruct Hov as [[v Hv] | [v Hv]];
    pose proof (lookup_weaken _ _ _ _ Hv Hsub) as Hk; congruence.
Qed.

(** X6. With a mode other than ["tensorflow_saved_model_bundle"] every run
    fails, and it has not touched the model: at most the output directory,
    [requirements.txt] and [README.md] were created. *)
Theorem export_other_mode_leaves_model_alone :
  mode <> "tensorflow_saved_model_bundle" ->
  raises (export_bioimageio E model outpath test_input input_axes name mode
                            prefer_weights min_percentile max_percentile
                            overwrite_spec_kwargs) /\
  forall ev,
    In ev (fst (export_bioimageio E model outpath test_input input_axes name mode
                                  prefer_weights min_percentile max_percentile
                                  overwrite_spec_kwargs)) ->
    ev = EvMkdir (outdir_of outpath) \/
    exists p text, ev = EvWriteText p text /\
                   (p = outdir_of outpath // "requirements.txt" \/
                    p = outdir_of outpath // "README.md").
Proof.
  intros Hmode.
  assert (Hgw : forall outdir,
             _get_weights_and_model_metadata E outdir model test_input input_axes mode
                 prefer_weights min_percentile max_percentile
             = ([], snd (_get_weights_and_model_metadata E outdir model test_input
                           input_axes mode prefer_weights min_percentile
                           max_percentile)) /\
             raises (_get_weights_and_model_metadata E outdir model test_input
                       input_axes mode prefer_weights min_percentile max_percentile)).
  { intros outdir. apply String.eqb_neq in Hmode.
    unfold _get_weights_and_model_metadata.
    pose proof (weights_name_no_calls E model prefer_weights) as Hnil.
    destruct (_get_weights_name E model prefer_weights) as [t [w|e]]; cbn in Hnil; subst t.
    - rewrite bind_nil_Ok, Hmode.
      destruct (String.eqb mode "keras_hdf5"); rewrite bind_raise;
        (split; [reflexivity | eexists; reflexivity]).
    - split; [reflexivity | eexists; reflexivity]. }
  split.
  - unfold export_bioimageio.
    do 5 (apply raises_bind_r; intros ?).
    apply raises_bind_r. intros [outdir zip_path].
    do 2 (apply raises_bind_r; intros ?).
    apply raises_bind_l, Hgw.
  - assert (Hall : all_events
              (fun ev => ev = EvMkdir (outdir_of outpath) \/
                 exists p text, ev = EvWriteText p text /\
                   (p = outdir_of outpath // "requirements.txt" \/
                    p = outdir_of outpath // "README.md"))
              (export_bioimageio E model outpath test_input input_axes name mode
                 prefer_weights min_percentile max_percentile overwrite_spec_kwargs)).
    { unfold export_bioimageio.
      do 5 (apply all_events_bind; [all_events_step|]; intros ? ? _).
      apply all_events_bind; [repeat all_events_step|]. intros tp [outdir zp] Hpath.
      apply outpath_cases in Hpath as [_ Hpath].
      assert (outdir = outdir_of outpath) as ->.
      { unfold outdir_of. destruct Hpath as [(-> & -> & _) | (-> & -> & _)]; now cbn. }
      apply all_events_bind; [apply all_events_call; now left|]. intros _ _ _.
      apply all_events_bind.
      { unfold _get_stardist_metadata, _create_stardist_dependencies,
          _create_stardist_doc.
        repeat all_events_step; right; eauto. }
      intros _ kw _.
      apply all_events_bind; [apply all_events_silent; now rewrite (proj1 (Hgw _))|].
      intros tm mk Hmk. destruct (Hgw (outdir_of outpath)) as [_ [e He]].
      rewrite Hmk in He. discriminate. }
    unfold all_events in Hall. rewrite List.Forall_forall in Hall. exact Hall.
Qed.

End ExportRuns.

(** ** Strings and paths *)

Section StringFacts.

Lemma contains_empty s : PyStr.contains EmptyString s = true.
Proof. now destruct s. Qed.

(** A string without the separator is a single piece. *)
Lemma split_char_no_sep c s : has_char c s = false -> PyStr.split_char c s = [s].
Proof.
  induction s as [|d s IH]; [reflexivity|]. cbn [has_char PyStr.split_char].
  intros H. apply orb_false_elim in H as [Hd Hs]. rewrite Hd, (IH Hs). reflexivity.
Qed.

Lemma split_char_app c s rest :
  has_char c s = false ->
  PyStr.split_char c (s +:+ String c rest) = s :: PyStr.split_char c rest.
Proof.
  induction s as [|d s IH]; intros H.
  - change (EmptyString +:+ String c rest) with (String c rest).
    cbn [PyStr.split_char]. now rewrite Ascii.eqb_refl.
  - cbn [has_char] in H. apply orb_false_elim in H as [Hd Hs].
    change (String d s +:+ String c rest) with (String d (s +:+ String c rest)).
    cbn [PyStr.split_char]. rewrite Hd, (IH Hs). reflexivity.
Qed.

(** [split] undoes [join] on pieces that do not hold the separator. *)
Lemma split_join c (l : list string) :
  l <> [] ->
  List.Forall (fun s => has_char c s = false) l ->
  PyStr.split_char c (PyStr.join (String c EmptyString) l) = l.
Proof.
  induction l as [|x [|y l] IH]; intros Hne HF; [congruence | |].
  - cbn. apply split_char_no_sep. now inversion HF.
  - inversion HF as [|? ? Hx HF']; subst.
    change (PyStr.join (String c EmptyString) (x :: y :: l))
      with (x +:+ String c (PyStr.join (String c EmptyString) (y :: l))).
    rewrite (split_char_app c x _ Hx). f_equal. apply IH; [discriminate | exact HF'].
Qed.

Lemma has_char_app c s1 s2 :
  has_char c (s1 +:+ s2) = (has_char c s1 || has_char c s2)%bool.
Proof.
  induction s1 as [|d s1 IH]; [reflexivity|].
  change (String d s1 +:+ s2) with (String d (s1 +:+ s2)).
  cbn [has_char]. now rewrite IH, orb_assoc.
Qed.

(** The components of a plain file name: the name itself. *)
Lemma components_plain s :
  has_char "/" s = false -> s <> EmptyString -> s <> "." ->
  PyPath.components s = [s].
Proof.
  intros Hs He Hd. unfold PyPath.components. rewrite (split_char_no_sep _ _ Hs).
  cbn. apply String.eqb_neq in He, Hd. now rewrite He, Hd.
Qed.

Lemma startswith_slash s : has_char "/" s = false -> PyStr.startswith "/" s = false.
Proof.
  destruct s as [|d s]; [reflexivity|]. cbn [has_char]. intros H.
  apply orb_false_elim in H as [Hd _]. cbn [PyStr.startswith].
  now rewrite Ascii.eqb_sym, Hd.
Qed.

(** A plain file name joined to a directory lies directly in it. *)
Lemma parent_joinpath_plain (p : path) s :
  has_char "/" s = false -> s <> EmptyString -> s <> "." ->
  PyPath.parent (p // s) = p.
Proof.
  intros Hs He Hd. destruct p as [ab ps]. unfold PyPath.parent, PyPath.joinpath.
  rewrite (startswith_slash _ Hs), (components_plain _ Hs He Hd). cbn.
  f_equal. apply removelast_last.
Qed.

Lemma zip_name_plain name :
  has_char "/" name = false ->
  has_char "/" (name +:+ ".zip") = false /\
  name +:+ ".zip" <> EmptyString /\ name +:+ ".zip" <> ".".
Proof.
  intros H. split; [rewrite has_char_app, H; reflexivity|].
  destruct name as [|c [|d n]]; cbn; split; discriminate.
Qed.

End StringFacts.

Section ExportRuns2.

Context {array : Type}.
Variable E : externals array.
Variable model : model_t array.

(** X7. An empty [prefer] is contained in every name: with a weight file
    in the log directory, [_get_weights_name(model, "")] returns the name
    of a weight file that no other weight file is newer than. *)
Theorem empty_prefer_picks_newest :
  (exists f, is_weight_file E model f) ->
  exists f,
    _get_weights_name E model EmptyString = ([], Ok (d_name f)) /\
    is_weight_file E model f /\
    forall g, is_weight_file E model g -> (d_mtime g <= d_mtime f)%Q.
Proof.
  intros H. destruct (get_weights_name_spec E model EmptyString H) as (f & Hf & Hw & Hp & _).
  exists f. split; [exact Hf|]. split; [exact Hw|].
  intros g Hg. apply (Hp g Hg), contains_empty.
Qed.

(** X8. [_create_stardist_dependencies] writes one file,
    [requirements.txt] in the output directory, whose lines are
    [tensorflow] followed by the requirements of the installed stardist
    package, in their order (splitting the text at the newlines gives them
    back), and on success it returns [pip:] followed by the path of that
    file. *)
Theorem requirements_file_lists_requirements (outdir : path) (requires : list string) :
  pkg_requires E "stardist" = Ok requires ->
  List.Forall (fun r => has_char (ascii_of_nat 10) r = false) requires ->
  exists text,
    fst (_create_stardist_dependencies E outdir)
      = [EvWriteText (outdir // "requirements.txt") text] /\
    PyStr.split_char (ascii_of_nat 10) text = "tensorflow" :: requires /\
    forall t v, _create_stardist_dependencies E outdir = (t, Ok v) ->
                v = "pip:" +:+ PyPath.to_string (outdir // "requirements.txt").
Proof.
  intros Hreq HF. unfold _create_stardist_dependencies. rewrite Hreq.
  unfold pure_call. rewrite bind_nil_Ok. cbv zeta.
  exists (PyStr.join PyStr.newline ("tensorflow" :: requires)). split; [|split].
  - unfold bind, call. now destruct (os_write_text E _ _).
  - apply split_join; [discriminate|]. constructor; [reflexivity | exact HF].
  - intros t v H. inv_bind H as u Hw. now apply ret_inv in H as [_ [= ->]].
Qed.

(** X9. [_get_stardist_metadata] reads the package metadata before it
    writes: a run that wrote anything had the libraries importable, read
    [Summary], [Author] (present), [Home-Page] and [License], and wrote
    [requirements.txt] first; [README.md] is only written after
    [requirements.txt] was written successfully. *)
Theorem metadata_writes_after_reads (outdir : path) t r :
  _get_stardist_metadata E outdir = (t, r) ->
  t <> [] ->
  can_import E = true /\
  exists package_data author requires,
    pkg_metadata E "stardist" = Ok package_data /\
    (exists v, package_data "Summary" = Ok v) /\
    package_data "Author" = Ok (Some author) /\
    (exists v, package_data "Home-Page" = Ok v) /\
    (exists v, package_data "License" = Ok v) /\
    pkg_requires E "stardist" = Ok requires /\
    let req := outdir // "requirements.txt" in
    let text := PyStr.join PyStr.newline ("tensorflow" :: requires) in
    (t = [EvWriteText req text] \/
     t = [EvWriteText req text; EvWriteText (outdir // "README.md") doc_text] /\
     os_write_text E req text = Ok tt).
Proof.
  unfold _get_stardist_metadata, _create_stardist_dependencies, _create_stardist_doc,
    _import, unpack.
  destruct (can_import E); [|intros [= <- _] Hne; now destruct Hne].
  unfold ret at 1. rewrite bind_nil_Ok. unfold ret at 1. rewrite bind_nil_Ok.
  unfold pure_call.
  destruct (pkg_metadata E "stardist") as [pd|e]; [|intros [= <- _] Hne; now destruct Hne].
  rewrite bind_nil_Ok.
  destruct (pd "Summary") as [sm|e] eqn:Hsm; [|intros [= <- _] Hne; now destruct Hne].
  rewrite bind_nil_Ok.
  destruct (pd "Author") as [[a|]|e] eqn:Ha;
    [| intros [= <- _] Hne; now destruct Hne | intros [= <- _] Hne; now destruct Hne].
  rewrite bind_nil_Ok. unfold ret at 1. rewrite bind_nil_Ok.
  destruct (pd "Home-Page") as [hp|e] eqn:Hhp; [|intros [= <- _] Hne; now destruct Hne].
  rewrite bind_nil_Ok.
  destruct (pd "License") as [li|e] eqn:Hli; [|intros [= <- _] Hne; now destruct Hne].
  rewrite bind_nil_Ok.
  destruct (pkg_requires E "stardist") as [req|e] eqn:Hreq;
    [|intros [= <- _] Hne; now destruct Hne].
  rewrite bind_nil_Ok. cbv zeta.
  intros H _. split; [reflexivity|].
  exists pd, a, req. repeat (split; [eauto|]).
  unfold bind, call, ret in H.
  destruct (os_write_text E (outdir // "requirements.txt") _) as [[]|e] eqn:Hw.
  - right. destruct (os_write_text E (outdir // "README.md") _);
      injection H as <- _; auto.
  - left. now injection H as <- _.
Qed.

Variables (outpath : path) (test_input : array).
Variables (input_axes name mode prefer_weights : string).
Variables (min_percentile max_percentile : pyfloat).
Variable overwrite_spec_kwargs : gmap string pyval.

(** The export once its checks have passed. *)
Lemma export_after_checks :
  can_import E = true -> is_stardist model = true ->
  within_percentile_bounds min_percentile max_percentile ->
  PyPath.suffix outpath = EmptyString \/ PyPath.suffix outpath = ".zip" ->
  export_bioimageio E model outpath test_input input_axes name mode prefer_weights
                    min_percentile max_percentile overwrite_spec_kwargs
  = bind (call (EvMkdir (outdir_of outpath)) (os_mkdir E (outdir_of outpath)))
      (fun _ =>
         bind (_get_stardist_metadata E (outdir_of outpath))
           (fun kwargs =>
              bind (_get_weights_and_model_metadata
                      E (outdir_of outpath) model test_input input_axes mode
                      prefer_weights min_percentile max_percentile)
                (fun model_kwargs =>
                   call_build_model E name (zip_path_of outpath name)
                     (dict_update (dict_update kwargs model_kwargs)
                                  overwrite_spec_kwargs)))).
Proof.
  intros Hcan Hmodel Hperc Hsuf. apply percentiles_ok_iff in Hperc.
  unfold export_bioimageio, outdir_of, zip_path_of.
  rewrite (import_available E true Hcan), bind_nil_Ok.
  cbn [unpack]. unfold ret at 1. rewrite bind_nil_Ok.
  unfold import_models. rewrite Hmodel. unfold ret at 1. rewrite bind_nil_Ok.
  cbn [or_raise]. unfold ret at 1. rewrite bind_nil_Ok.
  rewrite Hperc. cbn [or_raise]. unfold ret at 1. rewrite bind_nil_Ok.
  destruct Hsuf as [-> | ->]; cbn [String.eqb Ascii.eqb Bool.eqb];
    unfold ret at 1; now rewrite bind_nil_Ok.
Qed.

(** X10. Missing weights are found out late: when the checks pass, the
    output directory can be created and the package metadata written, a
    model without a weight file makes the export raise the [ValueError]
    of [_get_weights_name] only after the output directory,
    [requirements.txt] and [README.md] were created, and these stay. *)
Theorem missing_weights_leave_files :
  can_import E = true -> is_stardist model = true ->
  within_percentile_bounds min_percentile max_percentile ->
  PyPath.suffix outpath = EmptyString \/ PyPath.suffix outpath = ".zip" ->
  os_mkdir E (outdir_of outpath) = Ok tt ->
  (exists t kwargs, _get_stardist_metadata E (outdir_of outpath) = (t, Ok kwargs)) ->
  (forall f, ~ is_weight_file E model f) ->
  exists requires,
    pkg_requires E "stardist" = Ok requires /\
    export_bioimageio E model outpath test_input input_axes name mode prefer_weights
                      min_percentile max_percentile overwrite_spec_kwargs
    = ([EvMkdir (outdir_of outpath);
        EvWriteText (outdir_of outpath // "requirements.txt")
                    (PyStr.join PyStr.newline ("tensorflow" :: requires));
        EvWriteText (outdir_of outpath // "README.md") doc_text],
       Raise no_weights_error).
Proof.
  intros Hcan Hmodel Hperc Hsuf Hmk (t & kw & Hmeta) Hnone.
  rewrite (export_after_checks Hcan Hmodel Hperc Hsuf).
  pose proof Hmeta as Hinv. apply metadata_Ok_inv in Hinv as (requires & Hreq & -> & _).
  exists requires. split; [exact Hreq|].
  rewrite Hmk. unfold call. rewrite (bind_Ok _ _ _ _ eq_refl).
  rewrite (bind_Ok _ _ _ _ Hmeta).
  unfold _get_weights_and_model_metadata.
  rewrite (get_weights_name_none E model prefer_weights Hnone).
  reflexivity.
Qed.

(** X11. A successful export had everything it needs: the optional
    libraries, a StarDist model, percentiles with
    [0 <= min < max <= 100], an [outpath] without suffix or with suffix
    [.zip], the mode ["tensorflow_saved_model_bundle"], a model that is not
    multiclass and has a weight file, no [name] or [output_path] among the
    overrides, and a call of [build_model] that returned. *)
Theorem export_success_requires t :
  export_bioimageio E model outpath test_input input_axes name mode prefer_weights
                    min_percentile max_percentile overwrite_spec_kwargs = (t, Ok tt) ->
  can_import E = true /\ is_stardist model = true /\
  within_percentile_bounds min_percentile max_percentile /\
  (PyPath.suffix outpath = EmptyString \/ PyPath.suffix outpath = ".zip") /\
  mode = "tensorflow_saved_model_bundle" /\ _is_multiclass model = false /\
  (exists f, is_weight_file E model f) /\
  overwrite_spec_kwargs !! "name" = None /\
  overwrite_spec_kwargs !! "output_path" = None /\
  exists kwargs, build_model E name (zip_path_of outpath name) kwargs = Ok tt.
Proof.
  intros H.
  pose proof (builds_last_export E model outpath test_input input_axes name mode
                prefer_weights min_percentile max_percentile overwrite_spec_kwargs) as Hb.
  pose proof (export_calls_expected E model outpath test_input input_axes name mode
                prefer_weights min_percentile max_percentile overwrite_spec_kwargs) as He.
  unfold all_events in He. rewrite List.Forall_forall in He.
  unfold builds_last in Hb. rewrite H in Hb, He. cbn [fst snd] in Hb, He.
  destruct Hb as [[_ [e [=]]] | (t0 & zp & kw & Ht & _ & Hr)].
  assert (Hin : In (EvBuildModel name zp kw) t)
    by (rewrite Ht; apply in_app_iff; right; now left).
  apply He in Hin as Hexp. cbn in Hexp. destruct Hexp as (_ & -> & Hn & Ho & Hsub).
  eapply (export_build_inv E) in H; [|exact Hin].
  destruct H as (Hcan & Hmod & Hperc & outdir & t_meta & kw0 & t_model & mkw & Hpath & _ &
                 Hmodel & _).
  apply gwmm_Ok_inv in Hmodel as (Hmode & Hmc & w & ? & ? & ? & ? & ? & ? & ? & Hw & _).
  apply weights_name_Ok_inv in Hw as (f & Hf & _).
  split; [exact Hcan|]. split; [exact Hmod|]. split; [now apply percentiles_ok_iff|].
  split; [destruct Hpath as [(? & _) | (? & _)]; auto|].
  split; [exact Hmode|]. split; [exact Hmc|]. split; [now exists f|].
  split; [|split; [|now exists kw]].
  - destruct (overwrite_spec_kwargs !! "name") as [v|] eqn:Hv; [|reflexivity].
    pose proof (lookup_weaken _ _ _ _ Hv Hsub). congruence.
  - destruct (overwrite_spec_kwargs !! "output_path") as [v|] eqn:Hv; [|reflexivity].
    pose proof (lookup_weaken _ _ _ _ Hv Hsub). congruence.
Qed.

(** X12. When [name] holds no slash, the archive path given to
    [build_model] lies directly in the output directory, the directory the
    run created first. *)
Theorem archive_in_output_directory t r nm zp kwargs :
  export_bioimageio E model outpath test_input input_axes name mode prefer_weights
                    min_percentile max_percentile overwrite_spec_kwargs = (t, r) ->
  In (EvBuildModel nm zp kwargs) t ->
  has_char "/" name = false ->
  exists t', t = EvMkdir (PyPath.parent zp) :: t'.
Proof.
  intros H Hin Hname.
  eapply (export_build_inv E) in H; [|exact Hin].
  destruct H as (_ & _ & _ & outdir & t_meta & kw0 & t_model & mkw & Hpath & _ & _ & _ &
                 _ & -> & _).
  destruct (zip_name_plain name Hname) as (H1 & H2 & H3).
  destruct Hpath as [(_ & -> & ->) | (_ & -> & ->)].
  - rewrite (parent_joinpath_plain _ _ H1 H2 H3). eauto.
  - eauto.
Qed.

End ExportRuns2.

(** ** The dictionary of a successful [_get_weights_and_model_metadata] *)

Section MetadataContents.

Context {array : Type}.
Variable E : externals array.

Lemma replace_c_without s :
  PyStr.replace "c" EmptyString s = without_char "c" s.
Proof.
  unfold PyStr.replace.
  induction s as [|d s IH]; [reflexivity|].
  cbn [PyStr.replace_from PyStr.startswith without_char String.length Nat.sub].
  rewrite Ascii.eqb_sym.
  destruct (Ascii.eqb d "c"); cbn [andb]; [exact IH | now rewrite IH].
Qed.

Lemma without_char_has c s : has_char c (without_char c s) = false.
Proof.
  induction s as [|d s IH]; [reflexivity|]. cbn [without_char].
  destruct (Ascii.eqb d c) eqn:Hd; [exact IH|]. cbn [has_char]. now rewrite Hd, IH.
Qed.

Lemma list_times_length {A} (x : A) (n : Z) :
  List.length (list_times [x] n) = Z.to_nat n.
Proof.
  unfold list_times. induction (Z.to_nat n) as [|k IH]; [reflexivity|].
  cbn. now rewrite IH.
Qed.

(** What a successful run leaves in the dictionary, entry by entry. *)
Lemma gwmm_Ok_entries outdir (model : model_t array) test_input input_axes mode prefer
      minp maxp t data :
  _get_weights_and_model_metadata E outdir model test_input input_axes mode prefer
                                  minp maxp = (t, Ok data) ->
  let ones := list_times [VInt 1] (n_dim (config model) + 2 - 1) in
  exists mc in0 div_by xn,
    export_TF model (logdir model // "TF_SavedModel.zip") = Ok mc /\
    input_names mc = [in0] /\
    _axes_div_by model (PyStr.lower (axes (config model))) = Ok div_by /\
    normalize E test_input minp maxp = Ok xn /\
    data !! "preprocessing" =
      Some (VList [VDict (list_to_map
              [ ("scale_range", VDict (list_to_map
                   [ ("mode", VStr "per_sample");
                     ("axes", VStr (PyStr.replace "c" EmptyString
                                      (PyStr.lower (axes (config model)))));
                     ("min_percentile", VFloat minp);
                     ("max_percentile", VFloat maxp) ])) ])]) /\
    data !! "input_name" = Some (VList [VStr in0]) /\
    data !! "output_reference" = Some (VList [VStr in0]) /\
    data !! "output_name" = Some (VList [VStr "output"]) /\
    data !! "input_step" = Some (VList [VList (VInt 0 :: List.map VInt div_by)]) /\
    data !! "input_min_shape" = Some (VList [VList (VInt 1 :: List.map VInt div_by)]) /\
    data !! "output_scale" = Some (VList [VList (ones ++ [VInt 0])%list]) /\
    data !! "output_offset" =
      Some (VList [VList (ones ++ [VInt (1 + n_rays (config model))])%list]) /\
    dom data = list_to_set model_keys.
Proof.
  unfold _get_weights_and_model_metadata. intros H.
  rewrite !lower_idem, sample_axis_to_batch in H.
  inv_bind H as w Hw.
  inv_bind H as [weight_uri mc] Hmode.
  destruct (String.eqb mode "keras_hdf5") eqn:Hk; [discriminate|].
  destruct (String.eqb mode "tensorflow_saved_model_bundle") eqn:Htf; [|discriminate].
  cbv zeta in Hmode.
  inv_bind Hmode as [] Hload.
  apply call_inv in Hload as [-> Hload].
  inv_bind Hmode as mc' Hexp.
  apply call_inv in Hexp as [-> Hexp].
  apply ret_inv in Hmode as [-> [= -> ->]].
  cbv zeta in H.
  inv_bind H as normalized Hnorm.
  apply pure_call_inv in Hnorm as [-> Hnorm].
  rewrite sample_axis_to_batch in H.
  inv_bind H as div_by Hdiv.
  apply pure_call_inv in Hdiv as [-> Hdiv].
  inv_bind H as locals Hloc.
  destruct (_is_multiclass model) eqn:Hmc; [discriminate|].
  apply ret_inv in Hloc as [-> [= ->]].
  cbv beta iota delta [l_input_names l_output_names l_output_n_channels l_output_scale] in H.
  inv_bind H as imp Himp.
  apply import_Ok_inv in Himp as [-> Himp].
  inv_bind H as imp' Hunp.
  apply unpack_Ok_inv in Hunp as [-> Hunp].
  inv_bind H as package_data Hpd.
  apply pure_call_inv in Hpd as [-> Hpd].
  inv_bind H as version Hver.
  apply pure_call_inv in Hver as [-> Hver].
  inv_bind H as inames Hin.
  apply local_Ok_inv in Hin as [-> [= <-]].
  inv_bind H as [] Has.
  apply assert_Ok_inv in Has as [-> Hone].
  inv_bind H as onames Hon.
  apply local_Ok_inv in Hon as [-> [= <-]].
  inv_bind H as onch Hoc.
  apply local_Ok_inv in Hoc as [-> [= <-]].
  inv_bind H as [] Has2.
  apply assert_Ok_inv in Has2 as [-> _].
  inv_bind H as in0 Hin0.
  inv_bind H as oscale Hos.
  apply local_Ok_inv in Hos as [-> [= <-]].
  inv_bind H as x Hx.
  apply pure_call_inv in Hx as [-> Hx].
  inv_bind H as [] Hsave.
  apply call_inv in Hsave as [-> Hsave].
  inv_bind H as xn Hxn.
  apply pure_call_inv in Hxn as [-> Hxn].
  inv_bind H as outs Hpred.
  inv_bind Hpred as xm Hxm.
  apply pure_call_inv in Hxm as [-> Hxm].
  inv_bind Hpred as y Hy.
  apply pure_call_inv in Hpred as [-> Houts].
  unfold _predict_tf in Hy. cbv zeta in Hy.
  inv_bind Hy as [] Hzip.
  apply call_inv in Hzip as [-> Hzip].
  inv_bind H as out_paths Hso.
  apply save_outputs_Ok_inv in Hso as (saved & HF & -> & ->).
  apply ret_inv in H as [-> [= ->]].
  pose proof (weights_name_no_calls E model prefer) as Hnil.
  rewrite Hw in Hnil. cbn in Hnil. subst.
  rewrite parent_joinpath_name in Hzip, Hy.
  destruct (zlen_one _ Hone) as [in0' Hnames]. rewrite Hnames in *.
  apply ret_inv in Hin0 as [-> [= ->]].
  assert (t4 = [EvTFPredict (logdir model // "tf_model") xm] /\
          (if is_tf_1 E then tf1_predict E (logdir model // "tf_model") xm
           else tf2_predict E (logdir model // "tf_model") xm) = Ok y) as [-> Hrun].
  { destruct (is_tf_1 E); now apply call_inv in Hy as [-> ->]. }
  cbv zeta. exists mc', in0', div_by, xn.
  repeat (split; [first [assumption | reflexivity]|]).
  repeat split; vm_compute; reflexivity.
Qed.

Lemma metadata_Ok_dom outdir t kwargs :
  _get_stardist_metadata E outdir = (t, Ok kwargs) ->
  dom kwargs = list_to_set package_keys.
Proof.
  unfold _get_stardist_metadata. intros H.
  inv_bind H as imp Himp. inv_bind H as imp' Hunp.
  inv_bind H as package_data Hpd. inv_bind H as description Hd.
  inv_bind H as author Ha. inv_bind H as authors Hau.
  inv_bind H as git_repo Hg. inv_bind H as license Hl.
  inv_bind H as dependencies Hdep. inv_bind H as documentation Hdoc.
  apply ret_inv in H as [_ [= ->]].
  vm_compute. reflexivity.
Qed.

End MetadataContents.

Section MetadataContentsClaims.

Context {array : Type}.
Variable E : externals array.
Variable model : model_t array.
Variables (outdir : path) (test_input : array).
Variables (input_axes mode prefer_weights : string).
Variables (min_percentile max_percentile : pyfloat).

(** X13. In the dictionary of a successful
    [_get_weights_and_model_metadata], the preprocessing is one per-sample
    [scale_range] whose axes are the lowercased [model.config.axes]
    without the channel axis [c], and whose percentiles are the ones with
    which the test input was normalized before the prediction. *)
Theorem preprocessing_matches_normalization t data :
  _get_weights_and_model_metadata E outdir model test_input input_axes mode
      prefer_weights min_percentile max_percentile = (t, Ok data) ->
  exists a normalized,
    a = without_char "c" (PyStr.lower (axes (config model))) /\
    has_char "c" a = false /\
    data !! "preprocessing" =
      Some (VList [VDict (list_to_map
              [ ("scale_range", VDict (list_to_map
                   [ ("mode", VStr "per_sample");
                     ("axes", VStr a);
                     ("min_percentile", VFloat min_percentile);
                     ("max_percentile", VFloat max_percentile) ])) ])]) /\
    normalize E test_input min_percentile max_percentile = Ok normalized.
Proof.
  intros H. apply gwmm_Ok_entries in H.
  destruct H as (mc & in0 & div_by & xn & _ & _ & _ & Hxn & Hpre & _).
  exists (without_char "c" (PyStr.lower (axes (config model)))), xn.
  split; [reflexivity|]. split; [apply without_char_has|].
  split; [|exact Hxn]. now rewrite <- replace_c_without.
Qed.

(** X14. In the dictionary of a successful
    [_get_weights_and_model_metadata] for a model with [n_dim >= -1], the
    minimal input shape and the input step agree on every axis but the
    batch axis (minimum 1, step 0): both are what [model._axes_div_by]
    returns; and the scale and the offset of the output have one entry per
    axis of the [n_dim + 2]-dimensional tensor, ending with 0 for the scale
    and with [1 + n_rays] for the offset. *)
Theorem tensor_description_shapes t data :
  _get_weights_and_model_metadata E outdir model test_input input_axes mode
      prefer_weights min_percentile max_percentile = (t, Ok data) ->
  -1 <= n_dim (config model) ->
  exists div_by scale offset,
    _axes_div_by model (PyStr.lower (axes (config model))) = Ok div_by /\
    data !! "input_min_shape" = Some (VList [VList (VInt 1 :: List.map VInt div_by)]) /\
    data !! "input_step" = Some (VList [VList (VInt 0 :: List.map VInt div_by)]) /\
    data !! "output_scale" = Some (VList [VList scale]) /\
    data !! "output_offset" = Some (VList [VList offset]) /\
    List.length scale = Z.to_nat (n_dim (config model) + 2) /\
    List.length offset = Z.to_nat (n_dim (config model) + 2) /\
    List.last scale VNone = VInt 0 /\
    List.last offset VNone = VInt (1 + n_rays (config model)).
Proof.
  intros H Hdim. apply gwmm_Ok_entries in H. cbv zeta in H.
  destruct H as (mc & in0 & div_by & xn & _ & _ & Hdiv & _ & _ & _ & _ & _ & Hstep & Hmin &
                 Hscale & Hoff & _).
  eexists div_by, _, _.
  repeat (split; [eassumption|]).
  rewrite !List.length_app, !list_times_length, !List.last_last. cbn [List.length].
  repeat split; lia.
Qed.

Variables (outpath : path) (name : string) (overwrite_spec_kwargs : gmap string pyval).

(** X15. The keyword arguments of a call of [build_model] are exactly the
    nine keys of the package metadata, the sixteen keys of the model
    metadata and the keys of [overwrite_spec_kwargs]. *)
Theorem builder_keyword_arguments t r nm zp kwargs :
  export_bioimageio E model outpath test_input input_axes name mode prefer_weights
                    min_percentile max_percentile overwrite_spec_kwargs = (t, r) ->
  In (EvBuildModel nm zp kwargs) t ->
  dom kwargs =
    list_to_set package_keys ∪ list_to_set model_keys ∪ dom overwrite_spec_kwargs.
Proof.
  intros H Hin.
  eapply (export_build_inv E) in H; [|exact Hin].
  destruct H as (_ & _ & _ & od & t_meta & kw0 & t_model & mkw & _ & Hmeta & Hmodel & _ &
                 -> & _).
  apply metadata_Ok_dom in Hmeta. apply gwmm_Ok_entries in Hmodel.
  destruct Hmodel as (? & ? & ? & ? & _ & _ & _ & _ & _ & _ & _ & _ & _ & _ & _ & _ & Hdom).
  unfold dict_update. rewrite !dom_union_L, Hmeta, Hdom.
  rewrite (comm_L (∪) (dom overwrite_spec_kwargs)). f_equal; apply (comm_L (∪)).
Qed.

End MetadataContentsClaims.

(** ** No step is skipped on the way to the packager *)

Section EveryStep.

Context {array : Type}.
Variable E : externals array.

(** The reads behind a successful [_get_stardist_metadata]. *)
Lemma metadata_Ok_steps outdir t kwargs :
  _get_stardist_metadata E outdir = (t, Ok kwargs) ->
  exists package_data author requires,
    pkg_metadata E "stardist" = Ok package_data /\
    (exists v, package_data "Summary" = Ok v) /\
    package_data "Author" = Ok (Some author) /\
    (exists v, package_data "Home-Page" = Ok v) /\
    (exists v, package_data "License" = Ok v) /\
    pkg_requires E "stardist" = Ok requires.
Proof.
  unfold _get_stardist_metadata. intros H.
  inv_bind H as imp Himp. inv_bind H as imp' Hunp.
  inv_bind H as package_data Hpd. apply pure_call_inv in Hpd as [_ Hpd].
  inv_bind H as description Hd. apply pure_call_inv in Hd as [_ Hd].
  inv_bind H as author Ha. apply pure_call_inv in Ha as [_ Ha].
  inv_bind H as authors Hau.
  destruct author as [a|]; [|discriminate].
  inv_bind H as git_repo Hg. apply pure_call_inv in Hg as [_ Hg].
  inv_bind H as license Hl. apply pure_call_inv in Hl as [_ Hl].
  inv_bind H as dependencies Hdep.
  unfold _create_stardist_dependencies in Hdep. cbv zeta in Hdep.
  inv_bind Hdep as requires Hreq. apply pure_call_inv in Hreq as [_ Hreq].
  exists package_data, a, requires. eauto 10.
Qed.

(** The unrecorded steps behind a successful
    [_get_weights_and_model_metadata], besides those of [gwmm_Ok_inv]. *)
Lemma gwmm_Ok_steps outdir (model : model_t array) test_input input_axes mode prefer
      minp maxp t data :
  _get_weights_and_model_metadata E outdir model test_input input_axes mode prefer
                                  minp maxp = (t, Ok data) ->
  exists mc in0 div_by package_data version,
    export_TF model (logdir model // "TF_SavedModel.zip") = Ok mc /\
    input_names mc = [in0] /\
    _axes_div_by model (PyStr.lower (axes (config model))) = Ok div_by /\
    can_import E = true /\
    pkg_metadata E "stardist" = Ok package_data /\
    package_data "Version" = Ok version.
Proof.
  unfold _get_weights_and_model_metadata. intros H.
  rewrite !lower_idem, sample_axis_to_batch in H.
  inv_bind H as w Hw.
  inv_bind H as [weight_uri mc] Hmode.
  destruct (String.eqb mode "keras_hdf5") eqn:Hk; [discriminate|].
  destruct (String.eqb mode "tensorflow_saved_model_bundle") eqn:Htf; [|discriminate].
  cbv zeta in Hmode.
  inv_bind Hmode as [] Hload.
  apply call_inv in Hload as [-> Hload].
  inv_bind Hmode as mc' Hexp.
  apply call_inv in Hexp as [-> Hexp].
  apply ret_inv in Hmode as [-> [= -> ->]].
  cbv zeta in H.
  inv_bind H as normalized Hnorm.
  apply pure_call_inv in Hnorm as [-> Hnorm].
  rewrite sample_axis_to_batch in H.
  inv_bind H as div_by Hdiv.
  apply pure_call_inv in Hdiv as [-> Hdiv].
  inv_bind H as locals Hloc.
  destruct (_is_multiclass model) eqn:Hmc; [discriminate|].
  apply ret_inv in Hloc as [-> [= ->]].
  cbv beta iota delta [l_input_names l_output_names l_output_n_channels l_output_scale] in H.
  inv_bind H as imp Himp.
  apply import_Ok_inv in Himp as [-> Himp].
  inv_bind H as imp' Hunp.
  apply unpack_Ok_inv in Hunp as [-> Hunp].
  inv_bind H as package_data Hpd.
  apply pure_call_inv in Hpd as [-> Hpd].
  inv_bind H as version Hver.
  apply pure_call_inv in Hver as [-> Hver].
  inv_bind H as inames Hin.
  apply local_Ok_inv in Hin as [-> [= <-]].
  inv_bind H as [] Has.
  apply assert_Ok_inv in Has as [-> Hone].
  inv_bind H as onames Hon.
  apply local_Ok_inv in Hon as [-> [= <-]].
  inv_bind H as onch Hoc.
  apply local_Ok_inv in Hoc as [-> [= <-]].
  inv_bind H as [] Has2.
  apply assert_Ok_inv in Has2 as [-> _].
  inv_bind H as in0 Hin0.
  inv_bind H as oscale Hos.
  apply local_Ok_inv in Hos as [-> [= <-]].
  inv_bind H as x Hx.
  apply pure_call_inv in Hx as [-> Hx].
  inv_bind H as [] Hsave.
  apply call_inv in Hsave as [-> Hsave].
  inv_bind H as xn Hxn.
  apply pure_call_inv in Hxn as [-> Hxn].
  inv_bind H as outs Hpred.
  inv_bind Hpred as xm Hxm.
  apply pure_call_inv in Hxm as [-> Hxm].
  inv_bind Hpred as y Hy.
  apply pure_call_inv in Hpred as [-> Houts].
  unfold _predict_tf in Hy. cbv zeta in Hy.
  inv_bind Hy as [] Hzip.
  apply call_inv in Hzip as [-> Hzip].
  inv_bind H as out_paths Hso.
  apply save_outputs_Ok_inv in Hso as (saved & HF & -> & ->).
  apply ret_inv in H as [-> [= ->]].
  pose proof (weights_name_no_calls E model prefer) as Hnil.
  rewrite Hw in Hnil. cbn in Hnil. subst.
  rewrite parent_joinpath_name in Hzip, Hy.
  destruct (zlen_one _ Hone) as [in0' Hnames]. rewrite Hnames in *.
  apply ret_inv in Hin0 as [-> [= ->]].
  assert (t4 = [EvTFPredict (logdir model // "tf_model") xm] /\
          (if is_tf_1 E then tf1_predict E (logdir model // "tf_model") xm
           else tf2_predict E (logdir model // "tf_model") xm) = Ok y) as [-> Hrun].
  { destruct (is_tf_1 E); now apply call_inv in Hy as [-> ->]. }
  exists mc', in0', div_by, package_data, version.
  repeat (split; [assumption|]).
  split; [|split; assumption].
  destruct Himp as [[Hc _] | (_ & [=] & _)]. exact Hc.
Qed.

Variable model : model_t array.
Variables (outpath : path) (test_input : array).
Variables (input_axes name mode prefer_weights : string).
Variables (min_percentile max_percentile : pyfloat).
Variable overwrite_spec_kwargs : gmap string pyval.

(** A successful export had [model.export_TF] write the weights bundle
    into the model's log directory. *)
Lemma export_Ok_writes_bundle t :
  export_bioimageio E model outpath test_input input_axes name mode prefer_weights
                    min_percentile max_percentile overwrite_spec_kwargs
    = (t, Ok tt) ->
  In (logdir model // "TF_SavedModel.zip") (written_paths t).
Proof.
  intros H.
  pose proof (builds_last_export E model outpath test_input input_axes name mode
                prefer_weights min_percentile max_percentile overwrite_spec_kwargs) as Hb.
  unfold builds_last in Hb. rewrite H in Hb. cbn [fst snd] in Hb.
  destruct Hb as [[_ [e [=]]] | (t0 & zp & kw & Ht & _ & _)].
  assert (Hin : In (EvBuildModel name zp kw) t)
    by (rewrite Ht; apply in_app_iff; right; now left).
  eapply (export_build_inv E) in H; [|exact Hin].
  destruct H as (_ & _ & _ & outdir & t_meta & kw0 & t_model & mkw & _ & _ &
                 Hmodel & _ & _ & Htrace & _).
  apply gwmm_Ok_inv in Hmodel as (_ & _ & Hm).
  destruct Hm as (w & nrm & x & xn & xm & y & outs & saved & _ & _ & _ & _ & _ & _ &
                  _ & _ & -> & _).
  apply list_elem_of_In, list_elem_of_omap.
  exists (EvExportTF (logdir model // "TF_SavedModel.zip")). split; [|reflexivity].
  apply list_elem_of_In. rewrite Htrace. right.
  apply in_app_iff. right. apply in_app_iff. left.
  apply in_app_iff. left. right. now left.
Qed.

(** Decimal numerals hold no slash, and neither do the names of the saved
    outputs. *)
Lemma of_uint_no_slash d : has_char "/" (NilEmpty.string_of_uint d) = false.
Proof. induction d; cbn; auto. Qed.

Lemma test_output_name_plain i :
  PyPath.components (test_output_name i) = [test_output_name i].
Proof.
  apply components_plain.
  - unfold test_output_name. rewrite !has_char_app. unfold PyStr.of_nat.
    now rewrite of_uint_no_slash.
  - unfold test_output_name. discriminate.
  - unfold test_output_name. discriminate.
Qed.

(** C8. A run of [export_bioimageio] stops at its first failure and
    nothing recovers from one. Along its trace every call to the outside
    succeeded, except possibly the last one, whose exception is then the
    outcome of the export. [build_model] is either not called at all, the
    export ending with an exception, or it is the very last call, made
    once, and its outcome is the outcome of the export. And [build_model]
    is called only if every step before it that leaves no call returned:
    the imports, the model, percentile and suffix checks, the reads of
    the package metadata, the lookup of the weight file, the mode and
    multiclass checks, the assertion on the input names, and the library
    computations on axes and arrays; with an exception in any of them
    [build_model] is not called. *)
Theorem export_aborts_at_first_failure (t : list (event array)) (r : result unit) :
  export_bioimageio E model outpath test_input input_axes name mode prefer_weights
                    min_percentile max_percentile overwrite_spec_kwargs
    = (t, r) ->
  stops_at_failure E model t r /\
  (no_build t /\ (exists e, r = Raise e) \/
   exists t0 zip_path kwargs,
     t = (t0 ++ [EvBuildModel name zip_path kwargs])%list /\
     no_build t0 /\
     r = build_model E name zip_path kwargs) /\
  (forall nm zp kwargs,
      In (EvBuildModel nm zp kwargs) t ->
      (* the imports and the checks of export_bioimageio *)
      can_import E = true /\
      snd (import_models E model) = Ok tt /\
      is_stardist model = true /\
      within_percentile_bounds min_percentile max_percentile /\
      (PyPath.suffix outpath = EmptyString \/ PyPath.suffix outpath = ".zip") /\
      (* the reads of the package metadata *)
      (exists package_data author requires version,
          pkg_metadata E "stardist" = Ok package_data /\
          (exists v, package_data "Summary" = Ok v) /\
          package_data "Author" = Ok (Some author) /\
          (exists v, package_data "Home-Page" = Ok v) /\
          (exists v, package_data "License" = Ok v) /\
          package_data "Version" = Ok version /\
          pkg_requires E "stardist" = Ok requires) /\
      (* the weight file, the mode, the exported model *)
      (exists w, _get_weights_name E model prefer_weights = ([], Ok w)) /\
      mode = "tensorflow_saved_model_bundle" /\
      _is_multiclass model = false /\
      (exists mc in0,
          export_TF model (logdir model // "TF_SavedModel.zip") = Ok mc /\
          input_names mc = [in0]) /\
      (* the library computations on axes and arrays *)
      (exists normalized div_by raw xn moved prediction outs saved,
          axes_check_and_normalize E (_axes_out model) = Ok normalized /\
          _axes_div_by model (PyStr.lower (axes (config model))) = Ok div_by /\
          move_image_axes E test_input (PyStr.upper input_axes)
                          ("S" +:+ PyStr.lower (axes (config model))) = Ok raw /\
          normalize E test_input min_percentile max_percentile = Ok xn /\
          move_image_axes E xn (PyStr.upper input_axes)
                          ("S" +:+ PyStr.lower (axes (config model))) = Ok moved /\
          (if is_tf_1 E then tf1_predict E (logdir model // "tf_model") moved
           else tf2_predict E (logdir model // "tf_model") moved) = Ok prediction /\
          np_iter E prediction = Ok outs /\
          Forall2 (fun out s =>
                     move_image_axes E out (PyStr.lower normalized)
                                     ("b" +:+ PyStr.lower normalized) = Ok s)
                  outs saved) /\
      (* the keywords of the call *)
      overwrite_spec_kwargs !! "name" = None /\
      overwrite_spec_kwargs !! "output_path" = None).
Proof.
  intros H.
  pose proof (stops_export E model outpath test_input input_axes name mode
                           prefer_weights min_percentile max_percentile
                           overwrite_spec_kwargs) as Hs.
  pose proof (builds_last_export E model outpath test_input input_axes name mode
                                 prefer_weights min_percentile max_percentile
                                 overwrite_spec_kwargs) as Hb.
  pose proof (export_calls_expected E model outpath test_input input_axes name mode
                prefer_weights min_percentile max_percentile overwrite_spec_kwargs) as He.
  unfold all_events in He. rewrite List.Forall_forall in He.
  unfold builds_last in Hb. rewrite H in Hs, Hb, He. cbn [fst snd] in Hs, Hb, He.
  split; [now destruct r as [[]|]|]. split; [exact Hb|].
  intros nm zp kw Hin.
  apply He in Hin as Hexp. cbn in Hexp. destruct Hexp as (_ & _ & Hn & Ho & Hsub).
  eapply (export_build_inv E) in H; [|exact Hin].
  destruct H as (Hcan & Hmod & Hperc & outdir & t_meta & kw0 & t_model & mkw & Hpath &
                 Hmeta & Hmodel & _).
  apply metadata_Ok_steps in Hmeta as (pd & author & requires & Hpd & Hsum & Hau & Hhp &
                                       Hli & Hreq).
  pose proof Hmodel as Hsteps.
  apply gwmm_Ok_steps in Hsteps as (mc & in0 & div_by & pd' & version & Hexp & Hnames &
                                    Hdiv & _ & Hpd' & Hver).
  rewrite Hpd in Hpd'. injection Hpd' as <-.
  apply gwmm_Ok_inv in Hmodel as (Hmode & Hmc & Hm).
  destruct Hm as (w & nrm & x & xn & xm & y & outs & saved & Hw & Hnrm & Hx & Hxn & Hxm &
                  Hy & Houts & HF & _).
  split; [exact Hcan|].
  split; [unfold import_models; now rewrite Hmod|].
  split; [exact Hmod|]. split; [now apply percentiles_ok_iff|].
  split; [destruct Hpath as [(? & _) | (? & _)]; auto|].
  split; [exists pd, author, requires, version; auto 10|].
  split; [now exists w|]. split; [exact Hmode|]. split; [exact Hmc|].
  split; [now exists mc, in0|].
  split; [exists nrm, div_by, x, xn, xm, y, outs, saved; auto 10|].
  split.
  - destruct (overwrite_spec_kwargs !! "name") as [v|] eqn:Hv; [|reflexivity].
    pose proof (lookup_weaken _ _ _ _ Hv Hsub). congruence.
  - destruct (overwrite_spec_kwargs !! "output_path") as [v|] eqn:Hv; [|reflexivity].
    pose proof (lookup_weaken _ _ _ _ Hv Hsub). congruence.
Qed.

End EveryStep.

(** ** The statements on the sample runs *)

Section SampleRuns.

Import Sample Sample2 Runs.

Example lower_YXC : PyStr.lower "YXC" = "yxc".
Proof. reflexivity. Qed.

Example replace_S_B : PyStr.replace "S" "B" "Syxc" = "Byxc".
Proof. reflexivity. Qed.

Example replace_drop_c : PyStr.replace "c" EmptyString "yxc" = "yx".
Proof. reflexivity. Qed.

Example replace_long : PyStr.replace "ab" "X" "cababab_a" = "cXXX_a".
Proof. reflexivity. Qed.

Example split_authors : PyStr.split_char "," "Uwe, Martin" = ["Uwe"; " Martin"].
Proof. reflexivity. Qed.

Example strip_name : PyStr.strip " Martin  " = "Martin".
Proof. reflexivity. Qed.

Example fnmatch_h5 : PyStr.fnmatch "*.h5" "weights_best.h5" = true.
Proof. reflexivity. Qed.

Example fnmatch_h5_no : PyStr.fnmatch "*.h5" "weights_best.hdf5" = false.
Proof. reflexivity. Qed.

Example contains_best : PyStr.contains "best" "weights_best.h5" = true.
Proof. reflexivity. Qed.

Example of_nat_12 : PyStr.of_nat 12 = "12".
Proof. reflexivity. Qed.

Example float_nan_never_ok : percentiles_ok NaN (Finite 50) = false.
Proof. reflexivity. Qed.

Example suffixes :
List.map (fun s => PyPath.suffix (PyPath.of_string s))
         ["a/b.tar.gz"; "a/.bashrc"; "a/b."; "a/b.zip"; "."; "out"]
= [".gz"; EmptyString; EmptyString; ".zip"; EmptyString; EmptyString].
Proof. reflexivity. Qed.

Example weights_best : _get_weights_name env0 model0 "best" = ([], Ok "weights_best.h5").
Proof. reflexivity. Qed.

Example weights_newest : _get_weights_name env0 model0 "nope" = ([], Ok "weights_last.h5").
Proof. reflexivity. Qed.

Example run0_written :
written_paths (fst run0) =
List.map PyPath.of_string
  [ "export/out/requirements.txt"; "export/out/README.md";
    "models/stardist/TF_SavedModel.zip"; "export/out/test_input.npy";
    "models/stardist/tf_model"; "export/out/test_output0.npy" ].
Proof. vm_compute. reflexivity. Qed.

Lemma succeeded_eq {A} (d : A) (m : M nat A) :
succeeded m = true -> m = (fst m, Ok (value_or d m)).
Proof.
unfold succeeded, value_or. destruct m as [t [a|e]]; [reflexivity | discriminate].
Qed.

Lemma succeeded_unit (m : M nat unit) : succeeded m = true -> m = (fst m, Ok tt).
Proof.
unfold succeeded. destruct m as [t [[]|e]]; [reflexivity | discriminate].
Qed.

Lemma last_In {A} (l : list A) (d : A) : l <> [] -> In (List.last l d) l.
Proof.
induction l as [|x [|y l] IH]; intros H; [congruence | now left |].
right. apply IH. discriminate.
Qed.

Lemma run0_last :
List.last (fst run0) (EvMkdir outpath0) =
EvBuildModel default_name (outpath0 // "bioimageio_model.zip") (last_kwargs (fst run0)).
Proof. vm_compute. reflexivity. Qed.

Lemma in_bounds_defaults :
within_percentile_bounds default_min_percentile default_max_percentile.
Proof.
exists 1%Q, (998 # 10)%Q. repeat split; unfold Qle, Qlt; simpl; lia.
Qed.

Lemma model0_has_weights : exists f, is_weight_file env0 model0 f.
Proof.
exists (mkDirent "weights_best.h5" 20). split; [|left; reflexivity].
cbn. right. right. left. reflexivity.
Qed.

(** *** C1 *)

Lemma percentile_100_is_accepted :
spec_percentile_invariant (Finite 1) (Finite 100) = false /\
snd (export0 env0 model0 outpath0 (Finite 1) (Finite 100)) = Ok tt /\
fst (export0 env0 model0 outpath0 (Finite 1) (Finite 100)) <> [].
Proof. repeat split; vm_compute; discriminate || reflexivity. Qed.

Lemma invalid_percentiles_raise_witness :
can_import env0 = true /\ is_stardist model0 = true /\
~ within_percentile_bounds (Finite 5) (Finite 2) /\
export0 env0 model0 outpath0 (Finite 5) (Finite 2) =
  ([], Raise (ValueError "invalid percentile values")).
Proof.
assert (Hout : ~ within_percentile_bounds (Finite 5) (Finite 2)).
{ intros (a & b & [= <-] & [= <-] & _ & H & _). vm_compute in H. discriminate. }
split; [reflexivity|]. split; [reflexivity|]. split; [exact Hout|].
apply (invalid_percentiles_raise env0 model0); [reflexivity | reflexivity | exact Hout].
Defined.

(** *** C2 *)

Lemma get_weights_name_newest_preferred_witness :
exists f,
  _get_weights_name env0 model0 "best" = ([], Ok (d_name f)) /\
  is_weight_file env0 model0 f /\
  (forall g, is_weight_file env0 model0 g -> PyStr.contains "best" (d_name g) = true ->
     PyStr.contains "best" (d_name f) = true /\ (d_mtime g <= d_mtime f)%Q) /\
  ((forall g, is_weight_file env0 model0 g -> PyStr.contains "best" (d_name g) = false) ->
     forall g, is_weight_file env0 model0 g -> (d_mtime g <= d_mtime f)%Q).
Proof.
apply (get_weights_name_newest_preferred env0 model0 "best").
exists (mkDirent "weights_best.h5" 20). split; [|left; reflexivity].
cbn. right. right. left. reflexivity.
Defined.

(** *** C3 *)

Lemma no_weights_export_fails_witness :
(forall prefer, _get_weights_name env0 model_empty prefer = ([], Raise no_weights_error)) /\
(forall outpath test_input input_axes name mode prefer minp maxp overwrite,
    raises (export_bioimageio env0 model_empty outpath test_input input_axes name mode
                              prefer minp maxp overwrite)).
Proof.
apply (no_weights_export_fails env0 model_empty).
intros f [Hin _]. vm_compute in Hin. exact Hin.
Defined.

(** *** C4 *)

Lemma keras_without_weights_is_value_error :
snd (_get_weights_and_model_metadata env0 outpath0 model_empty 7%nat "YXC" "keras_hdf5"
       default_prefer_weights default_min_percentile default_max_percentile)
  = Raise no_weights_error /\
forall msg,
  snd (_get_weights_and_model_metadata env0 outpath0 model_empty 7%nat "YXC" "keras_hdf5"
         default_prefer_weights default_min_percentile default_max_percentile)
    <> Raise (NotImplementedError msg).
Proof. split; [reflexivity | intros msg; vm_compute; discriminate]. Qed.

Lemma weights_and_model_metadata_errors_witness :
snd (_get_weights_and_model_metadata env0 outpath0 model0 7%nat "YXC" "keras_hdf5"
       default_prefer_weights default_min_percentile default_max_percentile)
  = Raise (NotImplementedError "Export to keras format is not supported yet") /\
snd (_get_weights_and_model_metadata env0 outpath0 model0 7%nat "YXC" "onnx"
       default_prefer_weights default_min_percentile default_max_percentile)
  = Raise (ValueError "Unsupported mode: onnx") /\
snd (_get_weights_and_model_metadata env0 outpath0 model_multiclass 7%nat "YXC"
       "tensorflow_saved_model_bundle"
       default_prefer_weights default_min_percentile default_max_percentile)
  = Raise (NotImplementedError
             "Tensorflow SavedModel not supported for multiclass models yet").
Proof.
split; [|split].
- apply (weights_and_model_metadata_errors env0 model0 outpath0 7%nat "YXC" "keras_hdf5"
           default_prefer_weights default_min_percentile default_max_percentile);
    [exact model0_has_weights | reflexivity].
- apply (weights_and_model_metadata_errors env0 model0 outpath0 7%nat "YXC" "onnx"
           default_prefer_weights default_min_percentile default_max_percentile);
    [exact model0_has_weights | discriminate | discriminate].
- apply (weights_and_model_metadata_errors env0 model_multiclass outpath0 7%nat "YXC"
           "tensorflow_saved_model_bundle"
           default_prefer_weights default_min_percentile default_max_percentile).
  + exact model0_has_weights.
  + reflexivity.
  + reflexivity.
  + intros w _. reflexivity.
  + eexists. reflexivity.
  + eexists. reflexivity.
  + eexists. reflexivity.
Defined.

(** *** C5 *)

Lemma zip_not_in_output_directory :
(snd run_empty_batch = Ok tt /\
 ~ In (outpath0 // "TF_SavedModel.zip") (written_paths (fst run_empty_batch)) /\
 In (logdir0 // "TF_SavedModel.zip") (written_paths (fst run_empty_batch))) /\
(forall (E : externals nat) (model : model_t nat) test_input input_axes name mode
        prefer_weights min_percentile max_percentile overwrite_spec_kwargs t,
    logdir model = logdir0 ->
    export_bioimageio E model outpath0 test_input input_axes name mode prefer_weights
                      min_percentile max_percentile overwrite_spec_kwargs
      = (t, Ok tt) ->
    ~ In (outpath0 // "TF_SavedModel.zip") (written_paths t) /\
    In (logdir0 // "TF_SavedModel.zip") (written_paths t)).
Proof.
split.
- split; [reflexivity|]. split.
  + vm_compute. intuition discriminate.
  + vm_compute. auto 10.
- intros E model test_input input_axes name mode prefer minp maxp overwrite t Hlog H.
  split.
  + intros Hin.
    pose proof (export_calls_expected E model outpath0 test_input input_axes name mode
                  prefer minp maxp overwrite) as He.
    unfold all_events in He. rewrite List.Forall_forall, H in He. cbn [fst] in He.
    unfold written_paths in Hin.
    apply list_elem_of_In, list_elem_of_omap in Hin as (ev & Hev & Hw).
    apply list_elem_of_In, He in Hev.
    destruct ev; cbn in Hw, Hev; try discriminate; injection Hw as Hw;
      rewrite ?Hlog in Hev.
    * destruct Hev as [-> | ->]; vm_compute in Hw; discriminate.
    * destruct Hev as [-> | [i ->]]; [vm_compute in Hw; discriminate|].
      change (outdir_of outpath0) with outpath0 in Hw.
      unfold PyPath.joinpath in Hw at 1.
      rewrite test_output_name_plain in Hw.
      assert (Hs : PyStr.startswith "/" (test_output_name i) = false) by reflexivity.
      rewrite Hs in Hw. vm_compute in Hw. discriminate.
    * subst. vm_compute in Hw. discriminate.
    * destruct Hev as [_ ->]. vm_compute in Hw. discriminate.
  + rewrite <- Hlog. eapply export_Ok_writes_bundle. exact H.
Qed.

Example one_image_cannot_be_saved :
snd run_one_image = Raise (ValueError "invalid axis") /\
no_build (fst run_one_image).
Proof.
split; [reflexivity|]. intros ev Hin. vm_compute in Hin.
repeat (destruct Hin as [<- | Hin]; [reflexivity|]). destruct Hin.
Qed.

Lemma export_files_written_witness :
exists outdir zip_path requires w raw moved prediction outs normalized saved kwargs,
  (PyPath.suffix outpath0 = EmptyString /\ outdir = outpath0 /\
   zip_path = outpath0 // (default_name +:+ ".zip") \/
   PyPath.suffix outpath0 = ".zip" /\ outdir = PyPath.parent outpath0 /\
   zip_path = outpath0) /\
  (if is_tf_1 env_csbdeep then tf1_predict env_csbdeep (logdir model0 // "tf_model") moved
   else tf2_predict env_csbdeep (logdir model0 // "tf_model") moved) = Ok prediction /\
  np_iter env_csbdeep prediction = Ok outs /\
  axes_check_and_normalize env_csbdeep (_axes_out model0) = Ok normalized /\
  Forall2 (fun out s =>
             move_image_axes env_csbdeep out (PyStr.lower normalized)
                             ("b" +:+ PyStr.lower normalized) = Ok s)
          outs saved /\
  fst run_empty_batch =
    ([EvMkdir outdir;
      EvWriteText (outdir // "requirements.txt")
                  (PyStr.join PyStr.newline ("tensorflow" :: requires));
      EvWriteText (outdir // "README.md") doc_text;
      EvLoadWeights w;
      EvExportTF (logdir model0 // "TF_SavedModel.zip");
      EvNpSave (outdir // "test_input.npy") raw;
      EvExtractAll (logdir model0 // "TF_SavedModel.zip") (logdir model0 // "tf_model");
      EvTFPredict (logdir model0 // "tf_model") moved] ++
     imap (fun i s => EvNpSave (outdir // test_output_name i) s) saved ++
     [EvBuildModel default_name zip_path kwargs])%list /\
  ((∅ : gmap string pyval) !! "dependencies" = None ->
   kwargs !! "dependencies" =
     Some (VStr ("pip:" +:+ PyPath.to_string (outdir // "requirements.txt")))) /\
  ((∅ : gmap string pyval) !! "documentation" = None ->
   kwargs !! "documentation" = Some (VPath (outdir // "README.md"))) /\
  ((∅ : gmap string pyval) !! "test_inputs" = None ->
   kwargs !! "test_inputs" = Some (VList [VPath (outdir // "test_input.npy")])) /\
  ((∅ : gmap string pyval) !! "test_outputs" = None ->
   kwargs !! "test_outputs" =
     Some (VList (List.map VPath
                    (imap (fun i (_ : nat) => outdir // test_output_name i) saved)))) /\
  ((∅ : gmap string pyval) !! "weight_uri" = None ->
   kwargs !! "weight_uri" = Some (VPath (logdir model0 // "TF_SavedModel.zip"))).
Proof.
apply (export_files_written env_csbdeep model0 0%nat "SYXC" default_mode
         default_prefer_weights default_min_percentile default_max_percentile outpath0
         default_name ∅ (fst run_empty_batch)).
apply (succeeded_unit run_empty_batch). vm_compute. reflexivity.
Defined.

(** *** C6 *)

Lemma axes_strings_for_builder_witness :
(exists normalized,
    axes_check_and_normalize env0 (_axes_out model0) = Ok normalized /\
    meta0_data !! "input_axes" =
      Some (VList [VStr ("b" +:+ PyStr.lower (axes (config model0)))]) /\
    meta0_data !! "output_axes" = Some (VList [VStr ("b" +:+ PyStr.lower normalized)])) /\
(exists normalized,
    axes_check_and_normalize env0 (_axes_out model0) = Ok normalized /\
    ((∅ : gmap string pyval) !! "input_axes" = None ->
     last_kwargs (fst run0) !! "input_axes" =
       Some (VList [VStr ("b" +:+ PyStr.lower (axes (config model0)))])) /\
    ((∅ : gmap string pyval) !! "output_axes" = None ->
     last_kwargs (fst run0) !! "output_axes" =
       Some (VList [VStr ("b" +:+ PyStr.lower normalized)]))).
Proof.
destruct (axes_strings_for_builder env0 model0 7%nat "YXC" default_mode
            default_prefer_weights default_min_percentile default_max_percentile)
  as [HA HB].
split.
- apply (HA outpath0 (fst meta0) meta0_data).
  apply (succeeded_eq ∅ meta0). vm_compute. reflexivity.
- apply (HB outpath0 default_name ∅ (fst run0) (snd run0) default_name
            (outpath0 // "bioimageio_model.zip") (last_kwargs (fst run0))).
  + apply surjective_pairing.
  + rewrite <- run0_last. apply last_In. vm_compute. discriminate.
Defined.

(** *** C7 *)

Lemma missing_libraries_come_first :
is_stardist not_a_model = false /\
export0 env_no_libs not_a_model outpath0 default_min_percentile default_max_percentile
  = ([], Raise (RuntimeError import_error_msg)).
Proof. split; reflexivity. Qed.

Example missing_tensorflow_comes_first :
can_import env_no_tf = true /\ is_stardist not_a_model = false /\
export0 env_no_tf not_a_model outpath0 default_min_percentile default_max_percentile
  = ([], Raise (RuntimeError "Please install TensorFlow")).
Proof. repeat split. Qed.

Lemma invalid_model_raises_witness :
can_import env0 = true /\ models_import env0 = Ok tt /\ is_stardist not_a_model = false /\
export0 env0 not_a_model outpath0 default_min_percentile default_max_percentile
  = ([], Raise (ValueError "not a valid model")).
Proof.
split; [reflexivity|]. split; [reflexivity|]. split; [reflexivity|].
apply (invalid_model_raises env0 not_a_model); reflexivity.
Defined.

(** *** C8 *)

Lemma export_aborts_at_first_failure_witness :
stops_at_failure env_csbdeep model0 (fst run_empty_batch) (snd run_empty_batch) /\
(no_build (fst run_empty_batch) /\ (exists e, snd run_empty_batch = Raise e) \/
 exists t0 zip_path kwargs,
   fst run_empty_batch = (t0 ++ [EvBuildModel default_name zip_path kwargs])%list /\
   no_build t0 /\
   snd run_empty_batch = build_model env_csbdeep default_name zip_path kwargs) /\
(forall nm zp kwargs,
    In (EvBuildModel nm zp kwargs) (fst run_empty_batch) ->
    can_import env_csbdeep = true /\
    snd (import_models env_csbdeep model0) = Ok tt /\
    is_stardist model0 = true /\
    within_percentile_bounds default_min_percentile default_max_percentile /\
    (PyPath.suffix outpath0 = EmptyString \/ PyPath.suffix outpath0 = ".zip") /\
    (exists package_data author requires version,
        pkg_metadata env_csbdeep "stardist" = Ok package_data /\
        (exists v, package_data "Summary" = Ok v) /\
        package_data "Author" = Ok (Some author) /\
        (exists v, package_data "Home-Page" = Ok v) /\
        (exists v, package_data "License" = Ok v) /\
        package_data "Version" = Ok version /\
        pkg_requires env_csbdeep "stardist" = Ok requires) /\
    (exists w, _get_weights_name env_csbdeep model0 default_prefer_weights = ([], Ok w)) /\
    default_mode = "tensorflow_saved_model_bundle" /\
    _is_multiclass model0 = false /\
    (exists mc in0,
        export_TF model0 (logdir model0 // "TF_SavedModel.zip") = Ok mc /\
        input_names mc = [in0]) /\
    (exists normalized div_by raw xn moved prediction outs saved,
        axes_check_and_normalize env_csbdeep (_axes_out model0) = Ok normalized /\
        _axes_div_by model0 (PyStr.lower (axes (config model0))) = Ok div_by /\
        move_image_axes env_csbdeep 0%nat (PyStr.upper "SYXC")
                        ("S" +:+ PyStr.lower (axes (config model0))) = Ok raw /\
        normalize env_csbdeep 0%nat default_min_percentile default_max_percentile = Ok xn /\
        move_image_axes env_csbdeep xn (PyStr.upper "SYXC")
                        ("S" +:+ PyStr.lower (axes (config model0))) = Ok moved /\
        (if is_tf_1 env_csbdeep then tf1_predict env_csbdeep (logdir model0 // "tf_model") moved
         else tf2_predict env_csbdeep (logdir model0 // "tf_model") moved) = Ok prediction /\
        np_iter env_csbdeep prediction = Ok outs /\
        Forall2 (fun out s =>
                   move_image_axes env_csbdeep out (PyStr.lower normalized)
                                   ("b" +:+ PyStr.lower normalized) = Ok s)
                outs saved) /\
    (∅ : gmap string pyval) !! "name" = None /\
    (∅ : gmap string pyval) !! "output_path" = None).
Proof.
apply (export_aborts_at_first_failure env_csbdeep model0 outpath0 0%nat "SYXC" default_name
         default_mode default_prefer_weights default_min_percentile
         default_max_percentile ∅).
apply surjective_pairing.
Defined.

(** *** C9 *)

Lemma other_suffix_without_libraries :
PyPath.suffix (PyPath.of_string "export/out.tar") = ".tar" /\
export0 env_no_libs model0 (PyPath.of_string "export/out.tar")
        default_min_percentile default_max_percentile
  = ([], Raise (RuntimeError import_error_msg)).
Proof. split; reflexivity. Qed.

Lemma outpath_resolution_witness :
(exists t', fst run0 = EvMkdir outpath0 :: t') /\
(fst (export0 env0 model0 (PyPath.of_string "export/out.tar")
              default_min_percentile default_max_percentile) = [] /\
 exists msg,
   snd (export0 env0 model0 (PyPath.of_string "export/out.tar")
                default_min_percentile default_max_percentile)
     = Raise (ValueError msg)).
Proof.
split.
- apply (outpath_resolution env0 model0 7%nat "YXC" default_mode default_prefer_weights
           default_min_percentile default_max_percentile outpath0 default_name ∅
           (fst run0) (snd run0));
    [apply surjective_pairing | reflexivity | reflexivity | reflexivity
    | exact in_bounds_defaults].
- apply (outpath_resolution env0 model0 7%nat "YXC" default_mode default_prefer_weights
           default_min_percentile default_max_percentile
           (PyPath.of_string "export/out.tar") default_name ∅
           (fst _) (snd _));
    [apply surjective_pairing | discriminate | discriminate | reflexivity
    | left; reflexivity].
Defined.

(** *** C10 *)

Lemma test_outputs_from_normalized_input_witness :
exists raw normalized moved prediction outs saved out_axes,
  move_image_axes env0 7%nat (PyStr.upper "YXC") ("S" +:+ PyStr.lower (axes (config model0)))
    = Ok raw /\
  In (EvNpSave (outpath0 // "test_input.npy") raw) (fst meta0) /\
  normalize env0 7%nat default_min_percentile default_max_percentile = Ok normalized /\
  move_image_axes env0 normalized (PyStr.upper "YXC")
                  ("S" +:+ PyStr.lower (axes (config model0))) = Ok moved /\
  (if is_tf_1 env0 then tf1_predict env0 (logdir model0 // "tf_model") moved
   else tf2_predict env0 (logdir model0 // "tf_model") moved) = Ok prediction /\
  np_iter env0 prediction = Ok outs /\
  Forall2 (fun out s => move_image_axes env0 out out_axes ("b" +:+ out_axes) = Ok s)
          outs saved /\
  (forall i s, saved !! i = Some s ->
               In (EvNpSave (outpath0 // test_output_name i) s) (fst meta0)) /\
  (forall p a, In (EvNpSave p a) (fst meta0) ->
               p = outpath0 // "test_input.npy" /\ a = raw \/
               exists i, saved !! i = Some a /\ p = outpath0 // test_output_name i).
Proof.
apply (test_outputs_from_normalized_input env0 model0 7%nat "YXC" default_mode
         default_prefer_weights default_min_percentile default_max_percentile
         outpath0 (fst meta0) meta0_data).
apply (succeeded_eq ∅ meta0). vm_compute. reflexivity.
Defined.

End SampleRuns.

(** ** The further statements on the sample runs *)

Section SampleRuns2.

Import Sample Runs Runs2.

Lemma nonempty_length {A} (l : list A) : Nat.ltb 0 (List.length l) = true -> l <> [].
Proof. destruct l; [discriminate | discriminate]. Qed.

Lemma license_run_last :
List.last (fst (run_with license_override)) (EvMkdir outpath0) =
EvBuildModel default_name (outpath0 // "bioimageio_model.zip")
             (last_kwargs (fst (run_with license_override))).
Proof. vm_compute. reflexivity. Qed.

Lemma run0_builds :
In (EvBuildModel default_name (outpath0 // "bioimageio_model.zip")
                 (last_kwargs (fst run0)))
   (fst run0).
Proof.
rewrite <- run0_last. apply last_In, nonempty_length. vm_compute. reflexivity.
Qed.

Lemma model_empty_no_weights : forall f, ~ is_weight_file env0 model_empty f.
Proof. intros f [Hin _]. vm_compute in Hin. exact Hin. Qed.

Lemma missing_libraries_abort_witness :
can_import env_no_libs = false /\
export0 env_no_libs model0 outpath0 default_min_percentile default_max_percentile
  = ([], Raise (RuntimeError import_error_msg)).
Proof.
split; [reflexivity|].
apply (missing_libraries_abort env_no_libs model0). reflexivity.
Defined.

Lemma export_calls_confined_witness :
In (EvBuildModel default_name (outpath0 // "bioimageio_model.zip")
                 (last_kwargs (fst run0))) (fst run0) /\
outpath0 // "bioimageio_model.zip" = zip_path_of outpath0 default_name /\
(In (EvExportTF (logdir0 // "TF_SavedModel.zip")) (fst run0) ->
 logdir0 // "TF_SavedModel.zip" = logdir model0 // "TF_SavedModel.zip").
Proof.
pose proof (export_calls_confined env0 model0 outpath0 7%nat "YXC" default_name
              default_mode default_prefer_weights default_min_percentile
              default_max_percentile ∅) as H.
cbv zeta in H. destruct H as (_ & _ & _ & _ & Hexp & _ & Hbuild).
split; [exact run0_builds|]. split.
- exact (proj2 (Hbuild _ _ _ run0_builds)).
- exact (Hexp _).
Defined.

Lemma export_loads_chosen_weights_witness :
_get_weights_name env0 model0 default_prefer_weights = ([], Ok "weights_best.h5") /\
exists f, is_weight_file env0 model0 f /\ d_name f = "weights_best.h5".
Proof.
apply (export_loads_chosen_weights env0 model0 outpath0 7%nat "YXC" default_name
         default_mode default_prefer_weights default_min_percentile
         default_max_percentile ∅).
apply (nth_error_In _ 3). vm_compute. reflexivity.
Defined.

Lemma export_overrides_win_witness :
last_kwargs (fst (run_with license_override)) !! "license" = Some (VStr "MIT").
Proof.
apply (export_overrides_win env0 model0 outpath0 7%nat "YXC" default_name default_mode
         default_prefer_weights default_min_percentile default_max_percentile
         license_override default_name (outpath0 // "bioimageio_model.zip")).
- change (In (EvBuildModel default_name (outpath0 // "bioimageio_model.zip")
                           (last_kwargs (fst (run_with license_override))))
             (fst (run_with license_override))).
  rewrite <- license_run_last. apply last_In, nonempty_length. vm_compute. reflexivity.
- reflexivity.
Defined.

Lemma export_rejects_name_override_witness :
no_build (fst (run_with name_override)) /\ raises (run_with name_override).
Proof.
apply (export_rejects_name_override env0 model0 outpath0 7%nat "YXC" default_name
         default_mode default_prefer_weights default_min_percentile
         default_max_percentile name_override).
left. exists (VStr "other"). reflexivity.
Defined.

Lemma export_other_mode_leaves_model_alone_witness :
raises (export_bioimageio env0 model0 outpath0 7%nat "YXC" default_name "keras_hdf5"
          default_prefer_weights default_min_percentile default_max_percentile ∅) /\
forall ev,
  In ev (fst (export_bioimageio env0 model0 outpath0 7%nat "YXC" default_name
                "keras_hdf5" default_prefer_weights default_min_percentile
                default_max_percentile ∅)) ->
  ev = EvMkdir (outdir_of outpath0) \/
  exists p text, ev = EvWriteText p text /\
                 (p = outdir_of outpath0 // "requirements.txt" \/
                  p = outdir_of outpath0 // "README.md").
Proof.
apply (export_other_mode_leaves_model_alone env0 model0 outpath0 7%nat "YXC"
         default_name "keras_hdf5" default_prefer_weights default_min_percentile
         default_max_percentile ∅).
discriminate.
Defined.

Lemma empty_prefer_picks_newest_witness :
exists f,
  _get_weights_name env0 model0 EmptyString = ([], Ok (d_name f)) /\
  is_weight_file env0 model0 f /\
  forall g, is_weight_file env0 model0 g -> (d_mtime g <= d_mtime f)%Q.
Proof.
apply (empty_prefer_picks_newest env0 model0). exact model0_has_weights.
Defined.

Lemma requirements_file_lists_requirements_witness :
exists text,
  fst (_create_stardist_dependencies env0 outpath0)
    = [EvWriteText (outpath0 // "requirements.txt") text] /\
  PyStr.split_char (ascii_of_nat 10) text = ["tensorflow"; "csbdeep>=0.6.3"; "numpy"] /\
  forall t v, _create_stardist_dependencies env0 outpath0 = (t, Ok v) ->
              v = "pip:" +:+ PyPath.to_string (outpath0 // "requirements.txt").
Proof.
apply (requirements_file_lists_requirements env0 outpath0 ["csbdeep>=0.6.3"; "numpy"]).
- reflexivity.
- repeat constructor.
Defined.

Lemma metadata_writes_after_reads_witness :
can_import env0 = true /\
exists package_data author requires,
  pkg_metadata env0 "stardist" = Ok package_data /\
  (exists v, package_data "Summary" = Ok v) /\
  package_data "Author" = Ok (Some author) /\
  (exists v, package_data "Home-Page" = Ok v) /\
  (exists v, package_data "License" = Ok v) /\
  pkg_requires env0 "stardist" = Ok requires /\
  let req := outpath0 // "requirements.txt" in
  let text := PyStr.join PyStr.newline ("tensorflow" :: requires) in
  (fst metadata0 = [EvWriteText req text] \/
   fst metadata0 = [EvWriteText req text; EvWriteText (outpath0 // "README.md") doc_text] /\
   os_write_text env0 req text = Ok tt).
Proof.
apply (metadata_writes_after_reads env0 outpath0 (fst metadata0) (snd metadata0)).
- apply surjective_pairing.
- apply nonempty_length. vm_compute. reflexivity.
Defined.

Lemma missing_weights_leave_files_witness :
exists requires,
  pkg_requires env0 "stardist" = Ok requires /\
  export0 env0 model_empty outpath0 default_min_percentile default_max_percentile
  = ([EvMkdir (outdir_of outpath0);
      EvWriteText (outdir_of outpath0 // "requirements.txt")
                  (PyStr.join PyStr.newline ("tensorflow" :: requires));
      EvWriteText (outdir_of outpath0 // "README.md") doc_text],
     Raise no_weights_error).
Proof.
apply (missing_weights_leave_files env0 model_empty outpath0 7%nat "YXC" default_name
         default_mode default_prefer_weights default_min_percentile
         default_max_percentile ∅).
- reflexivity.
- reflexivity.
- exact in_bounds_defaults.
- left. reflexivity.
- reflexivity.
- exists (fst metadata0), (value_or ∅ metadata0).
  apply (succeeded_eq ∅ metadata0). vm_compute. reflexivity.
- exact model_empty_no_weights.
Defined.

Lemma export_success_requires_witness :
can_import env0 = true /\ is_stardist model0 = true /\
within_percentile_bounds default_min_percentile default_max_percentile /\
(PyPath.suffix outpath0 = EmptyString \/ PyPath.suffix outpath0 = ".zip") /\
default_mode = "tensorflow_saved_model_bundle" /\ _is_multiclass model0 = false /\
(exists f, is_weight_file env0 model0 f) /\
(∅ : gmap string pyval) !! "name" = None /\
(∅ : gmap string pyval) !! "output_path" = None /\
exists kwargs, build_model env0 default_name (zip_path_of outpath0 default_name) kwargs
               = Ok tt.
Proof.
apply (export_success_requires env0 model0 outpath0 7%nat "YXC" default_name default_mode
         default_prefer_weights default_min_percentile default_max_percentile ∅
         (fst run0)).
apply (succeeded_unit run0). vm_compute. reflexivity.
Defined.

Lemma archive_in_output_directory_witness :
exists t', fst run0 = EvMkdir (PyPath.parent (outpath0 // "bioimageio_model.zip")) :: t'.
Proof.
apply (archive_in_output_directory env0 model0 outpath0 7%nat "YXC" default_name
         default_mode default_prefer_weights default_min_percentile
         default_max_percentile ∅ (fst run0) (snd run0) default_name
         (outpath0 // "bioimageio_model.zip") (last_kwargs (fst run0))).
- apply surjective_pairing.
- exact run0_builds.
- reflexivity.
Defined.

Lemma preprocessing_matches_normalization_witness :
exists a normalized,
  a = without_char "c" (PyStr.lower (axes (config model0))) /\
  has_char "c" a = false /\
  meta0_data !! "preprocessing" =
    Some (VList [VDict (list_to_map
            [ ("scale_range", VDict (list_to_map
                 [ ("mode", VStr "per_sample");
                   ("axes", VStr a);
                   ("min_percentile", VFloat default_min_percentile);
                   ("max_percentile", VFloat default_max_percentile) ])) ])]) /\
  normalize env0 7%nat default_min_percentile default_max_percentile = Ok normalized.
Proof.
apply (preprocessing_matches_normalization env0 model0 outpath0 7%nat "YXC" default_mode
         default_prefer_weights default_min_percentile default_max_percentile
         (fst meta0) meta0_data).
apply (succeeded_eq ∅ meta0). vm_compute. reflexivity.
Defined.

Lemma tensor_description_shapes_witness :
exists div_by scale offset,
  _axes_div_by model0 (PyStr.lower (axes (config model0))) = Ok div_by /\
  meta0_data !! "input_min_shape" = Some (VList [VList (VInt 1 :: List.map VInt div_by)]) /\
  meta0_data !! "input_step" = Some (VList [VList (VInt 0 :: List.map VInt div_by)]) /\
  meta0_data !! "output_scale" = Some (VList [VList scale]) /\
  meta0_data !! "output_offset" = Some (VList [VList offset]) /\
  List.length scale = Z.to_nat (n_dim (config model0) + 2) /\
  List.length offset = Z.to_nat (n_dim (config model0) + 2) /\
  List.last scale VNone = VInt 0 /\
  List.last offset VNone = VInt (1 + n_rays (config model0)).
Proof.
apply (tensor_description_shapes env0 model0 outpath0 7%nat "YXC" default_mode
         default_prefer_weights default_min_percentile default_max_percentile
         (fst meta0) meta0_data).
- apply (succeeded_eq ∅ meta0). vm_compute. reflexivity.
- cbn. lia.
Defined.

Lemma builder_keyword_arguments_witness :
dom (last_kwargs (fst run0)) =
  list_to_set package_keys ∪ list_to_set model_keys ∪ dom (∅ : gmap string pyval).
Proof.
apply (builder_keyword_arguments env0 model0 7%nat "YXC" default_mode
         default_prefer_weights default_min_percentile default_max_percentile
         outpath0 default_name ∅ (fst run0) (snd run0) default_name
         (outpath0 // "bioimageio_model.zip")).
- apply surjective_pairing.
- exact run0_builds.
Defined.

End SampleRuns2.
